(** * Chevening course finder: request / render pipeline

    Shallow embedding of [index.tsx] (and of the older variant of the same
    page, which shares the text of [showLoading], [showError],
    [fileToGenerativePart] and of the validation part of the submit
    listener).

    - JavaScript strings are embedded as [string] holding the UTF-8 bytes of
      the text; substring search on UTF-8 bytes agrees with substring search
      on code points.
    - The parsed response is untyped: every property is an [option], [None]
      standing for a property that is absent.
    - Functions that may throw return a [Js.result]; code that awaits a
      promise runs in [Page.Eff], whose outcome is the state of a promise.
    - The runtime ([FileReader], base64, [JSON.parse], [trim]) and the model
      service are collaborators: the first two are embedded after their
      specifications, the others are parameters of the submit listener.
    - The page keeps, for [innerHTML] and [textContent] of an element, the
      text last assigned to it. Reading [innerHTML] back, as [+=] does, goes
      through the browser, which returns the markup of what it parsed; that
      getter and the wording of the engine's [TypeError] are the two fields
      of [Engine.t], a parameter of everything that depends on them.
    - The rotation timers are kept one by one: the one whose handle the
      variable [messageInterval] holds, and those set before it and never
      cleared.

    Definitions come first, then [Spec], the vocabulary of the properties,
    then the properties themselves. *)

From Stdlib Require Import Strings.String Strings.Ascii Strings.Byte.
From Stdlib Require Import Lists.List ZArith.ZArith NArith.NArith Arith.Arith.
From Stdlib Require Import micromega.Lia Bool.Bool.
From Stdlib Require Import Numbers.DecimalString.
Import ListNotations.

Local Open Scope list_scope.
Local Open Scope string_scope.

(** ** JavaScript strings *)

Module Js.

(** The double quote, which string literals below never spell directly. *)
Definition dq : string := String (ascii_of_nat 34) EmptyString.

(** [q s] is [s] between double quotes (an HTML attribute value). *)
Definition q (s : string) : string := dq ++ s ++ dq.

Definition newline : ascii := ascii_of_nat 10.

Fixpoint spaces (n : nat) : string :=
  match n with
  | O => EmptyString
  | S k => String " " (spaces k)
  end.

(** A line break of a template literal followed by [n] columns of
    indentation. *)
Definition nl (n : nat) : string := String newline (spaces n).

(** [String.prototype.toLowerCase] on one code unit, for the ASCII range.
    Bytes of non-ASCII characters are left as they are. The only characters
    outside ASCII whose lower case holds an ASCII letter are U+212A (k) and
    U+0130 (i followed by U+0307); neither yields a letter of "mba" nor
    completes "verify", the two patterns the renderer looks for. *)
Definition lower_ascii (c : ascii) : ascii :=
  let n := nat_of_ascii c in
  if andb (Nat.leb 65 n) (Nat.leb n 90) then ascii_of_nat (n + 32) else c.

Fixpoint toLowerCase (s : string) : string :=
  match s with
  | EmptyString => EmptyString
  | String c r => String (lower_ascii c) (toLowerCase r)
  end.

(** [startsWith s p]: [p] is a prefix of [s]. *)
Fixpoint startsWith (s p : string) {struct p} : bool :=
  match p with
  | EmptyString => true
  | String pc pr =>
      match s with
      | EmptyString => false
      | String sc sr => if Ascii.eqb pc sc then startsWith sr pr else false
      end
  end.

(** [String.prototype.includes]. *)
Fixpoint includes (s p : string) : bool :=
  if startsWith s p then true
  else match s with
       | EmptyString => false
       | String _ r => includes r p
       end.

(** Number of positions of [s] at which [p] occurs. *)
Fixpoint occurrences (p s : string) : nat :=
  (if startsWith s p then 1 else 0) +
  match s with
  | EmptyString => 0
  | String _ r => occurrences p r
  end.

(** [c] occurs in [s]. *)
Fixpoint mem (c : ascii) (s : string) : bool :=
  match s with
  | EmptyString => false
  | String d r => if Ascii.eqb c d then true else mem c r
  end.

(** [s.split(',')]: the pieces of [s] between commas; never empty. *)
Fixpoint split_comma (s : string) : list string :=
  match s with
  | EmptyString => [EmptyString]
  | String c r =>
      if Ascii.eqb c "," then EmptyString :: split_comma r
      else match split_comma r with
           | [] => [String c EmptyString]
           | p :: ps => String c p :: ps
           end
  end.

(** [xs.join('')]. *)
Definition join (xs : list string) : string := String.concat "" xs.

(** Number-to-string conversion of an integer, as a template literal does it
    (decimal, with a minus sign). *)
Definition string_of_Z (z : Z) : string :=
  NilZero.string_of_int (Z.to_int z).

(** A thrown value. [TypeError p] is the engine's error for reading property
    [p] of [undefined] or [null]; [ErrorObject m] any other instance of
    [Error] with message [m]; [Thrown] a value that is no instance of
    [Error]. *)
Inductive exn : Type :=
| TypeError (prop : string)
| ErrorObject (message : string)
| Thrown.

Inductive result (A : Type) : Type :=
| Ok (a : A)
| Throw (e : exn).
Arguments Ok {A} a.
Arguments Throw {A} e.

Definition bind {A B} (m : result A) (k : A -> result B) : result B :=
  match m with
  | Ok a => k a
  | Throw e => Throw e
  end.

Definition fmap {A B} (f : A -> B) (m : result A) : result B :=
  bind m (fun a => Ok (f a)).

(** [xs.map(f)] where [f] may throw: stops at the first element on which it
    does. *)
Fixpoint mapM {A B} (f : A -> result B) (xs : list A) : result (list B) :=
  match xs with
  | [] => Ok []
  | x :: r =>
      bind (f x) (fun y => bind (mapM f r) (fun ys => Ok (y :: ys)))
  end.

(** Reading property access [o.p.m(...)]: a method call on an absent
    property throws. *)
Definition required {A} (prop : string) (o : option A) : result A :=
  match o with
  | Some a => Ok a
  | None => Throw (TypeError prop)
  end.

(** Interpolation of a possibly absent text property in a template
    literal. *)
Definition interp (o : option string) : string :=
  match o with
  | Some s => s
  | None => "undefined"
  end.

(** Interpolation of a possibly absent number property. The schema asks
    for integers ([rank], [duration_months]); the embedding holds the
    integer and prints its digits, as the engine does for the integers a
    number holds exactly below 10^21. A fraction, or an integer beyond
    that, prints otherwise and is outside the embedding. *)
Definition interpZ (o : option Z) : string :=
  match o with
  | Some z => string_of_Z z
  | None => "undefined"
  end.

End Js.

Notation "x <- m ;; k" := (Js.bind m (fun x => k))
  (at level 61, m at next level, right associativity).

Import Js.


(** ** Data model: the parsed response

    The response is untyped JSON; every property may be absent ([None]). *)

Module Profile.
Record t : Type := mk
  { strengths : option (list string);
    gaps : option (list string) }.
End Profile.

Module EligibilityCheck.
Record t : Type := mk
  { is_eligible : option bool;
    reason : option string }.
End EligibilityCheck.

Module CourseEntry.
Record t : Type := mk
  { rank : option Z;
    university : option string;
    programme : option string;
    city : option string;
    url : option string;
    start_cycle : option string;
    duration_months : option Z;
    fee_gbp : option string;
    chevening_rationale : option (list string);
    eligibility_check : option EligibilityCheck.t;
    score_breakdown : option string }.
End CourseEntry.

Module TrioEntry.
Record t : Type := mk
  { university : option string;
    programme : option string;
    why_this_trio : option string }.
End TrioEntry.

Module Bullets.
Record t : Type := mk
  { leadership : option (list string);
    networking : option (list string);
    career_plan : option (list string) }.
End Bullets.

Module AlternativeEntry.
Record t : Type := mk
  { university : option string;
    programme : option string;
    url : option string;
    why_consider : option string }.
End AlternativeEntry.

Module ResultDocument.
Record t : Type := mk
  { profile : option Profile.t;
    chevening_trio : option (list TrioEntry.t);
    ranked_courses : option (list CourseEntry.t);
    personal_statement_bullets : option Bullets.t;
    alternatives : option (list AlternativeEntry.t);
    notes : option (list string) }.
End ResultDocument.

(** ** Result Renderer *)

Module Render.

(** Truthiness of a possibly absent string: absent and empty are falsy. *)
Definition truthy_string (o : option string) : bool :=
  match o with
  | Some s => negb (s =? "")
  | None => false
  end.

(** Truthiness of a possibly absent boolean. *)
Definition truthy_bool (o : option bool) : bool :=
  match o with
  | Some b => b
  | None => false
  end.

(** [xs.map(x => `<li>${x}</li>`).join('')] *)
Definition li_items (xs : list string) : string :=
  join (map (fun x => "<li>" ++ x ++ "</li>") xs).

Definition renderProfileAnalysis (profile : Profile.t) : string :=
  match Profile.strengths profile, Profile.gaps profile with
  | Some strengths, Some gaps =>
      nl 6 ++ "<div id=" ++ q "profile-analysis-section" ++ " class=" ++ q "result-category" ++ ">" ++
      nl 8 ++ "<h2>CV Analysis vs. Chevening Criteria</h2>" ++
      nl 8 ++ "<div class=" ++ q "profile-columns" ++ ">" ++
      nl 12 ++ "<div class=" ++ q "profile-column" ++ ">" ++
      nl 16 ++ "<h3>Strengths</h3>" ++
      nl 16 ++ "<ul>" ++ li_items strengths ++ "</ul>" ++
      nl 12 ++ "</div>" ++
      nl 12 ++ "<div class=" ++ q "profile-column" ++ ">" ++
      nl 16 ++ "<h3>Potential Gaps</h3>" ++
      nl 16 ++ "<ul>" ++ li_items gaps ++ "</ul>" ++
      nl 12 ++ "</div>" ++
      nl 8 ++ "</div>" ++
      nl 6 ++ "</div>" ++
      nl 4
  | _, _ => ""
  end.

(** The fixed fee-cap advisory of [renderTrio] and [renderRankedCourses]. *)
Definition mbaAdvisory : string :=
  "<p class=" ++ q "mba-warning" ++ "><strong>MBA Fee Cap:</strong> Chevening caps MBA tuition at £22,000. You must fund any difference.</p>".

(** The diversification advisory of [renderTrio]. *)
Definition trioAdvisory : string :=
  "<p class=" ++ q "trio-warning" ++ "><strong>Note:</strong> All three choices are from the same university. This is permitted, but Chevening often recommends diversifying your choices to spread risk.</p>".

Definition option_string_dec (a b : option string) : {a = b} + {a <> b}.
Proof. decide equality. apply string_dec. Defined.

(** [new Set(trio.map(course => course.university)).size] *)
Definition universities_size (trio : list TrioEntry.t) : nat :=
  length (nodup option_string_dec (map TrioEntry.university trio)).

Definition singleUniversity (trio : list TrioEntry.t) : bool :=
  andb (Nat.eqb (universities_size trio) 1) (Nat.ltb 1 (length trio)).

Definition isMBA (programme : string) : bool :=
  includes (toLowerCase programme) "mba".

Definition trioCard (course : TrioEntry.t) : result string :=
  programme <- required "toLowerCase" (TrioEntry.programme course) ;;
  let mbaWarning := if isMBA programme then mbaAdvisory else "" in
  Ok (nl 12 ++ "<div class=" ++ q "trio-card" ++ ">" ++
      nl 14 ++ "<h3>" ++ interp (TrioEntry.programme course) ++ "</h3>" ++
      nl 14 ++ "<p class=" ++ q "university" ++ ">" ++ interp (TrioEntry.university course) ++ "</p>" ++
      nl 14 ++ "<p>" ++ interp (TrioEntry.why_this_trio course) ++ "</p>" ++
      nl 14 ++ mbaWarning ++
      nl 12 ++ "</div>" ++
      nl 10).

Definition renderTrio (trio : list TrioEntry.t) : result string :=
  let singleUniversityWarning :=
    if singleUniversity trio then trioAdvisory else "" in
  cards <- mapM trioCard trio ;;
  Ok (nl 6 ++ "<div class=" ++ q "result-category" ++ ">" ++
      nl 8 ++ "<h2>Your Recommended Chevening Trio</h2>" ++
      nl 8 ++ singleUniversityWarning ++
      nl 8 ++ join cards ++
      nl 6 ++ "</div>" ++
      nl 4).

Definition eligibilityBadge (ec : option EligibilityCheck.t) : string :=
  match ec with
  | Some c =>
      if truthy_bool (EligibilityCheck.is_eligible c)
      then "<span class=" ++ q "eligibility-badge" ++ ">Chevening-eligible ✅</span>"
      else "<span class=" ++ q "eligibility-badge ineligible" ++ ">Ineligible ❌</span>"
  | None => ""
  end.

Definition eligibilityReason (ec : option EligibilityCheck.t) : string :=
  match ec with
  | Some c =>
      if negb (truthy_bool (EligibilityCheck.is_eligible c))
      then "<p class=" ++ q "ineligible-reason" ++ ">" ++ interp (EligibilityCheck.reason c) ++ "</p>"
      else ""
  | None => ""
  end.

Definition feeDisplay (fee_gbp : option string) : string :=
  match fee_gbp with
  | Some fee =>
      if andb (truthy_string fee_gbp) (includes (toLowerCase fee) "verify")
      then "<span class=" ++ q "verify-chip" ++ ">" ++ fee ++ "</span>"
      else "💷 " ++ (if truthy_string fee_gbp then fee else "N/A")
  | None => "💷 N/A"
  end.

Definition scoreDisclosure (score_breakdown : option string) : string :=
  if truthy_string score_breakdown
  then nl 14 ++ "<details class=" ++ q "score-breakdown" ++ ">" ++
       nl 18 ++ "<summary>Why this rank?</summary>" ++
       nl 18 ++ "<p>" ++ interp score_breakdown ++ "</p>" ++
       nl 14 ++ "</details>" ++
       nl 14
  else "".

Definition courseCard (course : CourseEntry.t) : result string :=
  let eligibility_check := CourseEntry.eligibility_check course in
  let score_breakdown := CourseEntry.score_breakdown course in
  let fee_gbp := CourseEntry.fee_gbp course in
  programme <- required "toLowerCase" (CourseEntry.programme course) ;;
  let mbaWarning := if isMBA programme then mbaAdvisory else "" in
  rationale <- required "map" (CourseEntry.chevening_rationale course) ;;
  Ok (nl 12 ++ "<div class=" ++ q "course-card" ++ ">" ++
      nl 14 ++ "<h3>" ++ interpZ (CourseEntry.rank course) ++ ". " ++ interp (CourseEntry.programme course) ++ "</h3>" ++
      nl 14 ++ "<p class=" ++ q "university" ++ ">" ++ interp (CourseEntry.university course) ++ "</p>" ++
      nl 14 ++ eligibilityBadge eligibility_check ++
      nl 14 ++ eligibilityReason eligibility_check ++
      nl 14 ++ mbaWarning ++
      nl 14 ++ "<div class=" ++ q "details" ++ ">" ++
      nl 16 ++ "<span>📍 " ++ interp (CourseEntry.city course) ++ "</span>" ++
      nl 16 ++ "<span>🗓️ " ++ interp (CourseEntry.start_cycle course) ++ "</span>" ++
      nl 16 ++ "<span>⏳ " ++ interpZ (CourseEntry.duration_months course) ++ " months</span>" ++
      nl 16 ++ "<span>" ++ feeDisplay fee_gbp ++ "</span>" ++
      nl 14 ++ "</div>" ++
      nl 14 ++ scoreDisclosure score_breakdown ++
      nl 14 ++ "<div class=" ++ q "chevening-rationale" ++ ">" ++
      nl 16 ++ "<strong>Chevening Rationale:</strong>" ++
      nl 16 ++ "<ul>" ++
      nl 18 ++ li_items rationale ++
      nl 16 ++ "</ul>" ++
      nl 14 ++ "</div>" ++
      nl 14 ++ "<p><a href=" ++ q (interp (CourseEntry.url course)) ++ " target=" ++ q "_blank" ++ " rel=" ++ q "noopener noreferrer" ++ ">Visit course page →</a></p>" ++
      nl 12 ++ "</div>" ++
      nl 10).

Definition renderRankedCourses (courses : list CourseEntry.t) : result string :=
  cards <- mapM courseCard courses ;;
  Ok (nl 6 ++ "<div class=" ++ q "result-category" ++ ">" ++
      nl 8 ++ "<h2>Top Ranked Courses</h2>" ++
      nl 8 ++ join cards ++
      nl 6 ++ "</div>" ++
      nl 4).

Definition renderBullets (bullets : Bullets.t) : result string :=
  leadership <- required "map" (Bullets.leadership bullets) ;;
  networking <- required "map" (Bullets.networking bullets) ;;
  career_plan <- required "map" (Bullets.career_plan bullets) ;;
  Ok (nl 8 ++ "<div class=" ++ q "result-category personal-statement-bullets" ++ ">" ++
      nl 12 ++ "<h2>Personal Statement Talking Points</h2>" ++
      nl 12 ++ "<h4>Leadership</h4>" ++
      nl 12 ++ "<ul>" ++ li_items leadership ++ "</ul>" ++
      nl 12 ++ "<h4>Networking</h4>" ++
      nl 12 ++ "<ul>" ++ li_items networking ++ "</ul>" ++
      nl 12 ++ "<h4>Career Plan</h4>" ++
      nl 12 ++ "<ul>" ++ li_items career_plan ++ "</ul>" ++
      nl 8 ++ "</div>" ++
      nl 4).

(** [index.tsx] closes the inner template literal of this function with a
    brace where the older variant of the page, whose text is otherwise the
    same, has the back quote; the embedding reads the back quote. *)
Definition alternativeCard (alt : AlternativeEntry.t) : string :=
  nl 10 ++ "<div class=" ++ q "course-card" ++ ">" ++
  nl 13 ++ "<h3>" ++ interp (AlternativeEntry.programme alt) ++ "</h3>" ++
  nl 13 ++ "<p class=" ++ q "university" ++ ">" ++ interp (AlternativeEntry.university alt) ++ "</p>" ++
  nl 13 ++ "<p>" ++ interp (AlternativeEntry.why_consider alt) ++ "</p>" ++
  nl 13 ++ "<p><a href=" ++ q (interp (AlternativeEntry.url alt)) ++ " target=" ++ q "_blank" ++ " rel=" ++ q "noopener noreferrer" ++ ">Visit course page →</a></p>" ++
  nl 10 ++ "</div>" ++
  nl 8.

Definition renderAlternatives (alternatives : list AlternativeEntry.t) : string :=
  nl 6 ++ "<div class=" ++ q "result-category" ++ ">" ++
  nl 8 ++ "<h2>Alternative Options</h2>" ++
  nl 8 ++ join (map alternativeCard alternatives) ++
  nl 6 ++ "</div>" ++
  nl 4.

Definition renderNotes (notes : list string) : string :=
  nl 8 ++ "<div class=" ++ q "result-category" ++ ">" ++
  nl 12 ++ "<h2>Important Notes</h2>" ++
  nl 12 ++ "<ul>" ++
  nl 16 ++ li_items notes ++
  nl 12 ++ "</ul>" ++
  nl 8 ++ "</div>" ++
  nl 4.

End Render.


(** ** Base64 (RFC 4648), as the runtime's [FileReader.readAsDataURL]
    produces it and as the receiving side reads it back *)

Module Base64.

Definition alphabet : string :=
  "ABCDEFGHIJKLMNOPQRSTUVWXYZabcdefghijklmnopqrstuvwxyz0123456789+/".

Definition pad : ascii := "=".

Definition char_of_sextet (n : N) : ascii :=
  match String.get (N.to_nat n) alphabet with
  | Some c => c
  | None => pad
  end.

Definition sextet_of_char (c : ascii) : option N :=
  let n := N_of_ascii c in
  (if andb (65 <=? n) (n <=? 90) then Some (n - 65)
   else if andb (97 <=? n) (n <=? 122) then Some (n - 71)
   else if andb (48 <=? n) (n <=? 57) then Some (n + 4)
   else if n =? 43 then Some 62
   else if n =? 47 then Some 63
   else None)%N.

(** The 24-bit group of three bytes. *)
Definition group (a b c : byte) : N :=
  (Byte.to_N a * 65536 + Byte.to_N b * 256 + Byte.to_N c)%N.

Definition byte_of_N (n : N) : byte :=
  match Byte.of_N (n mod 256)%N with
  | Some b => b
  | None => x00
  end.

Fixpoint encode (bs : list byte) : string :=
  match bs with
  | [] => ""
  | [a] =>
      let n := group a x00 x00 in
      String (char_of_sextet (n / 262144)%N)
        (String (char_of_sextet ((n / 4096) mod 64)%N)
           (String pad (String pad "")))
  | [a; b] =>
      let n := group a b x00 in
      String (char_of_sextet (n / 262144)%N)
        (String (char_of_sextet ((n / 4096) mod 64)%N)
           (String (char_of_sextet ((n / 64) mod 64)%N) (String pad "")))
  | a :: b :: c :: r =>
      let n := group a b c in
      String (char_of_sextet (n / 262144)%N)
        (String (char_of_sextet ((n / 4096) mod 64)%N)
           (String (char_of_sextet ((n / 64) mod 64)%N)
              (String (char_of_sextet (n mod 64)%N) (encode r))))
  end.

Definition is_empty (s : string) : bool :=
  match s with
  | EmptyString => true
  | String _ _ => false
  end.

Fixpoint decode (s : string) : option (list byte) :=
  match s with
  | EmptyString => Some []
  | String c0 (String c1 (String c2 (String c3 r))) =>
      match sextet_of_char c0, sextet_of_char c1,
            sextet_of_char c2, sextet_of_char c3 with
      | Some s0, Some s1, Some s2, Some s3 =>
          let n := (s0 * 262144 + s1 * 4096 + s2 * 64 + s3)%N in
          match decode r with
          | Some bs =>
              Some (byte_of_N (n / 65536)%N :: byte_of_N (n / 256)%N
                      :: byte_of_N n :: bs)
          | None => None
          end
      | Some s0, Some s1, Some s2, None =>
          let n := (s0 * 262144 + s1 * 4096 + s2 * 64)%N in
          if andb (Ascii.eqb c3 pad) (is_empty r)
          then Some [byte_of_N (n / 65536)%N; byte_of_N (n / 256)%N]
          else None
      | Some s0, Some s1, None, None =>
          let n := (s0 * 262144 + s1 * 4096)%N in
          if andb (Ascii.eqb c2 pad) (andb (Ascii.eqb c3 pad) (is_empty r))
          then Some [byte_of_N (n / 65536)%N]
          else None
      | _, _, _, _ => None
      end
  | _ => None
  end.

End Base64.

(** ** File Encoder *)

Module File.
(** A [File] of the file picker: its name, its [type] property, its content,
    and whether the runtime can still read it when asked to. *)
Record t : Type := mk
  { name : string;
    type : string;
    bytes : list byte;
    readable : bool }.
End File.

(** State of a promise once the event loop has run dry. *)
Inductive settled (A : Type) : Type :=
| Fulfilled (a : A)
| Rejected (e : exn)
| Pending.
Arguments Fulfilled {A} a.
Arguments Rejected {A} e.
Arguments Pending {A}.

Module Encoder.

Record InlineData : Type := mkInlineData
  { data : option string;
    mimeType : string }.

(** [reader.result] at [loadend]: the data URL of RFC 2397 on success (the
    runtime writes [application/octet-stream] for an empty [type]), [null]
    when the read failed. *)
Definition readAsDataURL (file : File.t) : option string :=
  if File.readable file
  then Some ("data:"
             ++ (if File.type file =? "" then "application/octet-stream"
                 else File.type file)
             ++ ";base64," ++ Base64.encode (File.bytes file))
  else None.

(** The [onloadend] listener; its result is the argument it passes to
    [resolve]. *)
Definition onloadend (reader_result : option string) : result (option string) :=
  dataUrl <- required "split" reader_result ;;
  Ok (nth_error (split_comma dataUrl) 1).

(** [base64EncodedDataPromise]: the executor receives [resolve] only; an
    exception inside the listener is reported by the runtime and settles
    nothing. *)
Definition base64EncodedDataPromise (file : File.t) : settled (option string) :=
  match onloadend (readAsDataURL file) with
  | Ok base64Data => Fulfilled base64Data
  | Throw _ => Pending
  end.

Definition fileToGenerativePart (file : File.t) : settled InlineData :=
  match base64EncodedDataPromise file with
  | Fulfilled d => Fulfilled {| data := d; mimeType := File.type file |}
  | Rejected e => Rejected e
  | Pending => Pending
  end.

(** Reading the transport representation back: the bytes the base64 text
    stands for, and the MIME type. *)
Definition decodePart (part : InlineData) : option (list byte * string) :=
  match data part with
  | Some d =>
      match Base64.decode d with
      | Some bs => Some (bs, mimeType part)
      | None => None
      end
  | None => None
  end.

End Encoder.

(** ** The browser and the script engine *)

Module Engine.

(** [innerHTML text] is what the getter of [innerHTML] returns for an
    element whose [innerHTML] was last assigned [text]: the serialisation of
    the nodes the browser parsed from it (character data comes back
    escaped, markup normalised). [typeErrorMessage p] is the message of the
    [TypeError] the engine throws when property [p] of [undefined] is
    read. *)
Record t : Type := mk
  { innerHTML : string -> string;
    typeErrorMessage : string -> string }.

End Engine.

(** ** UI State Controller *)

Module Page.

(** The request handed to [ai.models.generateContent] (the schema constant
    of its [config] is fixed and not part of this record). *)
Record GenerateContentParameters : Type := mkRequest
  { model : string;
    filePart : Encoder.InlineData;
    textPart : string;
    systemInstruction : string;
    responseMimeType : string }.

(** The part of the document the page reads and writes. [innerHTML] and
    [textContent] are held as the text last assigned. [messageInterval] is
    [Some i] while the rotation timer whose handle the variable
    [messageInterval] holds is running, [i] being the [messageIndex] of its
    callback, and [None] before the first timer is set and once that timer
    is cleared; [strayIntervals] are the [messageIndex] of the timers that
    were set earlier and still run: the variable has lost their handles, so
    nothing clears them. [requests] lists the requests sent to the model
    service so far, latest first. *)
Record t : Type := mk
  { inputSection_hidden : bool;
    loadingSection_hidden : bool;
    loadingMessage : string;
    resultsSection : string;
    errorSection : string;
    errorSection_hidden : bool;
    submitButton_disabled : bool;
    messageInterval : option nat;
    pitfallsModal_hidden : bool;
    fileNameDisplay : string;
    fileUploadLabel : string;
    requests : list GenerateContentParameters;
    strayIntervals : list nat }.

Definition set_resultsSection (v : string) (st : t) : t :=
  mk (inputSection_hidden st) (loadingSection_hidden st) (loadingMessage st)
     v (errorSection st) (errorSection_hidden st) (submitButton_disabled st)
     (messageInterval st) (pitfallsModal_hidden st) (fileNameDisplay st)
     (fileUploadLabel st) (requests st) (strayIntervals st).

Definition set_pitfallsModal_hidden (v : bool) (st : t) : t :=
  mk (inputSection_hidden st) (loadingSection_hidden st) (loadingMessage st)
     (resultsSection st) (errorSection st) (errorSection_hidden st)
     (submitButton_disabled st) (messageInterval st) v (fileNameDisplay st)
     (fileUploadLabel st) (requests st) (strayIntervals st).

Definition set_fileLabels (display label : string) (st : t) : t :=
  mk (inputSection_hidden st) (loadingSection_hidden st) (loadingMessage st)
     (resultsSection st) (errorSection st) (errorSection_hidden st)
     (submitButton_disabled st) (messageInterval st) (pitfallsModal_hidden st)
     display label (requests st) (strayIntervals st).

Definition push_request (r : GenerateContentParameters) (st : t) : t :=
  mk (inputSection_hidden st) (loadingSection_hidden st) (loadingMessage st)
     (resultsSection st) (errorSection st) (errorSection_hidden st)
     (submitButton_disabled st) (messageInterval st) (pitfallsModal_hidden st)
     (fileNameDisplay st) (fileUploadLabel st) (r :: requests st)
     (strayIntervals st).

Definition loadingMessages : list string :=
  [ "Analyzing your CV against Chevening criteria...";
    "Searching the official course database...";
    "Scoring and ranking top matches...";
    "Compiling your personalized strategy...";
    "This may take a moment. Great recommendations are on their way!" ].

(** The timer of the variable [messageInterval], if it runs. *)
Definition running (st : t) : list nat :=
  match messageInterval st with
  | Some messageIndex => [messageIndex]
  | None => []
  end.

(** [showLoading(true)] sets a new timer and stores its handle in the
    variable without clearing the timer the variable referred to, which
    strays if it runs; [showLoading(false)] clears the timer of the
    variable. *)
Definition showLoading (show : bool) (st : t) : t :=
  if show
  then mk true false (nth 0 loadingMessages "undefined") "" (errorSection st)
          true true (Some 0) (pitfallsModal_hidden st) (fileNameDisplay st)
          (fileUploadLabel st) (requests st)
          (strayIntervals st ++ running st)
  else mk false true (loadingMessage st) (resultsSection st) (errorSection st)
          (errorSection_hidden st) false None (pitfallsModal_hidden st)
          (fileNameDisplay st) (fileUploadLabel st) (requests st)
          (strayIntervals st).

(** The callback of the rotation timer of the variable; it runs only while
    the timer does. *)
Definition messageTick (st : t) : t :=
  match messageInterval st with
  | Some messageIndex =>
      let messageIndex' := Nat.modulo (messageIndex + 1) (length loadingMessages) in
      mk (inputSection_hidden st) (loadingSection_hidden st)
         (nth messageIndex' loadingMessages "undefined")
         (resultsSection st) (errorSection st) (errorSection_hidden st)
         (submitButton_disabled st) (Some messageIndex')
         (pitfallsModal_hidden st) (fileNameDisplay st) (fileUploadLabel st)
         (requests st) (strayIntervals st)
  | None => st
  end.

Fixpoint replace_nth (k : nat) (v : nat) (xs : list nat) : list nat :=
  match xs, k with
  | [], _ => []
  | _ :: r, O => v :: r
  | x :: r, S k' => x :: replace_nth k' v r
  end.

(** The callback of the stray timer number [k], which has its own
    [messageIndex]. *)
Definition strayTick (k : nat) (st : t) : t :=
  match nth_error (strayIntervals st) k with
  | Some messageIndex =>
      let messageIndex' := Nat.modulo (messageIndex + 1) (length loadingMessages) in
      mk (inputSection_hidden st) (loadingSection_hidden st)
         (nth messageIndex' loadingMessages "undefined")
         (resultsSection st) (errorSection st) (errorSection_hidden st)
         (submitButton_disabled st) (messageInterval st)
         (pitfallsModal_hidden st) (fileNameDisplay st) (fileUploadLabel st)
         (requests st) (replace_nth k messageIndex' (strayIntervals st))
  | None => st
  end.

Definition errorPanel (message : string) : string :=
  "<p><strong>An error occurred:</strong> " ++ message ++ "</p><p>Please try again.</p>".

Definition showError (message : string) (st : t) : t :=
  mk (inputSection_hidden st) (loadingSection_hidden st) (loadingMessage st)
     "" (errorPanel message) false (submitButton_disabled st)
     (messageInterval st) (pitfallsModal_hidden st) (fileNameDisplay st)
     (fileUploadLabel st) (requests st) (strayIntervals st).

(** Code that reads and writes the page, may throw, and may wait on a
    promise: the state of its own promise and the page it leaves. *)
Definition Eff (A : Type) : Type := t -> settled A * t.

Definition ret {A} (a : A) : Eff A := fun st => (Fulfilled a, st).

Definition ebind {A B} (m : Eff A) (k : A -> Eff B) : Eff B :=
  fun st =>
    match m st with
    | (Fulfilled a, st') => k a st'
    | (Rejected e, st') => (Rejected e, st')
    | (Pending, st') => (Pending, st')
    end.

Definition await {A} (p : settled A) : Eff A := fun st => (p, st).

Definition sync {A} (r : result A) : Eff A :=
  fun st => (match r with Ok a => Fulfilled a | Throw e => Rejected e end, st).

Definition exec (f : t -> t) : Eff unit := fun st => (Fulfilled tt, f st).

(** [try { body } catch (error) { handler } finally { fin }], [handler] and
    [fin] being plain page updates. A body that waits for ever reaches
    neither. *)
Definition tryCatchFinally (body : Eff unit) (handler : exn -> t -> t)
    (fin : t -> t) : Eff unit :=
  fun st =>
    match body st with
    | (Fulfilled _, st') => (Fulfilled tt, fin st')
    | (Rejected e, st') => (Fulfilled tt, fin (handler e st'))
    | (Pending, st') => (Pending, st')
    end.

End Page.

Notation "x <~ m ;; k" := (Page.ebind m (fun x => k))
  (at level 61, m at next level, right associativity).
Notation "m ;;; k" := (Page.ebind m (fun _ => k))
  (at level 61, right associativity).

Module Controller.
Import Page Render.

Definition whenPresent {A} (o : option A) (k : A -> Eff unit) : Eff unit :=
  match o with
  | Some a => k a
  | None => ret tt
  end.

Section Browser.

Variable engine : Engine.t.

(** [resultsSection.innerHTML += html]: the getter of [innerHTML] is read,
    the right-hand side is evaluated, and the two are assigned together; a
    right-hand side that throws assigns nothing. *)
Definition appendResults (html : result string) : Eff unit :=
  h <~ sync html ;;
  exec (fun st =>
          set_resultsSection (Engine.innerHTML engine (resultsSection st) ++ h)
            st).

Definition renderResults (data : ResultDocument.t) : Eff unit :=
  exec (set_resultsSection "") ;;;
  whenPresent (ResultDocument.profile data)
    (fun profile => appendResults (Ok (renderProfileAnalysis profile))) ;;;
  whenPresent (ResultDocument.chevening_trio data)
    (fun trio => appendResults (renderTrio trio)) ;;;
  whenPresent (ResultDocument.ranked_courses data)
    (fun courses => appendResults (renderRankedCourses courses)) ;;;
  whenPresent (ResultDocument.personal_statement_bullets data)
    (fun bullets => appendResults (renderBullets bullets)) ;;;
  whenPresent (ResultDocument.alternatives data)
    (fun alternatives => appendResults (Ok (renderAlternatives alternatives))) ;;;
  whenPresent (ResultDocument.notes data)
    (fun notes => appendResults (Ok (renderNotes notes))).

End Browser.

(** What one submission finds in the form. *)
Record FormInput : Type := mkForm
  { cvFile : option File.t;
    fields : string;
    locations : string;
    impact : string;
    year : string }.

Definition allowedTypes : list string :=
  [ "application/pdf";
    "application/vnd.openxmlformats-officedocument.wordprocessingml.document" ].

(** [allowedTypes.includes(type)] *)
Definition allowed (type : string) : bool :=
  existsb (String.eqb type) allowedTypes.

Definition userPromptText (i : FormInput) : string :=
  nl 10 ++ "Task: Pick Chevening-eligible UK master’s courses that best match my CV and career plan. The CV is provided in the attached file." ++
  nl 10 ++
  nl 10 ++ "Inputs:" ++
  nl 10 ++ "Target fields: " ++ q (fields i) ++
  nl 10 ++ "Preferred UK locations: " ++ q (locations i) ++
  nl 10 ++ "Timeline: must start Sep/Oct " ++ year i ++
  nl 10 ++ "Country-impact one-liner: " ++ q (impact i) ++
  nl 4 ++
  nl 10 ++ "Return JSON output per the required schema. Analyze the CV file to extract the candidate's profile, skills, and experience to inform the course matching." ++
  nl 8.

Section Service.

Variable engine : Engine.t.

(** [error instanceof Error ? error.message : undefined]; the message of a
    [TypeError] is the engine's. *)
Definition message_of (e : exn) : option string :=
  match e with
  | TypeError prop => Some (Engine.typeErrorMessage engine prop)
  | ErrorObject m => Some m
  | Thrown => None
  end.

Definition catchMessage (e : exn) : string :=
  match message_of e with
  | Some m => m
  | None => "Could not process the file or parse the response from the model."
  end.

(** The collaborators outside the page: the model service (the [text] of its
    response, which may be absent, or its failure), the runtime's
    [JSON.parse] and [String.prototype.trim], and the fixed instruction
    text. *)
Variable generateContent : GenerateContentParameters -> settled (option string).
Variable JSON_parse : string -> result ResultDocument.t.
Variable trim : string -> string.
Variable systemInstruction : string.

(** The body of the [try] block of the submit listener. *)
Definition request (i : FormInput) (cvFile : File.t) : Eff unit :=
  filePart <~ await (Encoder.fileToGenerativePart cvFile) ;;
  let params :=
    mkRequest "gemini-2.5-flash" filePart (userPromptText i)
      systemInstruction "application/json" in
  exec (push_request params) ;;;
  response_text <~ await (generateContent params) ;;
  text <~ sync (required "trim" response_text) ;;
  let jsonText := trim text in
  data <~ sync (JSON_parse jsonText) ;;
  renderResults engine data.

(** The listener of the form's [submit] event. *)
Definition submit (i : FormInput) : Eff unit :=
  match cvFile i with
  | None => exec (showError "Please upload your CV file.")
  | Some cvFile =>
      if negb (allowed (File.type cvFile))
      then exec (showError "Invalid file type. Please upload a PDF or DOCX file.")
      else
        exec (showLoading true) ;;;
        tryCatchFinally (request i cvFile)
          (fun error => showError (catchMessage error))
          (showLoading false)
  end.

(** The listeners of the page, and the firings of its rotation timers:
    [MessageTimer] is the timer of the variable [messageInterval],
    [StrayTimer k] the stray timer number [k]. *)
Inductive Event : Type :=
| Submit (i : FormInput)
| FileChange (files : list File.t)
| PitfallsClick
| CloseModalClick
| OverlayClick
| MessageTimer
| StrayTimer (k : nat).

Definition fileChange (files : list File.t) (st : Page.t) : Page.t :=
  match files with
  | file :: _ => set_fileLabels ("Selected: " ++ File.name file) "Change file" st
  | [] => set_fileLabels "" "Click to select a file" st
  end.

Definition handle (ev : Event) (st : Page.t) : Page.t :=
  match ev with
  | Submit i => snd (submit i st)
  | FileChange files => fileChange files st
  | PitfallsClick => set_pitfallsModal_hidden false st
  | CloseModalClick => set_pitfallsModal_hidden true st
  | OverlayClick => set_pitfallsModal_hidden true st
  | MessageTimer => messageTick st
  | StrayTimer k => strayTick k st
  end.

Definition run (evs : list Event) (st : Page.t) : Page.t :=
  fold_left (fun s ev => handle ev s) evs st.

End Service.

End Controller.

(** ** Deadline countdown *)

Module Countdown.
Local Open Scope Z_scope.

(** The countdown element and whether the one-second timer is running. *)
Record t : Type := mk
  { deadlineCountdown : string;
    countdownInterval : bool }.

(** [new Date('2025-10-07T12:00:00Z').getTime()] *)
Definition deadline : Z := 1759838400000.

Definition passed : string := "The deadline has passed.".

Definition remaining (diff : Z) : string :=
  let days := diff / (1000 * 60 * 60 * 24) in
  let hours := Z.rem diff (1000 * 60 * 60 * 24) / (1000 * 60 * 60) in
  let minutes := Z.rem diff (1000 * 60 * 60) / (1000 * 60) in
  let seconds := Z.rem diff (1000 * 60) / 1000 in
  (string_of_Z days ++ "d " ++ string_of_Z hours ++ "h "
   ++ string_of_Z minutes ++ "m " ++ string_of_Z seconds ++ "s")%string.

(** [updateCountdown] at clock reading [now] (milliseconds). *)
Definition updateCountdown (now : Z) (st : t) : t :=
  let diff := deadline - now in
  if diff <=? 0
  then mk passed false
  else mk (remaining diff) (countdownInterval st).

(** [setDeadline]: (re)start the timer, then the initial call. *)
Definition setDeadline (now : Z) (st : t) : t :=
  updateCountdown now (mk (deadlineCountdown st) true).

(** One firing of the timer at clock reading [now]: a cleared timer fires
    nothing. *)
Definition tick (now : Z) (st : t) : t :=
  if countdownInterval st then updateCountdown now st else st.

Inductive step : t -> t -> Prop :=
| step_tick : forall now st, step st (tick now st).

Definition ticks (nows : list Z) (st : t) : t :=
  fold_left (fun s now => tick now s) nows st.

End Countdown.


(** ** Vocabulary of the properties *)

Module Spec.
Import Render.

(** [s] contains [p] when letter case is ignored: some piece of [s] equals
    [p] up to case. *)
Definition containsIgnoringCase (s p : string) : Prop :=
  exists a m b, s = a ++ m ++ b /\ toLowerCase m = toLowerCase p.

(** The class names that mark the two advisories. *)
Definition mbaMarker : string := "mba-warning".
Definition trioMarker : string := "trio-warning".

(** No text of [texts] contains [marker]. *)
Definition free (marker : string) (texts : list string) : bool :=
  forallb (fun t => negb (includes t marker)) texts.

(** The texts of a trio entry that its card interpolates: the programme,
    and the others. *)
Definition trio_other_texts (e : TrioEntry.t) : list string :=
  [ interp (TrioEntry.university e);
    interp (TrioEntry.why_this_trio e) ].

Definition trio_texts (e : TrioEntry.t) : list string :=
  interp (TrioEntry.programme e) :: trio_other_texts e.

(** The texts other than the programme that the card of a ranked course
    interpolates (the rank and the duration are numbers). *)
Definition course_other_texts (c : CourseEntry.t) : list string :=
  ([ interp (CourseEntry.university c) ]
   ++ match CourseEntry.eligibility_check c with
      | Some ec =>
          if truthy_bool (EligibilityCheck.is_eligible ec) then []
          else [interp (EligibilityCheck.reason ec)]
      | None => []
      end
   ++ [ interp (CourseEntry.city c);
        interp (CourseEntry.start_cycle c) ]
   ++ match CourseEntry.fee_gbp c with Some fee => [fee] | None => [] end
   ++ match CourseEntry.score_breakdown c with Some sb => [sb] | None => [] end
   ++ match CourseEntry.chevening_rationale c with Some rs => rs | None => [] end
   ++ [ interp (CourseEntry.url c) ])%list.

(** All entries of a trio name one and the same university. *)
Definition shareOneUniversity (trio : list TrioEntry.t) : Prop :=
  exists u, Forall (fun e => TrioEntry.university e = u) trio.

(** Two entries of a trio name different universities. *)
Definition mixedUniversities (trio : list TrioEntry.t) : Prop :=
  exists e1 e2, In e1 trio /\ In e2 trio
                /\ TrioEntry.university e1 <> TrioEntry.university e2.

(** A ranked course without "mba" in its programme whose university text
    carries the markup of the fee-cap advisory. *)
Definition injectedCourse : CourseEntry.t :=
  CourseEntry.mk (Some 1%Z) (Some mbaAdvisory) (Some "LLM Law") (Some "Leeds")
    (Some "https://example.org") (Some "Sep 2026") (Some 12%Z)
    (Some "Verify on university site") (Some ["Fits"]) None None.

Definition injectedTrioEntry : TrioEntry.t :=
  TrioEntry.mk (Some "Leeds") (Some "LLM Law") (Some mbaAdvisory).

(** A trio of two universities one of whose texts carries the markup of the
    diversification advisory, and a trio of one university that carries it
    too. *)
Definition mixedInjectedTrio : list TrioEntry.t :=
  [ TrioEntry.mk (Some "Leeds") (Some "LLM Law") (Some trioAdvisory);
    TrioEntry.mk (Some "York") (Some "MSc Economics") (Some "b");
    TrioEntry.mk (Some "Bath") (Some "MSc Policy") (Some "c") ].

Definition sameInjectedTrio : list TrioEntry.t :=
  [ TrioEntry.mk (Some "Leeds") (Some "LLM Law") (Some trioAdvisory);
    TrioEntry.mk (Some "Leeds") (Some "MSc Economics") (Some "b");
    TrioEntry.mk (Some "Leeds") (Some "MSc Policy") (Some "c") ].

(** *** File Encoder *)

(** Encoding [file] succeeds, and reading the result back gives the bytes
    and the MIME type of [file]. *)
Definition roundTrip (file : File.t) : Prop :=
  exists part,
    Encoder.fileToGenerativePart file = Fulfilled part
    /\ Encoder.decodePart part = Some (File.bytes file, File.type file).

(** A readable file whose [type] holds a comma (in a parameter). *)
Definition commaTypedFile : File.t :=
  File.mk "notes.txt" "text/plain;tags=a,b" ["M"%byte; "a"%byte; "n"%byte] true.

Definition pdfFile : File.t :=
  File.mk "cv.pdf" "application/pdf" ["%"%byte; "P"%byte; "D"%byte; "F"%byte] true.

(** An allow-listed file that the runtime fails to read. *)
Definition unreadablePdf : File.t :=
  File.mk "cv.pdf" "application/pdf" ["%"%byte; "P"%byte; "D"%byte; "F"%byte] false.

(** *** Result Renderer: sections and blocks *)

Definition present {A} (o : option A) : bool :=
  match o with Some _ => true | None => false end.

Definition forOption {A} (f : A -> bool) (o : option A) : bool :=
  match o with Some a => f a | None => true end.


Definition wf_trioEntry (e : TrioEntry.t) : bool :=
  present (TrioEntry.programme e).

Definition wf_course (c : CourseEntry.t) : bool :=
  present (CourseEntry.programme c) && present (CourseEntry.chevening_rationale c).

Definition wf_bullets (b : Bullets.t) : bool :=
  present (Bullets.leadership b) && present (Bullets.networking b)
  && present (Bullets.career_plan b).


Inductive section : Type :=
| ProfileAnalysis (profile : Profile.t)
| Trio (trio : list TrioEntry.t)
| RankedCourses (courses : list CourseEntry.t)
| StatementBullets (bullets : Bullets.t)
| Alternatives (alternatives : list AlternativeEntry.t)
| Notes (notes : list string).

Definition optional {A} (f : A -> section) (o : option A) : list section :=
  match o with Some a => [f a] | None => [] end.

(** The sections a document has, in the fixed order of the page. *)
Definition sections (data : ResultDocument.t) : list section :=
  (optional ProfileAnalysis (ResultDocument.profile data)
   ++ optional Trio (ResultDocument.chevening_trio data)
   ++ optional RankedCourses (ResultDocument.ranked_courses data)
   ++ optional StatementBullets (ResultDocument.personal_statement_bullets data)
   ++ optional Alternatives (ResultDocument.alternatives data)
   ++ optional Notes (ResultDocument.notes data))%list.

(** The block of a section: what its generator returns. *)
Definition block (s : section) : result string :=
  match s with
  | ProfileAnalysis profile => Ok (renderProfileAnalysis profile)
  | Trio trio => renderTrio trio
  | RankedCourses courses => renderRankedCourses courses
  | StatementBullets bullets => renderBullets bullets
  | Alternatives alternatives => Ok (renderAlternatives alternatives)
  | Notes notes => Ok (renderNotes notes)
  end.

Definition li (x : string) : string := "<li>" ++ x ++ "</li>".

Definition texts (o : option (list string)) : list string :=
  match o with Some xs => xs | None => [] end.

(** The elements of the lists of a section, as many as it has. *)
Definition entryCount (s : section) : nat :=
  match s with
  | ProfileAnalysis p =>
      length (texts (Profile.strengths p)) + length (texts (Profile.gaps p))
  | Trio trio => length trio
  | RankedCourses courses => length courses
  | StatementBullets b =>
      length (texts (Bullets.leadership b))
      + length (texts (Bullets.networking b))
      + length (texts (Bullets.career_plan b))
  | Alternatives alternatives => length alternatives
  | Notes notes => length notes
  end.

(** The entry fragments of a section, one per element, in order. *)
Definition entryFragments (s : section) : result (list string) :=
  match s with
  | ProfileAnalysis p =>
      Ok (map li (texts (Profile.strengths p))
          ++ map li (texts (Profile.gaps p)))%list
  | Trio trio => mapM trioCard trio
  | RankedCourses courses => mapM courseCard courses
  | StatementBullets b =>
      Ok (map li (texts (Bullets.leadership b))
          ++ map li (texts (Bullets.networking b))
          ++ map li (texts (Bullets.career_plan b)))%list
  | Alternatives alternatives => Ok (map alternativeCard alternatives)
  | Notes notes => Ok (map li notes)
  end.

(** The texts of an alternative that its card interpolates. *)
Definition alternative_texts (a : AlternativeEntry.t) : list string :=
  [ interp (AlternativeEntry.programme a);
    interp (AlternativeEntry.university a);
    interp (AlternativeEntry.why_consider a);
    interp (AlternativeEntry.url a) ].

(** The texts of each element of the lists of a section, which its entry
    fragment is to hold: the item itself for a list of strings, the texts
    of the entry for the cards. *)
Definition entryTexts (s : section) : list (list string) :=
  match s with
  | ProfileAnalysis p =>
      map (fun x => [x])
        (texts (Profile.strengths p) ++ texts (Profile.gaps p))%list
  | Trio trio => map trio_texts trio
  | RankedCourses courses =>
      map (fun c => interp (CourseEntry.programme c) :: course_other_texts c)
        courses
  | StatementBullets b =>
      map (fun x => [x])
        (texts (Bullets.leadership b) ++ texts (Bullets.networking b)
         ++ texts (Bullets.career_plan b))%list
  | Alternatives alternatives => map alternative_texts alternatives
  | Notes notes => map (fun x => [x]) notes
  end.

(** Every fragment holds the texts that go with it. *)
Definition holdTexts (frags : list string) (texts : list (list string))
    : Prop :=
  Forall2 (fun frag ts => Forall (fun t => includes frag t = true) ts)
    frags texts.

(** [html] holds the fragments [frags] one after the other, in order. *)
Fixpoint carries (html : string) (frags : list string) : Prop :=
  match frags with
  | [] => True
  | f :: fs => exists pre post, html = pre ++ f ++ post /\ carries post fs
  end.

(** What the page shows of a section: its block, which is not empty and
    holds one entry fragment per element of the lists of the section, each
    fragment with the texts of its element. *)
Definition shown (s : section) (b : string) : Prop :=
  block s = Ok b /\ b <> ""
  /\ exists frags,
       entryFragments s = Ok frags /\ length frags = entryCount s
       /\ carries b frags
       /\ holdTexts frags (entryTexts s).


(** The text of the results area after [blocks] were appended, one after
    the other, to the emptied area: every append reads the area back
    through the getter [get]. *)
Definition writtenFrom (get : string -> string) (area : string)
    (blocks : list string) : string :=
  fold_left (fun area b => get area ++ b) blocks area.

Definition written (get : string -> string) (blocks : list string) : string :=
  writtenFrom get "" blocks.

(** The getter returns what was assigned, at every append of [blocks]. *)
Definition readsBack (get : string -> string) (blocks : list string) : Prop :=
  forall n, n < length blocks ->
            get (join (firstn n blocks)) = join (firstn n blocks).

(** The getter of a browser on markup that is written the way browsers
    write it back except for its ampersands, and whose only character
    reference is [&amp;]: the reference comes back as it is, an ampersand
    that starts no reference comes back as [&amp;]. With the wording of V8
    for the [TypeError], the engine of the examples. *)
Fixpoint escapeAmpersands (s : string) : string :=
  match s with
  | EmptyString => EmptyString
  | String c r =>
      if Ascii.eqb c "&"
      then if startsWith r "amp;" then String c (escapeAmpersands r)
           else "&amp;" ++ escapeAmpersands r
      else String c (escapeAmpersands r)
  end.

Definition v8Message (prop : string) : string :=
  "Cannot read properties of undefined (reading '" ++ prop ++ "')".

Definition sampleEngine : Engine.t := Engine.mk escapeAmpersands v8Message.


(** *** UI State Controller *)

(** Rendered results and a filled error panel are not shown together. *)
Definition exclusive (st : Page.t) : Prop :=
  Page.resultsSection st = ""
  \/ Page.errorSection_hidden st = true
  \/ Page.errorSection st = "".

(** The error view: the panel is shown with the message, nothing is left of
    the results, and the form can be submitted again. *)
Definition errorView (message : string) (st : Page.t) : Prop :=
  Page.errorSection_hidden st = false
  /\ Page.errorSection st = Page.errorPanel message
  /\ Page.resultsSection st = ""
  /\ Page.submitButton_disabled st = false
  /\ Page.loadingSection_hidden st = true
  /\ Page.inputSection_hidden st = false.

(** The error panel is shown and its text holds [message]. *)
Definition showsMessage (message : string) (st : Page.t) : Prop :=
  Page.errorSection_hidden st = false
  /\ includes (Page.errorSection st) message = true.

(** A page as it is first shown, and one that shows the results of an
    earlier submission. *)
Definition freshPage : Page.t :=
  Page.mk false true "" "" "" true false None true "" "Click to select a file"
    [] [].

Definition pageWithResults : Page.t :=
  Page.mk false true "" "<div>earlier results</div>" "" true false None true
    "Selected: cv.pdf" "Change file" [] [].

(** The submission was refused with [message]: the error panel shows it, no
    request went to the model service, and the page did not enter
    Loading. *)
Definition refused (message : string) (st st' : Page.t) : Prop :=
  st' = Page.showError message st
  /\ Page.errorSection_hidden st' = false
  /\ Page.errorSection st' = Page.errorPanel message
  /\ Page.requests st' = Page.requests st
  /\ Page.loadingSection_hidden st' = Page.loadingSection_hidden st
  /\ Page.submitButton_disabled st' = Page.submitButton_disabled st
  /\ Page.messageInterval st' = Page.messageInterval st.

(** The page is held in Loading: the loading section is shown, the submit
    control is disabled, and no error panel is shown. *)
Definition heldInLoading (st : Page.t) : Prop :=
  Page.loadingSection_hidden st = false
  /\ Page.submitButton_disabled st = true
  /\ Page.errorSection_hidden st = true
  /\ Page.inputSection_hidden st = true.

(** Sample collaborators: a service that is down, one that answers with
    text that does not parse, and the parser that goes with it. *)
Definition serviceDown (_ : Page.GenerateContentParameters)
    : settled (option string) :=
  Rejected (ErrorObject "503 Service Unavailable").


Definition parseFails (_ : string) : result ResultDocument.t :=
  Throw (ErrorObject "Unexpected token").

Definition noTrim (s : string) : string := s.

Definition formWith (file : option File.t) : Controller.FormInput :=
  Controller.mkForm file "Public policy" "London" "Rebuild local services" "2026".

Definition wordFile : File.t :=
  File.mk "cv.doc" "application/msword" ["a"%byte] true.

(** A document with all six sections. *)
Definition sampleDocument : ResultDocument.t :=
  ResultDocument.mk
    (Some (Profile.mk (Some ["Leadership"]) (Some ["Networking"; "Impact"])))
    (Some [ TrioEntry.mk (Some "Leeds") (Some "MSc Policy") (Some "a");
            TrioEntry.mk (Some "Leeds") (Some "Global MBA") (Some "b");
            TrioEntry.mk (Some "Leeds") (Some "LLM Law") (Some "c") ])
    (Some [ CourseEntry.mk (Some 1%Z) (Some "Leeds") (Some "Global MBA")
              (Some "Leeds") (Some "https://example.org") (Some "Sep 2026")
              (Some 12%Z) (Some "Verify on university site") (Some ["Fits"])
              (Some (EligibilityCheck.mk (Some false) (Some "Too long")))
              (Some "Gap fit") ])
    (Some (Bullets.mk (Some ["l"]) (Some ["n"]) (Some ["c"])))
    (Some [ AlternativeEntry.mk (Some "York") (Some "MSc Economics")
              (Some "https://example.org") (Some "Close") ])
    (Some ["Confirm fees"]).

(** Section values that lack what their generator reads. *)
Definition emptyProfile : Profile.t := Profile.mk None None.
Definition emptyBullets : Bullets.t := Bullets.mk None None None.
Definition emptyTrioEntry : TrioEntry.t := TrioEntry.mk None None None.
Definition emptyCourse : CourseEntry.t :=
  CourseEntry.mk None None None None None None None None None None None.
Definition courseWithoutRationale : CourseEntry.t :=
  CourseEntry.mk None None (Some "MSc Policy") None None None None None None
    None None.
Definition emptyAlternative : AlternativeEntry.t :=
  AlternativeEntry.mk None None None None.

(** [st'] shows the error panel as [st] does. *)
Definition samePanel (st st' : Page.t) : Prop :=
  Page.errorSection_hidden st' = Page.errorSection_hidden st
  /\ Page.errorSection st' = Page.errorSection st.

(** A service that answers with a document, and a run of the page: a
    submission that succeeds, then one without a file. *)
Definition serviceAnswers (_ : Page.GenerateContentParameters)
    : settled (option string) :=
  Fulfilled (Some "{}").

Definition parseSample (_ : string) : result ResultDocument.t :=
  Ok sampleDocument.

Definition sampleRun : list Controller.Event :=
  [ Controller.FileChange [pdfFile];
    Controller.Submit (formWith (Some pdfFile));
    Controller.PitfallsClick;
    Controller.CloseModalClick;
    Controller.FileChange [];
    Controller.Submit (formWith None);
    Controller.MessageTimer ].

(** *** Deadline countdown *)

(** States of the countdown reachable in any number of timer firings. *)
Inductive reaches : Countdown.t -> Countdown.t -> Prop :=
| reaches_refl : forall st, reaches st st
| reaches_step : forall st st' st'',
    Countdown.step st st' -> reaches st' st'' -> reaches st st''.

(** The page appends the blocks of the given sections one after the other
    and stops at the first generator that throws. *)
Fixpoint appendBlocks (engine : Engine.t) (ss : list section)
    : Page.Eff unit :=
  match ss with
  | [] => Page.ret tt
  | s :: r =>
      Page.ebind (Controller.appendResults engine (block s))
        (fun _ => appendBlocks engine r)
  end.

(** Entries for the two advisories. *)
Definition mbaCourse : CourseEntry.t :=
  CourseEntry.mk (Some 1%Z) (Some "Leeds") (Some "Global MBA") (Some "Leeds")
    (Some "https://example.org") (Some "Sep 2026") (Some 12%Z)
    (Some "£30,000") (Some ["Fits"])
    (Some (EligibilityCheck.mk (Some true) (Some "Passes all checks")))
    (Some "Gap fit").

Definition plainCourse : CourseEntry.t :=
  CourseEntry.mk (Some 2%Z) (Some "York") (Some "MSc Public Policy")
    (Some "York") (Some "https://example.org") (Some "Sep 2026") (Some 12%Z)
    (Some "Verify on university site") (Some ["Fits"; "Network"])
    (Some (EligibilityCheck.mk (Some false) (Some "Starts in January")))
    None.

Definition mbaTrioEntry : TrioEntry.t :=
  TrioEntry.mk (Some "Leeds") (Some "Executive mBa") (Some "a").

Definition plainTrioEntry : TrioEntry.t :=
  TrioEntry.mk (Some "York") (Some "MSc Public Policy") (Some "b").

Definition sameTrio : list TrioEntry.t :=
  [ TrioEntry.mk (Some "Leeds") (Some "MSc Policy") (Some "a");
    TrioEntry.mk (Some "Leeds") (Some "Global MBA") (Some "b");
    TrioEntry.mk (Some "Leeds") (Some "LLM Law") (Some "c") ].

Definition mixedTrio : list TrioEntry.t :=
  [ TrioEntry.mk (Some "Leeds") (Some "MSc Policy") (Some "a");
    TrioEntry.mk (Some "York") (Some "Global MBA") (Some "b");
    TrioEntry.mk (Some "Leeds") (Some "LLM Law") (Some "c") ].

End Spec.

(** ** The older variant of the page

    Its [renderResults], [renderTrio] and [renderRankedCourses] differ from
    those of [index.tsx]; [renderBullets], [renderAlternatives] and
    [renderNotes] have the same text. *)

Module Older.
Import Page Render Controller.

Definition trioCard (course : TrioEntry.t) : string :=
  nl 10 ++ "<div class=" ++ q "trio-card" ++ ">" ++
  nl 12 ++ "<h3>" ++ interp (TrioEntry.programme course) ++ "</h3>" ++
  nl 12 ++ "<p class=" ++ q "university" ++ ">" ++ interp (TrioEntry.university course) ++ "</p>" ++
  nl 12 ++ "<p>" ++ interp (TrioEntry.why_this_trio course) ++ "</p>" ++
  nl 10 ++ "</div>" ++
  nl 8.

Definition renderTrio (trio : list TrioEntry.t) : string :=
  nl 6 ++ "<div class=" ++ q "result-category" ++ ">" ++
  nl 8 ++ "<h2>Your Recommended Chevening Trio</h2>" ++
  nl 8 ++ join (map trioCard trio) ++
  nl 6 ++ "</div>" ++
  nl 4.

Definition courseCard (course : CourseEntry.t) : result string :=
  rationale <- required "map" (CourseEntry.chevening_rationale course) ;;
  Ok (nl 10 ++ "<div class=" ++ q "course-card" ++ ">" ++
      nl 12 ++ "<h3>" ++ interpZ (CourseEntry.rank course) ++ ". " ++ interp (CourseEntry.programme course) ++ "</h3>" ++
      nl 12 ++ "<p class=" ++ q "university" ++ ">" ++ interp (CourseEntry.university course) ++ "</p>" ++
      nl 12 ++ "<div class=" ++ q "details" ++ ">" ++
      nl 14 ++ "<span>📍 " ++ interp (CourseEntry.city course) ++ "</span>" ++
      nl 14 ++ "<span>🗓️ " ++ interp (CourseEntry.start_cycle course) ++ "</span>" ++
      nl 14 ++ "<span>⏳ " ++ interpZ (CourseEntry.duration_months course) ++ " months</span>" ++
      nl 14 ++ "<span>💷 " ++ interp (CourseEntry.fee_gbp course) ++ "</span>" ++
      nl 12 ++ "</div>" ++
      nl 12 ++ "<div class=" ++ q "chevening-rationale" ++ ">" ++
      nl 14 ++ "<strong>Chevening Rationale:</strong>" ++
      nl 14 ++ "<ul>" ++
      nl 16 ++ li_items rationale ++
      nl 14 ++ "</ul>" ++
      nl 12 ++ "</div>" ++
      nl 12 ++ "<p><a href=" ++ q (interp (CourseEntry.url course)) ++ " target=" ++ q "_blank" ++ " rel=" ++ q "noopener noreferrer" ++ ">Visit course page →</a></p>" ++
      nl 10 ++ "</div>" ++
      nl 8).

Definition renderRankedCourses (courses : list CourseEntry.t) : result string :=
  cards <- mapM courseCard courses ;;
  Ok (nl 6 ++ "<div class=" ++ q "result-category" ++ ">" ++
      nl 8 ++ "<h2>Top Ranked Courses</h2>" ++
      nl 8 ++ join cards ++
      nl 6 ++ "</div>" ++
      nl 4).

Definition renderResults (engine : Engine.t) (data : ResultDocument.t)
    : Eff unit :=
  exec (set_resultsSection "") ;;;
  whenPresent (ResultDocument.chevening_trio data)
    (fun trio => appendResults engine (Ok (renderTrio trio))) ;;;
  whenPresent (ResultDocument.ranked_courses data)
    (fun courses => appendResults engine (renderRankedCourses courses)) ;;;
  whenPresent (ResultDocument.personal_statement_bullets data)
    (fun bullets => appendResults engine (renderBullets bullets)) ;;;
  whenPresent (ResultDocument.alternatives data)
    (fun alternatives =>
       appendResults engine (Ok (renderAlternatives alternatives))) ;;;
  whenPresent (ResultDocument.notes data)
    (fun notes => appendResults engine (Ok (renderNotes notes))).

End Older.

(** ** Start of the page *)

Module App.

(** The page, the countdown, the markup that replaced the input section
    (if any), the style sheets appended to the head, and whether the
    listeners of the form are registered. *)
Record t : Type := mk
  { page : Page.t;
    countdown : Countdown.t;
    inputSection : option string;
    styles : list string;
    listening : bool }.

Definition configError : string :=
  nl 6 ++ "<div id=" ++ q "config-error" ++ " role=" ++ q "alert" ++ ">" ++
  nl 8 ++ "<p><strong>Application Configuration Error</strong></p>" ++
  nl 8 ++ "<p>This application is not properly configured to connect to the AI service because an API key has not been provided. If you are a user, please contact the person who shared this with you. If you are the developer, please ensure the API key is correctly set up in your environment.</p>" ++
  nl 6 ++ "</div>" ++
  nl 4.

Definition configErrorStyle : string :=
  nl 6 ++ "#config-error {" ++
  nl 8 ++ "background-color: #FFCDD2;" ++
  nl 8 ++ "color: #D32F2F;" ++
  nl 8 ++ "border-radius: var(--border-radius);" ++
  nl 8 ++ "padding: 1.5rem;" ++
  nl 8 ++ "text-align: center;" ++
  nl 6 ++ "}" ++
  nl 6 ++ "#config-error p { margin-bottom: 0.5rem; }" ++
  nl 4.

(** What happens on the page: an event of the document, or a firing of the
    countdown timer at a clock reading. *)
Inductive Event : Type :=
| Dom (ev : Controller.Event)
| CountdownTimer (now : Z).

Section Service.
Variable engine : Engine.t.
Variable generateContent :
  Page.GenerateContentParameters -> settled (option string).
Variable JSON_parse : string -> result ResultDocument.t.
Variable trim : string -> string.
Variable systemInstruction : string.

(** The top level of the script. [ai] tells whether the client of the model
    service could be constructed; [now] is the clock reading of the initial
    call of [updateCountdown]. *)
Definition start (ai : bool) (now : Z) (page0 : Page.t)
    (countdown0 : Countdown.t) : t :=
  let countdown1 := Countdown.setDeadline now countdown0 in
  if ai
  then mk page0 countdown1 None [] true
  else mk page0 countdown1 (Some configError) [configErrorStyle] false.

(** The listeners of the modal's close button and overlay are registered
    in any case, those of the pitfalls button, the file input and the form
    only with a client; a timer fires only if it was set. *)
Definition dispatch (ev : Event) (app : t) : t :=
  match ev with
  | CountdownTimer now =>
      mk (page app) (Countdown.tick now (countdown app)) (inputSection app)
         (styles app) (listening app)
  | Dom dev =>
      let handled :=
        mk (Controller.handle engine generateContent JSON_parse trim
              systemInstruction dev (page app))
           (countdown app) (inputSection app) (styles app) (listening app) in
      match dev with
      | Controller.CloseModalClick | Controller.OverlayClick
      | Controller.MessageTimer | Controller.StrayTimer _ => handled
      | Controller.Submit _ | Controller.FileChange _
      | Controller.PitfallsClick => if listening app then handled else app
      end
  end.

Definition run (evs : list Event) (app : t) : t :=
  fold_left (fun a ev => dispatch ev a) evs app.

End Service.

End App.

(** ** Further vocabulary *)

Module Terms.
Import Render Spec.

(** Every generator that [renderResults] calls on the document finds the
    properties it reads without a check. *)
Definition renderable (data : ResultDocument.t) : bool :=
  forOption (forallb wf_trioEntry) (ResultDocument.chevening_trio data)
  && forOption (forallb wf_course) (ResultDocument.ranked_courses data)
  && forOption wf_bullets (ResultDocument.personal_statement_bullets data).

(** The property whose read makes a generator throw, if any. The card of a
    ranked course reads [toLowerCase] of the programme before [map] of the
    rationale, a list of entries fails at its first entry that does, and
    [renderResults] at the first section that does. *)
Definition trioEntryFailure (e : TrioEntry.t) : option string :=
  if present (TrioEntry.programme e) then None else Some "toLowerCase".

Definition courseFailure (c : CourseEntry.t) : option string :=
  if present (CourseEntry.programme c)
  then if present (CourseEntry.chevening_rationale c) then None
       else Some "map"
  else Some "toLowerCase".

Definition bulletsFailure (b : Bullets.t) : option string :=
  if wf_bullets b then None else Some "map".

Fixpoint firstFailure {A} (f : A -> option string) (xs : list A)
    : option string :=
  match xs with
  | [] => None
  | x :: r =>
      match f x with
      | Some prop => Some prop
      | None => firstFailure f r
      end
  end.

Definition sectionFailure (s : section) : option string :=
  match s with
  | Trio trio => firstFailure trioEntryFailure trio
  | RankedCourses courses => firstFailure courseFailure courses
  | StatementBullets bullets => bulletsFailure bullets
  | ProfileAnalysis _ | Alternatives _ | Notes _ => None
  end.

Definition failure (data : ResultDocument.t) : option string :=
  firstFailure sectionFailure (sections data).

(** The outcome of a piece of code that fails with the [TypeError] of
    reading [prop], or returns when there is no such property. *)
Definition outcomeOf (failed : option string) : settled unit :=
  match failed with
  | Some prop => Rejected (TypeError prop)
  | None => Fulfilled tt
  end.

(** The generator of the section finds the properties it reads without a
    check. *)
Definition okSection (s : section) : bool :=
  match s with
  | Trio trio => forallb wf_trioEntry trio
  | RankedCourses courses => forallb wf_course courses
  | StatementBullets bullets => wf_bullets bullets
  | ProfileAnalysis _ | Alternatives _ | Notes _ => true
  end.

(** The same for the older variant, whose cards read the programme through
    interpolation only. *)
Definition wf_courseOlder (c : CourseEntry.t) : bool :=
  present (CourseEntry.chevening_rationale c).

Definition renderableOlder (data : ResultDocument.t) : bool :=
  forOption (forallb wf_courseOlder) (ResultDocument.ranked_courses data)
  && forOption wf_bullets (ResultDocument.personal_statement_bullets data).

(** The outcome of the eligibility check of a course, as the card reads
    it. *)
Definition eligible (c : CourseEntry.t) : bool :=
  match CourseEntry.eligibility_check c with
  | Some ec => truthy_bool (EligibilityCheck.is_eligible ec)
  | None => false
  end.

Definition ineligible (c : CourseEntry.t) : bool :=
  match CourseEntry.eligibility_check c with
  | Some ec => negb (truthy_bool (EligibilityCheck.is_eligible ec))
  | None => false
  end.

(** The fee of a course asks for verification. *)
Definition feeToVerify (c : CourseEntry.t) : bool :=
  match CourseEntry.fee_gbp c with
  | Some fee => includes (toLowerCase fee) "verify"
  | None => false
  end.

(** All texts the card of a ranked course interpolates. *)
Definition course_texts (c : CourseEntry.t) : list string :=
  interp (CourseEntry.programme c) :: course_other_texts c.

(** The texts the card of the older variant interpolates. *)
Definition course_textsOlder (c : CourseEntry.t) : list string :=
  ([ interp (CourseEntry.programme c);
    interp (CourseEntry.university c);
    interp (CourseEntry.city c);
    interp (CourseEntry.start_cycle c);
    interp (CourseEntry.fee_gbp c);
    interp (CourseEntry.url c) ]
  ++ texts (CourseEntry.chevening_rationale c))%list.

(** Words that mark the decorations and the cards. *)
Definition eligibleMarker : string := "Chevening-eligible".
Definition ineligibleMarker : string := "Ineligible".
Definition reasonMarker : string := "ineligible-reason".
Definition verifyMarker : string := "verify-chip".
Definition scoreMarker : string := "score-breakdown".
Definition courseCardMarker : string := "course-card".
Definition trioCardMarker : string := "trio-card".

(** The class of the eligibility badges and the class list of the badge
    of an ineligible course. *)
Definition badgeClass : string := "eligibility-badge".
Definition ineligibleBadgeClass : string := "eligibility-badge ineligible".

(** The two badges and the paragraph of the reason, as the page shows
    them. *)
Definition eligibleBadge : string :=
  "<span class=" ++ q "eligibility-badge" ++ ">Chevening-eligible ✅</span>".

Definition ineligibleBadge : string :=
  "<span class=" ++ q "eligibility-badge ineligible" ++ ">Ineligible ❌</span>".

Definition reasonParagraph (reason : option string) : string :=
  "<p class=" ++ q "ineligible-reason" ++ ">" ++ interp reason ++ "</p>".

Definition cardMarkers : list string :=
  [ badgeClass; ineligibleBadgeClass; reasonMarker; verifyMarker;
    scoreMarker; courseCardMarker ].

(** The class names of the two advisories, and all the words that mark a
    decoration of the card of a ranked course. *)
Definition advisoryMarkers : list string := [ mbaMarker; trioMarker ].

Definition decorationMarkers : list string :=
  [ mbaMarker; eligibleMarker; ineligibleMarker; reasonMarker; verifyMarker;
    scoreMarker ].

(** [lit] and [m] agree as far as the shorter of them goes; no ending of
    [m] agrees with [lit]. *)
Definition agrees (lit m : string) : bool :=
  startsWith lit m || startsWith m lit.

Fixpoint endingsClear (lit m : string) : bool :=
  match m with
  | EmptyString => true
  | String _ r => negb (agrees lit m) && endingsClear lit r
  end.

(** None of the texts contains any of the markers. *)
Definition freeOfAll (markers texts : list string) : bool :=
  forallb (fun m => free m texts) markers.

Definition count (b : bool) : nat := if b then 1 else 0.

(** The card of the course discloses a score breakdown. *)
Definition scored (c : CourseEntry.t) : bool :=
  truthy_string (CourseEntry.score_breakdown c).

(** The number of entries that satisfy [p]. *)
Definition howMany {A} (p : A -> bool) (xs : list A) : nat :=
  length (filter p xs).

(** No text of any entry contains any of the markers. *)
Definition allFree {A} (markers : list string) (texts : A -> list string)
    (xs : list A) : bool :=
  forallb (fun x => freeOfAll markers (texts x)) xs.

(** All rotation timers that run, each with its [messageIndex]. *)
Definition timers (st : Page.t) : list nat :=
  (Page.strayIntervals st ++ Page.running st)%list.

(** The results view: the results area was assigned [html], the error panel
    is not shown, and the page has left Loading. *)
Definition resultsView (html : string) (st : Page.t) : Prop :=
  Page.resultsSection st = html
  /\ Page.errorSection_hidden st = true
  /\ Page.submitButton_disabled st = false
  /\ Page.loadingSection_hidden st = true
  /\ Page.inputSection_hidden st = false
  /\ Page.messageInterval st = None.

(** The page has left Loading: the form is back and the timer of the
    variable [messageInterval] is cleared. *)
Definition leftLoading (st : Page.t) : Prop :=
  Page.submitButton_disabled st = false
  /\ Page.loadingSection_hidden st = true
  /\ Page.inputSection_hidden st = false
  /\ Page.messageInterval st = None.

(** The error view, with [message] in the text of the panel. *)
Definition errorShown (message : string) (st : Page.t) : Prop :=
  errorView message st /\ showsMessage message st.

(** The request of a submission. *)
Definition requestOf (systemInstruction : string) (i : Controller.FormInput)
    (file : File.t) : Page.GenerateContentParameters :=
  Page.mkRequest "gemini-2.5-flash"
    (Encoder.mkInlineData (Some (Base64.encode (File.bytes file)))
       (File.type file))
    (Controller.userPromptText i) systemInstruction "application/json".

(** The page once the request of a submission went out. *)
Definition sent (systemInstruction : string) (i : Controller.FormInput)
    (file : File.t) (st : Page.t) : Page.t :=
  Page.push_request (requestOf systemInstruction i file)
    (Page.showLoading true st).

(** The event is a submission of the form. *)
Definition isSubmit (ev : Controller.Event) : bool :=
  match ev with
  | Controller.Submit _ => true
  | _ => false
  end.

(** [n] firings of the rotation timer of the variable [messageInterval]. *)
Definition rotate (n : nat) (st : Page.t) : Page.t :=
  Nat.iter n Page.messageTick st.

(** Firings of rotation timers, in order: [None] is the timer of the
    variable, [Some k] the stray timer number [k]. *)
Definition fire (k : option nat) (st : Page.t) : Page.t :=
  match k with
  | None => Page.messageTick st
  | Some k => Page.strayTick k st
  end.

Definition fireAll (ks : list (option nat)) (st : Page.t) : Page.t :=
  fold_left (fun s k => fire k s) ks st.

(** What the listeners other than the submit listener leave alone. *)
Definition sameForm (st st' : Page.t) : Prop :=
  Page.resultsSection st' = Page.resultsSection st
  /\ Page.errorSection st' = Page.errorSection st
  /\ Page.errorSection_hidden st' = Page.errorSection_hidden st
  /\ Page.requests st' = Page.requests st
  /\ Page.submitButton_disabled st' = Page.submitButton_disabled st
  /\ Page.inputSection_hidden st' = Page.inputSection_hidden st
  /\ Page.loadingSection_hidden st' = Page.loadingSection_hidden st.

(** The parts of the countdown display, as [updateCountdown] computes
    them. *)
Definition days (diff : Z) : Z := (diff / (1000 * 60 * 60 * 24))%Z.
Definition hours (diff : Z) : Z :=
  (Z.rem diff (1000 * 60 * 60 * 24) / (1000 * 60 * 60))%Z.
Definition minutes (diff : Z) : Z :=
  (Z.rem diff (1000 * 60 * 60) / (1000 * 60))%Z.
Definition seconds (diff : Z) : Z := (Z.rem diff (1000 * 60) / 1000)%Z.

(** The display of [d] days, [h] hours, [m] minutes and [s] seconds. *)
Definition partsDisplay (d h m s : Z) : string :=
  string_of_Z d ++ "d " ++ string_of_Z h ++ "h " ++ string_of_Z m ++ "m "
  ++ string_of_Z s ++ "s".

(** [d], [h], [m] and [s] are the days, hours, minutes and seconds of
    [diff] milliseconds, rounded down to the second. *)
Definition partsOf (diff d h m s : Z) : Prop :=
  (0 <= d /\ 0 <= h < 24 /\ 0 <= m < 60 /\ 0 <= s < 60
   /\ ((d * 24 + h) * 60 + m) * 60 + s = diff / 1000)%Z.

(** The clock readings of the countdown timer among the events. *)
Definition readings (evs : list App.Event) : list Z :=
  flat_map (fun ev => match ev with
                      | App.CountdownTimer now => [now]
                      | App.Dom _ => []
                      end) evs.

(** A course that fails its eligibility check, with the reason the schema
    gives as an example. *)
Definition overlongCourse : CourseEntry.t :=
  CourseEntry.mk (Some 3%Z) (Some "Bath") (Some "MRes Economics")
    (Some "Bath") (Some "https://example.org") (Some "Sep 2026") (Some 24%Z)
    (Some "£12,000") (Some ["Fits"])
    (Some (EligibilityCheck.mk (Some false)
             (Some "Ineligible: duration is over 12 months")))
    None.

(** Sample inputs. *)
Definition brokenDocument : ResultDocument.t :=
  ResultDocument.mk
    (Some (Profile.mk (Some ["Leadership"]) (Some ["Impact"])))
    (Some sameTrio) None (Some emptyBullets) None (Some ["Confirm fees"]).

Definition parseBroken (_ : string) : result ResultDocument.t :=
  Ok brokenDocument.

Definition serviceSilent (_ : Page.GenerateContentParameters)
    : settled (option string) := Pending.


End Terms.

(** * Properties *)

(** ** Substring search *)

Module JsFacts.

Lemma startsWith_refl_app (p b : string) : startsWith (p ++ b) p = true.
Proof.
  induction p as [|c p IH]; simpl; [reflexivity|].
  now rewrite Ascii.eqb_refl.
Qed.

(** A character foreign to the pattern stops every match that reaches it. *)
Lemma startsWith_barrier (c : ascii) (p x y : string) :
  mem c p = false ->
  startsWith (x ++ String c y) p = startsWith x p.
Proof.
  revert x. induction p as [|pc pr IH]; intros x Hc; [now destruct x|].
  simpl in Hc. destruct (Ascii.eqb c pc) eqn:E; [discriminate|].
  destruct x as [|xc xr]; simpl.
  - rewrite Ascii.eqb_sym, E. reflexivity.
  - destruct (Ascii.eqb pc xc); [apply IH; assumption | reflexivity].
Qed.

Lemma occurrences_barrier (c : ascii) (p x y : string) :
  p <> "" -> mem c p = false ->
  occurrences p (x ++ String c y) = occurrences p x + occurrences p y.
Proof.
  intros Hp Hc. induction x as [|xc xr IH].
  - destruct p as [|pc pr]; [congruence|]. simpl in *.
    destruct (Ascii.eqb c pc) eqn:E; [discriminate|].
    rewrite Ascii.eqb_sym, E. reflexivity.
  - change (occurrences p ((String xc xr) ++ String c y))
      with ((if startsWith (String xc xr ++ String c y) p then 1 else 0)
            + occurrences p (xr ++ String c y)).
    rewrite startsWith_barrier by assumption. rewrite IH.
    change (occurrences p (String xc xr))
      with ((if startsWith (String xc xr) p then 1 else 0) + occurrences p xr).
    lia.
Qed.

Lemma occurrences_nil_r (p : string) : p <> "" -> occurrences p "" = 0.
Proof. destruct p; [congruence | reflexivity]. Qed.

Lemma includes_occurrences (s p : string) :
  includes s p = negb (Nat.eqb (occurrences p s) 0).
Proof.
  induction s as [|c s IH]; simpl.
  - destruct (startsWith "" p); reflexivity.
  - destruct (startsWith (String c s) p); [reflexivity | exact IH].
Qed.

Lemma occurrences_at_least (p a b : string) :
  1 <= occurrences p (a ++ p ++ b).
Proof.
  induction a as [|c a IH].
  - simpl append. destruct (p ++ b) eqn:E; simpl;
      rewrite <- E, startsWith_refl_app; lia.
  - change (occurrences p (String c a ++ p ++ b))
      with ((if startsWith (String c a ++ p ++ b) p then 1 else 0)
            + occurrences p (a ++ p ++ b)).
    lia.
Qed.

Lemma startsWith_app_l (s p v : string) :
  startsWith s (p ++ v) = true -> startsWith s p = true.
Proof.
  revert s. induction p as [|c p IH]; intros s H; [reflexivity|].
  simpl in *. destruct s as [|d s]; [discriminate|].
  destruct (Ascii.eqb c d); [apply IH; assumption | discriminate].
Qed.

Lemma occurrences_drop_suffix (p v s : string) :
  occurrences (p ++ v) s <= occurrences p s.
Proof.
  induction s as [|d s IH]; simpl.
  - destruct (startsWith "" (p ++ v)) eqn:E;
      [rewrite (startsWith_app_l _ _ _ E) | ]; lia.
  - destruct (startsWith (String d s) (p ++ v)) eqn:E;
      [rewrite (startsWith_app_l _ _ _ E) | ]; lia.
Qed.

Lemma occurrences_drop_head_tail (c d : ascii) (p s : string) :
  occurrences (String c p) (String d s) <= occurrences p s.
Proof.
  revert d. induction s as [|e s IH]; intros d.
  - simpl. destruct (Ascii.eqb c d); [destruct (startsWith "" p) | ]; lia.
  - change (occurrences (String c p) (String d (String e s)))
      with ((if startsWith (String d (String e s)) (String c p) then 1 else 0)
            + occurrences (String c p) (String e s)).
    change (occurrences p (String e s))
      with ((if startsWith (String e s) p then 1 else 0) + occurrences p s).
    specialize (IH e). simpl startsWith.
    destruct (Ascii.eqb c d); [destruct (startsWith (String e s) p) | ]; lia.
Qed.

Lemma occurrences_drop_head (c : ascii) (p s : string) :
  occurrences (String c p) s <= occurrences p s.
Proof.
  destruct s as [|d s]; [simpl; lia|].
  etransitivity; [apply occurrences_drop_head_tail|].
  simpl. lia.
Qed.

(** A pattern occurs no more often than any piece of it. *)
Lemma occurrences_sub (u m v s : string) :
  occurrences (u ++ m ++ v) s <= occurrences m s.
Proof.
  induction u as [|c u IH]; simpl append.
  - apply occurrences_drop_suffix.
  - etransitivity; [apply occurrences_drop_head | exact IH].
Qed.

Lemma startsWith_mem (c : ascii) (s p : string) :
  startsWith s p = true -> mem c p = true -> mem c s = true.
Proof.
  revert s. induction p as [|pc pr IH]; intros s H Hc; [discriminate|].
  simpl in *. destruct s as [|sc sr]; [discriminate|].
  destruct (Ascii.eqb pc sc) eqn:E; [|discriminate].
  apply Ascii.eqb_eq in E. subst sc. simpl.
  destruct (Ascii.eqb c pc); [reflexivity | apply IH; assumption].
Qed.

(** A text lacking a character of the pattern holds no occurrence of it. *)
Lemma occurrences_foreign (c : ascii) (p s : string) :
  mem c p = true -> mem c s = false -> occurrences p s = 0.
Proof.
  intros Hp. induction s as [|d s IH]; intros Hs.
  - simpl. destruct (startsWith "" p) eqn:E; [|reflexivity].
    pose proof (startsWith_mem c _ _ E Hp). discriminate.
  - change (occurrences p (String d s))
      with ((if startsWith (String d s) p then 1 else 0) + occurrences p s).
    destruct (startsWith (String d s) p) eqn:E.
    + pose proof (startsWith_mem c _ _ E Hp). congruence.
    + simpl in Hs. destruct (Ascii.eqb c d); [discriminate|].
      rewrite IH by assumption. reflexivity.
Qed.

Lemma includes_false_occurrences (s p : string) :
  includes s p = false <-> occurrences p s = 0.
Proof.
  rewrite includes_occurrences.
  destruct (occurrences p s); simpl; split; intro; congruence.
Qed.

Lemma includes_true_occurrences (s p : string) :
  includes s p = true <-> 1 <= occurrences p s.
Proof.
  rewrite includes_occurrences.
  destruct (occurrences p s); simpl; split; intro; try congruence; lia.
Qed.

End JsFacts.

Import JsFacts Render Spec.

Ltac count_pieces :=
  repeat (first
    [ rewrite occurrences_barrier by (reflexivity || discriminate)
    | progress simpl
    | progress unfold q, dq ]).


(** ** Advisories in the rendered fragments *)

Lemma append_nil_r (s : string) : s ++ "" = s.
Proof. induction s; simpl; congruence. Qed.

Lemma append_assoc (a b c : string) : (a ++ b) ++ c = a ++ b ++ c.
Proof. induction a; simpl; congruence. Qed.

Lemma join_cons (x : string) (xs : list string) : join (x :: xs) = x ++ join xs.
Proof.
  unfold join. destruct xs as [|y ys]; simpl;
    [now rewrite append_nil_r | reflexivity].
Qed.

Lemma mem_digits (c : ascii) (d : Decimal.uint) :
  mem c "0123456789" = false -> mem c (NilEmpty.string_of_uint d) = false.
Proof.
  intros H. simpl in H.
  repeat match type of H with
         | (if Ascii.eqb c ?x then _ else _) = _ =>
             let E := fresh "E" in
             destruct (Ascii.eqb c x) eqn:E; [discriminate|]
         end.
  induction d; simpl; rewrite ?E, ?E0, ?E1, ?E2, ?E3, ?E4, ?E5, ?E6, ?E7, ?E8;
    auto.
Qed.

Lemma mem_digits_nilzero (c : ascii) (d : Decimal.uint) :
  mem c "0123456789" = false -> mem c (NilZero.string_of_uint d) = false.
Proof.
  intros H. unfold NilZero.string_of_uint.
  destruct d; try (apply mem_digits; exact H).
  simpl in *. destruct (Ascii.eqb c "0"); [discriminate | reflexivity].
Qed.

(** The decimal text of an integer holds digits and a minus sign only. *)
Lemma mem_string_of_Z (c : ascii) (z : Z) :
  mem c "-0123456789" = false -> mem c (string_of_Z z) = false.
Proof.
  intros H. change (mem c "-0123456789")
    with (if Ascii.eqb c "-" then true else mem c "0123456789") in H.
  destruct (Ascii.eqb c "-") eqn:E; [discriminate|].
  unfold string_of_Z, NilZero.string_of_int.
  destruct (Z.to_int z) as [d|d].
  - apply mem_digits_nilzero; exact H.
  - change (mem c (String "-" (NilZero.string_of_uint d)))
      with (if Ascii.eqb c "-" then true else mem c (NilZero.string_of_uint d)).
    rewrite E. apply mem_digits_nilzero; exact H.
Qed.

Lemma occurrences_string_of_Z (m : string) (c : ascii) (z : Z) :
  mem c m = true -> mem c "-0123456789" = false ->
  occurrences m (string_of_Z z) = 0.
Proof.
  intros Hm Hc. apply (occurrences_foreign c); [exact Hm|].
  apply mem_string_of_Z; exact Hc.
Qed.

Lemma occurrences_interpZ (m : string) (c : ascii) (z : option Z) :
  mem c m = true -> mem c "-0123456789undefined" = false ->
  occurrences m (interpZ z) = 0.
Proof.
  intros Hm Hc. apply (occurrences_foreign c); [exact Hm|].
  destruct z as [z|]; simpl interpZ.
  - apply mem_string_of_Z. simpl in *.
    repeat match type of Hc with
           | (if Ascii.eqb c ?x then _ else _) = _ =>
               destruct (Ascii.eqb c x); [discriminate|]
           end.
    reflexivity.
  - simpl in *.
    repeat match type of Hc with
           | (if Ascii.eqb c ?x then _ else _) = _ =>
               destruct (Ascii.eqb c x); [discriminate|]
           end.
    reflexivity.
Qed.

(** Occurrences of a marker in the concatenation of fragments that each
    begin with a character foreign to it. *)
Lemma occurrences_join_barrier (c : ascii) (m : string) (frags : list string) :
  m <> "" -> mem c m = false ->
  Forall (fun f => exists r, f = String c r) frags ->
  occurrences m (join frags) = list_sum (map (occurrences m) frags).
Proof.
  intros Hm Hn H. induction H as [|f fs [r ->] Hfs IH].
  - simpl. apply occurrences_nil_r; exact Hm.
  - rewrite join_cons.
    change (list_sum (map (occurrences m) (String c r :: fs)))
      with (occurrences m (String c r) + list_sum (map (occurrences m) fs)).
    rewrite <- IH.
    destruct Hfs as [|g gs [r' ->] _].
    + change (join []) with "". rewrite append_nil_r.
      rewrite (occurrences_nil_r m Hm). lia.
    + rewrite join_cons.
      change ((String c r') ++ join gs) with (String c (r' ++ join gs)).
      rewrite occurrences_barrier by assumption.
      destruct m as [|mc mr]; [congruence|].
      cbn [mem] in Hn. destruct (Ascii.eqb c mc) eqn:E; [discriminate|].
      change (occurrences (String mc mr) (String c (r' ++ join gs)))
        with ((if startsWith (String c (r' ++ join gs)) (String mc mr) then 1 else 0)
              + occurrences (String mc mr) (r' ++ join gs)).
      cbn [startsWith]. rewrite Ascii.eqb_sym, E. lia.
Qed.

Lemma list_sum_zero (ns : list nat) :
  Forall (fun n => n = 0) ns -> list_sum ns = 0.
Proof. induction 1 as [|n ns -> _ IH]; [reflexivity | exact IH]. Qed.

Lemma startsWith_toLowerCase (s p : string) :
  startsWith s p = true -> startsWith (toLowerCase s) (toLowerCase p) = true.
Proof.
  revert s. induction p as [|pc pr IH]; intros s H; [reflexivity|].
  destruct s as [|sc sr]; [discriminate|]. simpl in *.
  destruct (Ascii.eqb pc sc) eqn:E; [|discriminate].
  apply Ascii.eqb_eq in E. subst sc. rewrite Ascii.eqb_refl. auto.
Qed.

Lemma includes_toLowerCase (s p : string) :
  includes s p = true -> includes (toLowerCase s) (toLowerCase p) = true.
Proof.
  induction s as [|c s IH]; intros H.
  - simpl in *. destruct (startsWith "" p) eqn:E; [|discriminate].
    apply startsWith_toLowerCase in E. simpl in E. now rewrite E.
  - cbn [includes] in H. destruct (startsWith (String c s) p) eqn:E.
    + apply startsWith_toLowerCase in E.
      change (toLowerCase (String c s))
        with (String (lower_ascii c) (toLowerCase s)) in *.
      cbn [includes]. now rewrite E.
    + change (toLowerCase (String c s))
        with (String (lower_ascii c) (toLowerCase s)).
      cbn [includes]. rewrite (IH H).
      destruct (startsWith (String (lower_ascii c) _) _); reflexivity.
Qed.

(** A programme without "mba" in any case cannot hold the advisory's class
    name. *)
Lemma isMBA_false_marker (p : string) :
  isMBA p = false -> occurrences mbaMarker p = 0.
Proof.
  intros H. apply includes_false_occurrences.
  destruct (includes p mbaMarker) eqn:E; [|reflexivity].
  apply includes_toLowerCase in E.
  apply includes_true_occurrences in E.
  change (toLowerCase mbaMarker) with ("" ++ "mba" ++ "-warning") in E.
  pose proof (occurrences_sub "" "mba" "-warning" (toLowerCase p)) as L.
  unfold isMBA in H. apply includes_false_occurrences in H. lia.
Qed.

Lemma free_cons (m t : string) (ts : list string) :
  free m (t :: ts) = true <-> occurrences m t = 0 /\ free m ts = true.
Proof.
  unfold free. cbn [forallb]. rewrite andb_true_iff, negb_true_iff.
  rewrite includes_false_occurrences. reflexivity.
Qed.

Lemma free_app (m : string) (ts us : list string) :
  free m (ts ++ us)%list = true <-> free m ts = true /\ free m us = true.
Proof. unfold free. rewrite forallb_app, andb_true_iff. reflexivity. Qed.

Lemma free_nil (m : string) : free m [] = true.
Proof. reflexivity. Qed.

Ltac split_free H :=
  repeat match type of H with
         | free _ (_ :: _) = true =>
             let H1 := fresh "Hfree" in
             apply free_cons in H; destruct H as [H1 H]
         end.

Lemma trioCard_trioMarker (e : TrioEntry.t) (card : string) :
  trioCard e = Ok card -> free trioMarker (trio_texts e) = true ->
  occurrences trioMarker card = 0.
Proof.
  unfold trioCard, trio_texts, trio_other_texts. intros H Hf.
  destruct (TrioEntry.programme e) as [p|]; [|discriminate].
  cbn [required bind interp] in *. injection H as <-.
  split_free Hf.
  remember (interp (TrioEntry.university e)) as u.
  remember (interp (TrioEntry.why_this_trio e)) as w.
  unfold trioMarker in *.
  destruct (isMBA p); count_pieces; lia.
Qed.

Lemma trioCard_mbaMarker (e : TrioEntry.t) (p card : string) :
  trioCard e = Ok card -> TrioEntry.programme e = Some p ->
  isMBA p = false -> free mbaMarker (trio_other_texts e) = true ->
  occurrences mbaMarker card = 0.
Proof.
  unfold trioCard, trio_other_texts. intros H Hp Hm Hf.
  rewrite Hp in H. cbn [required bind interp] in H. injection H as <-.
  rewrite Hm. apply isMBA_false_marker in Hm.
  split_free Hf.
  remember (interp (TrioEntry.university e)) as u.
  remember (interp (TrioEntry.why_this_trio e)) as w.
  unfold mbaMarker in *.
  count_pieces; lia.
Qed.

Lemma free_occurrences (m : string) (ts : list string) :
  free m ts = true -> Forall (fun t => occurrences m t = 0) ts.
Proof.
  induction ts as [|t ts IH]; intros H; [constructor|].
  apply free_cons in H. destruct H as [H1 H2]. constructor; auto.
Qed.

Lemma li_items_mbaMarker (xs : list string) :
  free mbaMarker xs = true -> occurrences mbaMarker (li_items xs) = 0.
Proof.
  intros H. unfold li_items.
  rewrite (occurrences_join_barrier "<") by
    (try discriminate; try reflexivity;
     apply Forall_map, Forall_forall; intros x _; eexists; reflexivity).
  apply list_sum_zero. rewrite map_map. apply Forall_map.
  apply free_occurrences in H. revert H. apply Forall_impl. intros x Hx.
  unfold mbaMarker in *. count_pieces. lia.
Qed.

Lemma eligibilityBadge_mbaMarker (ec : option EligibilityCheck.t) :
  occurrences mbaMarker (eligibilityBadge ec) = 0.
Proof.
  unfold eligibilityBadge.
  destruct ec as [ec|]; [destruct (truthy_bool _)|]; reflexivity.
Qed.

Lemma eligibilityReason_mbaMarker (ec : option EligibilityCheck.t) :
  free mbaMarker
    match ec with
    | Some ec =>
        if truthy_bool (EligibilityCheck.is_eligible ec) then []
        else [interp (EligibilityCheck.reason ec)]
    | None => []
    end = true ->
  occurrences mbaMarker (eligibilityReason ec) = 0.
Proof.
  unfold eligibilityReason. intros H.
  destruct ec as [ec|]; [|reflexivity].
  destruct (truthy_bool _); [reflexivity|]. cbn [negb].
  split_free H. remember (interp (EligibilityCheck.reason ec)) as r.
  unfold mbaMarker in *. count_pieces. lia.
Qed.

Lemma feeDisplay_mbaMarker (fee_gbp : option string) :
  free mbaMarker match fee_gbp with Some fee => [fee] | None => [] end = true ->
  occurrences mbaMarker (feeDisplay fee_gbp) = 0.
Proof.
  unfold feeDisplay. intros H. destruct fee_gbp as [fee|]; [|reflexivity].
  split_free H. unfold mbaMarker in *.
  destruct (andb _ _).
  - count_pieces. lia.
  - destruct (truthy_string _); [|reflexivity].
    change ("💷 " ++ fee) with (("💷" ++ "") ++ String " " fee).
    rewrite occurrences_barrier by (reflexivity || discriminate).
    rewrite Hfree. reflexivity.
Qed.

Lemma scoreDisclosure_mbaMarker (score_breakdown : option string) :
  free mbaMarker match score_breakdown with Some sb => [sb] | None => [] end = true ->
  occurrences mbaMarker (scoreDisclosure score_breakdown) = 0.
Proof.
  unfold scoreDisclosure. intros H.
  destruct (truthy_string score_breakdown) eqn:E; [|reflexivity].
  destruct score_breakdown as [sb|]; [|discriminate].
  split_free H. cbn [interp]. unfold mbaMarker in *. count_pieces. lia.
Qed.

Lemma courseCard_mbaMarker (c : CourseEntry.t) (p card : string) :
  courseCard c = Ok card -> CourseEntry.programme c = Some p ->
  isMBA p = false -> free mbaMarker (course_other_texts c) = true ->
  occurrences mbaMarker card = 0.
Proof.
  unfold courseCard, course_other_texts. intros H Hp Hm Hf.
  rewrite Hp in H. cbn [required bind] in H.
  destruct (CourseEntry.chevening_rationale c) as [rs|]; [|discriminate].
  cbn [required bind interp] in H. injection H as <-.
  rewrite Hm. apply isMBA_false_marker in Hm.
  repeat (apply free_app in Hf; let H1 := fresh "Hf" in destruct Hf as [H1 Hf]).
  pose proof (eligibilityBadge_mbaMarker (CourseEntry.eligibility_check c)) as Hbadge.
  apply eligibilityReason_mbaMarker in Hf1.
  apply feeDisplay_mbaMarker in Hf3.
  apply scoreDisclosure_mbaMarker in Hf4.
  apply li_items_mbaMarker in Hf5.
  split_free Hf0. split_free Hf2. split_free Hf.
  pose proof (occurrences_interpZ mbaMarker "m" (CourseEntry.rank c)
                eq_refl eq_refl) as Hrank.
  pose proof (occurrences_interpZ mbaMarker "m" (CourseEntry.duration_months c)
                eq_refl eq_refl) as Hduration.
  remember (interpZ (CourseEntry.rank c)) as rank.
  remember (interpZ (CourseEntry.duration_months c)) as duration.
  remember (interp (CourseEntry.university c)) as university.
  remember (interp (CourseEntry.city c)) as city.
  remember (interp (CourseEntry.start_cycle c)) as start_cycle.
  remember (interp (CourseEntry.url c)) as url.
  remember (eligibilityBadge (CourseEntry.eligibility_check c)) as badge.
  remember (eligibilityReason (CourseEntry.eligibility_check c)) as reason.
  remember (feeDisplay (CourseEntry.fee_gbp c)) as fee.
  remember (scoreDisclosure (CourseEntry.score_breakdown c)) as score.
  remember (li_items rs) as items.
  unfold mbaMarker in *.
  count_pieces. lia.
Qed.

Lemma occurrences_here (p b : string) : 1 <= occurrences p (p ++ b).
Proof. exact (occurrences_at_least p "" b). Qed.

Lemma occurrences_skip (p a b : string) :
  1 <= occurrences p b -> 1 <= occurrences p (a ++ b).
Proof.
  intros H. induction a as [|c a IH]; [exact H|].
  change (occurrences p (String c a ++ b))
    with ((if startsWith (String c a ++ b) p then 1 else 0)
          + occurrences p (a ++ b)).
  lia.
Qed.

Lemma Ok_inj {A} (a b : A) : Ok a = Ok b -> a = b.
Proof. congruence. Qed.

Ltac find_piece :=
  repeat match goal with
         | |- 1 <= occurrences ?p (?p ++ _) => apply occurrences_here
         | |- 1 <= occurrences ?p (?a ++ ?b) => apply (occurrences_skip p a b)
         end.

Lemma trioCard_mba (e : TrioEntry.t) (p card : string) :
  trioCard e = Ok card -> TrioEntry.programme e = Some p ->
  isMBA p = true -> includes card mbaAdvisory = true.
Proof.
  unfold trioCard. intros H Hp Hm. rewrite Hp in H.
  cbn [required bind] in H. rewrite Hm in H. apply Ok_inj in H. subst card.
  apply includes_true_occurrences. find_piece.
Qed.

Lemma courseCard_mba (c : CourseEntry.t) (p card : string) :
  courseCard c = Ok card -> CourseEntry.programme c = Some p ->
  isMBA p = true -> includes card mbaAdvisory = true.
Proof.
  unfold courseCard. intros H Hp Hm. rewrite Hp in H.
  cbn [required bind] in H. rewrite Hm in H.
  destruct (CourseEntry.chevening_rationale c) as [rs|]; [|discriminate].
  cbn [required bind] in H. apply Ok_inj in H. subst card.
  apply includes_true_occurrences. find_piece.
Qed.

Lemma marker_free_no_advisory (marker u v card : string) :
  occurrences marker card = 0 -> includes card (u ++ marker ++ v) = false.
Proof.
  intros H. apply includes_false_occurrences.
  pose proof (occurrences_sub u marker v card). lia.
Qed.

Lemma mbaAdvisory_marker : exists u v, mbaAdvisory = u ++ mbaMarker ++ v.
Proof. exists ("<p class=" ++ dq). eexists. reflexivity. Qed.

Lemma trioAdvisory_marker : exists u v, trioAdvisory = u ++ trioMarker ++ v.
Proof. exists ("<p class=" ++ dq). eexists. reflexivity. Qed.

(** ** Case-insensitive containment *)

Lemma startsWith_spec (s p : string) :
  startsWith s p = true <-> exists b, s = p ++ b.
Proof.
  split.
  - revert s. induction p as [|pc pr IH]; intros s H; [now exists s|].
    destruct s as [|sc sr]; [discriminate|]. simpl in H.
    destruct (Ascii.eqb pc sc) eqn:E; [|discriminate].
    apply Ascii.eqb_eq in E. subst sc.
    destruct (IH _ H) as [b ->]. now exists b.
  - intros [b ->]. apply startsWith_refl_app.
Qed.

Lemma includes_spec (s p : string) :
  includes s p = true <-> exists a b, s = a ++ p ++ b.
Proof.
  split.
  - induction s as [|c s IH]; cbn [includes]; intros H.
    + destruct (startsWith "" p) eqn:E; [|discriminate].
      apply startsWith_spec in E. destruct E as [b E]. now exists "", b.
    + destruct (startsWith (String c s) p) eqn:E.
      * apply startsWith_spec in E. destruct E as [b E]. now exists "", b.
      * destruct (IH H) as (a & b & ->). now exists (String c a), b.
  - intros (a & b & ->). apply includes_true_occurrences.
    apply occurrences_at_least.
Qed.

Lemma toLowerCase_app (a b : string) :
  toLowerCase (a ++ b) = toLowerCase a ++ toLowerCase b.
Proof. induction a; simpl; congruence. Qed.

Lemma toLowerCase_app_inv (s x y : string) :
  toLowerCase s = x ++ y ->
  exists s1 s2, s = s1 ++ s2 /\ toLowerCase s1 = x /\ toLowerCase s2 = y.
Proof.
  revert s. induction x as [|c x IH]; intros s H.
  - exists "", s. auto.
  - destruct s as [|d s]; [discriminate|]. simpl in H.
    injection H as Hc Hr. destruct (IH _ Hr) as (s1 & s2 & -> & H1 & H2).
    exists (String d s1), s2. simpl. rewrite H1, Hc. auto.
Qed.

(** The test of the renderer is containment up to letter case. *)
Lemma isMBA_spec (p : string) :
  isMBA p = true <-> containsIgnoringCase p "mba".
Proof.
  unfold isMBA, containsIgnoringCase. rewrite includes_spec. split.
  - intros (a & b & H).
    apply toLowerCase_app_inv in H. destruct H as (s1 & s2 & -> & H1 & H2).
    apply toLowerCase_app_inv in H2. destruct H2 as (m & s3 & -> & H2 & H3).
    exists s1, m, s3. auto.
  - intros (a & m & b & -> & H).
    exists (toLowerCase a), (toLowerCase b).
    rewrite !toLowerCase_app, H. reflexivity.
Qed.

(** ** The trio block *)

Lemma mapM_Forall2 {A B} (f : A -> result B) (xs : list A) (ys : list B) :
  mapM f xs = Ok ys -> Forall2 (fun x y => f x = Ok y) xs ys.
Proof.
  revert ys. induction xs as [|x xs IH]; intros ys H; simpl in H.
  - injection H as <-. constructor.
  - destruct (f x) as [y|] eqn:E; [|discriminate]. simpl in H.
    destruct (mapM f xs) as [ys'|]; [|discriminate]. simpl in H.
    injection H as <-. constructor; auto.
Qed.

Lemma trioCard_line (e : TrioEntry.t) (card : string) :
  trioCard e = Ok card -> exists r, card = String newline r.
Proof.
  unfold trioCard. destruct (TrioEntry.programme e); [|discriminate].
  cbn [required bind]. intros H. apply Ok_inj in H. subst card.
  eexists. reflexivity.
Qed.

Lemma trio_cards_trioMarker (trio : list TrioEntry.t) (cards : list string) :
  Forall2 (fun e card => trioCard e = Ok card) trio cards ->
  Forall (fun e => free trioMarker (trio_texts e) = true) trio ->
  occurrences trioMarker (join cards) = 0.
Proof.
  intros H Hf.
  rewrite (occurrences_join_barrier newline); try discriminate; try reflexivity.
  - apply list_sum_zero, Forall_map.
    induction H as [|e card trio cards He _ IH]; constructor.
    + apply (trioCard_trioMarker e); [exact He|]. now inversion Hf.
    + apply IH. now inversion Hf.
  - induction H as [|e card trio cards He _ IH]; constructor.
    + apply (trioCard_line e); exact He.
    + apply IH. now inversion Hf.
Qed.

Lemma renderTrio_trioMarker (trio : list TrioEntry.t) (html : string) :
  renderTrio trio = Ok html ->
  Forall (fun e => free trioMarker (trio_texts e) = true) trio ->
  occurrences trioMarker html = if singleUniversity trio then 1 else 0.
Proof.
  unfold renderTrio. intros H Hf.
  destruct (mapM trioCard trio) as [cards|] eqn:E; [|discriminate].
  cbn [bind] in H. apply Ok_inj in H. subst html.
  pose proof (trio_cards_trioMarker _ _ (mapM_Forall2 _ _ _ E) Hf) as Hc.
  remember (join cards) as body. unfold trioMarker in *.
  destruct (singleUniversity trio); count_pieces; lia.
Qed.

Lemma renderTrio_advisory_here (trio : list TrioEntry.t) (html : string) :
  renderTrio trio = Ok html -> singleUniversity trio = true ->
  1 <= occurrences trioAdvisory html.
Proof.
  unfold renderTrio. intros H Hs.
  destruct (mapM trioCard trio) as [cards|]; [|discriminate].
  cbn [bind] in H. rewrite Hs in H. apply Ok_inj in H. subst html.
  find_piece.
Qed.

Lemma nodup_all_equal {A} (dec : forall a b : A, {a = b} + {a <> b})
    (u : A) (l : list A) :
  l <> [] -> Forall (eq u) l -> nodup dec l = [u].
Proof.
  induction l as [|x l IH]; intros Hne H; [congruence|].
  inversion H as [|? ? Hx Hl]; subst. simpl.
  destruct l as [|y l'].
  - destruct (in_dec dec x []) as [[]|]; reflexivity.
  - destruct (in_dec dec x (y :: l')) as [_|Hn].
    + apply IH; [discriminate | exact Hl].
    + exfalso. apply Hn. inversion Hl; subst. now left.
Qed.

Lemma nodup_singleton_all {A} (dec : forall a b : A, {a = b} + {a <> b})
    (l : list A) :
  length (nodup dec l) = 1 -> exists u, Forall (eq u) l.
Proof.
  intros H. destruct (nodup dec l) as [|u [|v r]] eqn:E; try discriminate.
  exists u. apply Forall_forall. intros x Hx.
  apply (nodup_In dec) in Hx. rewrite E in Hx.
  destruct Hx as [Hx|[]]. exact Hx.
Qed.

(** The test of [renderTrio]: one university in the set, more than one
    entry in the list. *)
Lemma singleUniversity_spec (trio : list TrioEntry.t) :
  singleUniversity trio = true <-> shareOneUniversity trio /\ 1 < length trio.
Proof.
  unfold singleUniversity, universities_size, shareOneUniversity.
  rewrite andb_true_iff, Nat.eqb_eq, Nat.ltb_lt. split.
  - intros [H1 H2]. split; [|exact H2].
    destruct (nodup_singleton_all _ _ H1) as [u Hu]. exists u.
    apply Forall_forall. intros e He.
    rewrite Forall_forall in Hu. symmetry. apply Hu. now apply in_map.
  - intros [[u Hu] H2]. split; [|exact H2].
    rewrite (nodup_all_equal _ u); [reflexivity| |].
    + destruct trio; [simpl in H2; lia | discriminate].
    + apply Forall_map. revert Hu. apply Forall_impl. intros e He. now symmetry.
Qed.

Lemma mixed_not_single (trio : list TrioEntry.t) :
  mixedUniversities trio -> singleUniversity trio = false.
Proof.
  intros (e1 & e2 & H1 & H2 & Hne).
  destruct (singleUniversity trio) eqn:E; [|reflexivity].
  apply singleUniversity_spec in E. destruct E as [[u Hu] _].
  rewrite Forall_forall in Hu. exfalso. apply Hne.
  now rewrite (Hu _ H1), (Hu _ H2).
Qed.

(** C7, as amended. A ranked course, and likewise a trio entry, whose
    programme contains "mba" in any letter case has the fee-cap advisory in
    its card. One whose programme does not has no advisory in its card as
    long as none of its other interpolated texts carries the advisory's class
    name [mba-warning]: the texts are interpolated as they are, so an entry
    can bring the markup of the advisory with it. The test on the programme
    is containment up to letter case. *)
Theorem mba_advisory_rule :
  (forall (c : CourseEntry.t) (p card : string),
      courseCard c = Ok card -> CourseEntry.programme c = Some p ->
      (isMBA p = true <-> containsIgnoringCase p "mba")
      /\ (isMBA p = true -> includes card mbaAdvisory = true)
      /\ (isMBA p = false ->
          free mbaMarker (course_other_texts c) = true ->
          includes card mbaAdvisory = false))
  /\ (forall (e : TrioEntry.t) (p card : string),
      trioCard e = Ok card -> TrioEntry.programme e = Some p ->
      (isMBA p = true <-> containsIgnoringCase p "mba")
      /\ (isMBA p = true -> includes card mbaAdvisory = true)
      /\ (isMBA p = false ->
          free mbaMarker (trio_other_texts e) = true ->
          includes card mbaAdvisory = false)).
Proof.
  split; intros x p card H Hp; (split; [apply isMBA_spec|]); split.
  - apply (courseCard_mba x p card H Hp).
  - intros Hm Hf. destruct mbaAdvisory_marker as (u & v & ->).
    apply marker_free_no_advisory.
    apply (courseCard_mbaMarker x p card H Hp Hm Hf).
  - apply (trioCard_mba x p card H Hp).
  - intros Hm Hf. destruct mbaAdvisory_marker as (u & v & ->).
    apply marker_free_no_advisory.
    apply (trioCard_mbaMarker x p card H Hp Hm Hf).
Qed.

(** C7 as stated fails: a course and a trio entry without "mba" in the
    programme whose other text carries the advisory's markup. *)
Lemma mba_advisory_injected :
  (exists p card,
      CourseEntry.programme injectedCourse = Some p /\ isMBA p = false
      /\ courseCard injectedCourse = Ok card
      /\ includes card mbaAdvisory = true)
  /\ (exists p card,
      TrioEntry.programme injectedTrioEntry = Some p /\ isMBA p = false
      /\ trioCard injectedTrioEntry = Ok card
      /\ includes card mbaAdvisory = true).
Proof.
  split; eexists; eexists; (split; [reflexivity|]);
    (split; [reflexivity|]); (split; [reflexivity|]); vm_compute; reflexivity.
Qed.

(** C8, as amended. For a trio none of whose interpolated texts carries the
    advisory's class name [trio-warning], the diversification advisory
    occurs in the block once when all entries name one university and the
    list has more than one entry, and not at all otherwise; so it occurs
    exactly once for three entries of one university and never for a trio
    of mixed universities. *)
Theorem trio_advisory_rule (trio : list TrioEntry.t) (html : string) :
  renderTrio trio = Ok html ->
  Forall (fun e => free trioMarker (trio_texts e) = true) trio ->
  (singleUniversity trio = true <-> shareOneUniversity trio /\ 1 < length trio)
  /\ occurrences trioAdvisory html = (if singleUniversity trio then 1 else 0)
  /\ (length trio = 3 -> shareOneUniversity trio ->
      occurrences trioAdvisory html = 1)
  /\ (mixedUniversities trio -> includes html trioAdvisory = false).
Proof.
  intros H Hf.
  assert (Hcount : occurrences trioAdvisory html
                   = if singleUniversity trio then 1 else 0).
  { pose proof (renderTrio_trioMarker trio html H Hf) as Hm.
    destruct trioAdvisory_marker as (u & v & E).
    pose proof (occurrences_sub u trioMarker v html) as Hle.
    rewrite <- E in Hle.
    destruct (singleUniversity trio) eqn:S.
    - pose proof (renderTrio_advisory_here trio html H S). lia.
    - lia. }
  split; [apply singleUniversity_spec|]. split; [exact Hcount|]. split.
  - intros Hlen Hshare. rewrite Hcount.
    assert (E : singleUniversity trio = true)
      by (apply singleUniversity_spec; split; [exact Hshare | lia]).
    now rewrite E.
  - intros Hmixed. apply includes_false_occurrences.
    rewrite Hcount, (mixed_not_single trio Hmixed). reflexivity.
Qed.

(** C8 as stated fails: a trio of mixed universities that shows the
    advisory, and a trio of one university that shows it twice. *)
Lemma trio_advisory_injected :
  (exists html,
      renderTrio mixedInjectedTrio = Ok html
      /\ mixedUniversities mixedInjectedTrio
      /\ includes html trioAdvisory = true)
  /\ (exists html,
      renderTrio sameInjectedTrio = Ok html
      /\ length sameInjectedTrio = 3
      /\ shareOneUniversity sameInjectedTrio
      /\ occurrences trioAdvisory html = 2).
Proof.
  split; eexists; (split; [reflexivity|]).
  - split; [|vm_compute; reflexivity].
    exists (TrioEntry.mk (Some "Leeds") (Some "LLM Law") (Some trioAdvisory)),
           (TrioEntry.mk (Some "York") (Some "MSc Economics") (Some "b")).
    split; [now left|]. split; [right; now left | discriminate].
  - split; [reflexivity|]. split; [|vm_compute; reflexivity].
    exists (Some "Leeds"). repeat constructor.
Qed.

(** ** Base64 round trip *)

Module Base64Facts.
Import Base64.
Local Open Scope N_scope.

Lemma sextet_of_char_of_sextet (n : N) :
  n < 64 -> sextet_of_char (char_of_sextet n) = Some n.
Proof.
  intros H.
  assert (A : forallb
                (fun k =>
                   match sextet_of_char (char_of_sextet (N.of_nat k)) with
                   | Some m => N.eqb m (N.of_nat k)
                   | None => false
                   end) (seq 0 64) = true) by (vm_compute; reflexivity).
  rewrite forallb_forall in A.
  specialize (A (N.to_nat n)). rewrite N2Nat.id in A.
  assert (I : In (N.to_nat n) (seq 0 64)) by (apply in_seq; lia).
  specialize (A I).
  destruct (sextet_of_char (char_of_sextet n)) as [m|]; [|discriminate].
  apply N.eqb_eq in A. now subst.
Qed.

Lemma sextet_of_pad : sextet_of_char pad = None.
Proof. reflexivity. Qed.

Lemma byte_of_N_spec (a : byte) (n : N) :
  n mod 256 = Byte.to_N a -> byte_of_N n = a.
Proof.
  intros H. unfold byte_of_N. rewrite H, Byte.of_to_N. reflexivity.
Qed.

Lemma to_N_lt (a : byte) : Byte.to_N a < 256.
Proof. pose proof (Byte.to_N_bounded a). lia. Qed.

Ltac euclid := zify; Z.to_euclidean_division_equations; lia.

Lemma list_ind3 {A} (P : list A -> Prop) :
  P [] -> (forall a, P [a]) -> (forall a b, P [a; b]) ->
  (forall a b c l, P l -> P (a :: b :: c :: l)) ->
  forall l, P l.
Proof.
  intros H0 H1 H2 H3. fix IH 1.
  intros [|a [|b [|c l]]]; [exact H0 | apply H1 | apply H2 | apply H3, IH].
Qed.

Lemma decode_encode (bs : list byte) : decode (encode bs) = Some bs.
Proof.
  induction bs as [|a|a b|a b c l IH] using list_ind3.
  - reflexivity.
  - cbn [encode]. unfold group. change (Byte.to_N x00) with 0.
    pose proof (to_N_lt a) as Ha. set (A := Byte.to_N a) in *.
    cbn [decode].
    rewrite !sextet_of_char_of_sextet by euclid.
    rewrite sextet_of_pad. rewrite Ascii.eqb_refl. cbn [is_empty andb].
    f_equal. f_equal. apply byte_of_N_spec. euclid.
  - cbn [encode]. unfold group. change (Byte.to_N x00) with 0.
    pose proof (to_N_lt a) as Ha. set (A := Byte.to_N a) in *.
    pose proof (to_N_lt b) as Hb. set (B := Byte.to_N b) in *.
    cbn [decode].
    rewrite !sextet_of_char_of_sextet by euclid.
    rewrite sextet_of_pad. rewrite Ascii.eqb_refl. cbn [is_empty andb].
    f_equal. f_equal; [|f_equal]; apply byte_of_N_spec; euclid.
  - cbn [encode]. unfold group.
    pose proof (to_N_lt a) as Ha. set (A := Byte.to_N a) in *.
    pose proof (to_N_lt b) as Hb. set (B := Byte.to_N b) in *.
    pose proof (to_N_lt c) as Hc. set (C := Byte.to_N c) in *.
    cbn [decode].
    rewrite !sextet_of_char_of_sextet by euclid.
    rewrite IH.
    f_equal. f_equal; [|f_equal; [|f_equal]]; apply byte_of_N_spec; euclid.
Qed.

End Base64Facts.

(** ** File Encoder *)

Module EncoderFacts.
Import Base64 Base64Facts Encoder.

Lemma split_comma_clean (s : string) :
  mem "," s = false -> split_comma s = [s].
Proof.
  induction s as [|c s IH]; intros H; [reflexivity|].
  cbn [mem] in H. cbn [split_comma]. rewrite (Ascii.eqb_sym c ",").
  destruct (Ascii.eqb "," c); [discriminate|]. now rewrite IH.
Qed.

Lemma split_comma_app (a b : string) :
  mem "," a = false -> split_comma (a ++ String "," b) = a :: split_comma b.
Proof.
  induction a as [|c a IH]; intros H; [reflexivity|].
  cbn [mem] in H. cbn [append split_comma]. rewrite (Ascii.eqb_sym c ",").
  destruct (Ascii.eqb "," c); [discriminate|]. now rewrite IH.
Qed.

Lemma mem_app (c : ascii) (a b : string) :
  mem c (a ++ b) = mem c a || mem c b.
Proof.
  induction a as [|d a IH]; [reflexivity|]. cbn [append mem].
  destruct (Ascii.eqb c d); [reflexivity | exact IH].
Qed.

Lemma get_mem (k : nat) (s : string) (c : ascii) :
  String.get k s = Some c -> mem c s = true.
Proof.
  revert k. induction s as [|d s IH]; intros k H; [discriminate|].
  cbn [mem]. destruct k as [|k]; simpl in H.
  - injection H as ->. now rewrite Ascii.eqb_refl.
  - destruct (Ascii.eqb c d); [reflexivity | exact (IH _ H)].
Qed.

Lemma char_of_sextet_no_comma (n : N) :
  Ascii.eqb "," (char_of_sextet n) = false.
Proof.
  unfold char_of_sextet.
  destruct (String.get (N.to_nat n) alphabet) as [c|] eqn:E; [|reflexivity].
  apply get_mem in E. destruct (Ascii.eqb "," c) eqn:F; [|reflexivity].
  apply Ascii.eqb_eq in F. subst c. discriminate.
Qed.

Lemma encode_no_comma (bs : list byte) : mem "," (encode bs) = false.
Proof.
  induction bs as [|a|a b|a b c l IH] using list_ind3;
    cbn [encode mem]; rewrite ?char_of_sextet_no_comma; auto.
Qed.

Lemma readAsDataURL_split (file : File.t) :
  File.readable file = true -> mem "," (File.type file) = false ->
  exists dataUrl,
    readAsDataURL file = Some dataUrl
    /\ nth_error (split_comma dataUrl) 1 = Some (encode (File.bytes file)).
Proof.
  intros Hr Hc. unfold readAsDataURL. rewrite Hr. eexists. split; [reflexivity|].
  set (ty := if File.type file =? "" then "application/octet-stream"
             else File.type file).
  assert (Hty : mem "," ty = false) by (subst ty; destruct (_ =? _); auto).
  change ("data:" ++ ty ++ ";base64," ++ encode (File.bytes file))
    with ("data:" ++ ty ++ ";base64" ++ String "," (encode (File.bytes file))).
  replace ("data:" ++ ty ++ ";base64" ++ String "," (encode (File.bytes file)))
    with (("data:" ++ ty ++ ";base64") ++ String "," (encode (File.bytes file))).
  - rewrite split_comma_app.
    + rewrite split_comma_clean by apply encode_no_comma. reflexivity.
    + change ("data:" ++ ty ++ ";base64") with ("data:" ++ (ty ++ ";base64")).
      rewrite !mem_app, Hty. reflexivity.
  - rewrite !append_assoc. reflexivity.
Qed.

(** The part the encoder makes of a readable file whose type holds no
    comma. *)
Lemma fileToGenerativePart_clean (file : File.t) :
  File.readable file = true -> mem "," (File.type file) = false ->
  fileToGenerativePart file
  = Fulfilled (mkInlineData (Some (encode (File.bytes file))) (File.type file)).
Proof.
  intros Hr Hc.
  destruct (readAsDataURL_split file Hr Hc) as (dataUrl & Hd & Hn).
  unfold fileToGenerativePart, base64EncodedDataPromise, onloadend.
  rewrite Hd. cbn [required bind]. rewrite Hn. reflexivity.
Qed.

(** The types of the allow-list hold no comma. *)
Lemma allowed_types_clean (type : string) :
  Controller.allowed type = true -> mem "," type = false.
Proof.
  unfold Controller.allowed, Controller.allowedTypes. cbn [existsb].
  rewrite !orb_true_iff, !String.eqb_eq. intros [->|[->|H]];
    [reflexivity | reflexivity | discriminate].
Qed.

End EncoderFacts.

(** C6, as amended. Every readable file whose MIME type holds no comma, and
    so every file that passes the allow-list of the form, is encoded to a
    transport representation that reads back as the bytes and the MIME type
    of the file. *)
Theorem encoder_round_trip (file : File.t) :
  File.readable file = true -> mem "," (File.type file) = false ->
  roundTrip file.
Proof.
  intros Hr Hc. unfold roundTrip.
  exists (Encoder.mkInlineData (Some (Base64.encode (File.bytes file)))
            (File.type file)).
  split.
  - apply EncoderFacts.fileToGenerativePart_clean; assumption.
  - unfold Encoder.decodePart. cbn [Encoder.data Encoder.mimeType].
    rewrite Base64Facts.decode_encode. reflexivity.
Qed.

Lemma encoder_round_trip_witness : roundTrip pdfFile.
Proof. apply encoder_round_trip; reflexivity. Defined.

(** C6 as stated fails: the MIME type of this readable file holds a comma,
    and the second piece of its data URL is not its base64 text. *)
Lemma encoder_round_trip_comma :
  File.readable commaTypedFile = true /\ ~ roundTrip commaTypedFile.
Proof.
  split; [reflexivity|]. intros (part & H & D).
  vm_compute in H. injection H as <-. vm_compute in D. discriminate.
Qed.


(** ** Result Renderer: blocks of the sections *)

Module RenderFacts.
Import Page Controller.

Lemma join_app (xs ys : list string) : join (xs ++ ys) = join xs ++ join ys.
Proof.
  induction xs as [|x xs IH]; [reflexivity|].
  cbn [app]. rewrite !join_cons, IH, append_assoc. reflexivity.
Qed.









(** *** The texts in the entry fragments *)

Lemma includes_here (p b : string) : includes (p ++ b) p = true.
Proof. apply includes_true_occurrences, occurrences_here. Qed.

Lemma includes_skip (p a b : string) :
  includes b p = true -> includes (a ++ b) p = true.
Proof.
  rewrite !includes_true_occurrences. apply occurrences_skip.
Qed.






















Lemma set_resultsSection_twice (v w : string) (st : Page.t) :
  set_resultsSection v (set_resultsSection w st) = set_resultsSection v st.
Proof. reflexivity. Qed.

Lemma resultsSection_set (v : string) (st : Page.t) :
  resultsSection (set_resultsSection v st) = v.
Proof. reflexivity. Qed.

Lemma ebind_ok {A B} (m : Eff A) (k : A -> Eff B) (a : A) (st st' : Page.t) :
  m st = (Fulfilled a, st') -> ebind m k st = k a st'.
Proof. intros H. unfold ebind. now rewrite H. Qed.


Lemma ebind_ret (m : Eff unit) (st : Page.t) :
  ebind m (fun _ => ret tt) st = m st.
Proof. unfold ebind, ret. destruct (m st) as [[[]|e|] st']; reflexivity. Qed.

Section Browser.
Variable engine : Engine.t.

Lemma whenPresent_step {A} (o : option A) (gen : A -> result string)
    (ctor : A -> section) (k : Eff unit) (ss : list section) :
  (forall x, block (ctor x) = gen x) ->
  (forall st, k st = appendBlocks engine ss st) ->
  forall st,
    ebind (whenPresent o (fun x => appendResults engine (gen x)))
      (fun _ => k) st
    = appendBlocks engine (optional ctor o ++ ss) st.
Proof.
  intros Hb Hk st. destruct o as [x|]; cbn [optional app whenPresent appendBlocks].
  - rewrite Hb. unfold ebind at 1 2.
    destruct (appendResults engine (gen x) st) as [[u|e|] st']; auto.
  - unfold ebind, ret. apply Hk.
Qed.

Lemma whenPresent_last {A} (o : option A) (gen : A -> result string)
    (ctor : A -> section) :
  (forall x, block (ctor x) = gen x) ->
  forall st,
    whenPresent o (fun x => appendResults engine (gen x)) st
    = appendBlocks engine (optional ctor o) st.
Proof.
  intros Hb st. destruct o as [x|]; cbn [optional whenPresent appendBlocks];
    [|reflexivity].
  rewrite Hb. symmetry. apply ebind_ret.
Qed.

(** [renderResults] empties the results area and appends the blocks of the
    sections of the document. *)
Lemma renderResults_appendBlocks (data : ResultDocument.t) (st : Page.t) :
  renderResults engine data st
  = appendBlocks engine (sections data) (set_resultsSection "" st).
Proof.
  unfold renderResults, sections.
  erewrite ebind_ok by reflexivity.
  generalize (set_resultsSection "" st). clear st.
  apply whenPresent_step; [reflexivity|].
  apply whenPresent_step; [reflexivity|].
  apply whenPresent_step; [reflexivity|].
  apply whenPresent_step; [reflexivity|].
  apply whenPresent_step; [reflexivity|].
  apply whenPresent_last. reflexivity.
Qed.


(** When every generator returns, all blocks are appended. *)
Lemma appendBlocks_blocks (ss : list section) (blocks : list string)
    (st : Page.t) :
  Forall2 (fun s b => block s = Ok b) ss blocks ->
  appendBlocks engine ss st
  = (Fulfilled tt,
     set_resultsSection
       (writtenFrom (Engine.innerHTML engine) (resultsSection st) blocks) st).
Proof.
  intros F. revert st. induction F as [|s b ss blocks E _ IH]; intros st.
  - cbn. destruct st; reflexivity.
  - cbn [appendBlocks]. unfold ebind at 1, appendResults, ebind, sync, exec.
    rewrite E, IH, resultsSection_set, set_resultsSection_twice. reflexivity.
Qed.

End Browser.

(** A getter that returns what was assigned leaves the concatenation of
    the blocks. *)
Lemma writtenFrom_join (get : string -> string) (area : string)
    (blocks : list string) :
  (forall n, n < length blocks ->
             get (area ++ join (firstn n blocks))
             = area ++ join (firstn n blocks)) ->
  writtenFrom get area blocks = area ++ join blocks.
Proof.
  revert area. induction blocks as [|b blocks IH]; intros area H.
  - cbn. now rewrite append_nil_r.
  - cbn [writtenFrom fold_left].
    pose proof (H 0 (Nat.lt_0_succ _)) as H0. cbn in H0.
    rewrite append_nil_r in H0. rewrite H0.
    change (fold_left (fun a c => get a ++ c) blocks (area ++ b))
      with (writtenFrom get (area ++ b) blocks).
    rewrite IH.
    + rewrite join_cons, append_assoc. reflexivity.
    + intros n Hn. specialize (H (S n)). cbn [firstn length] in H.
      rewrite join_cons, <- append_assoc in H. apply H. lia.
Qed.

Lemma written_join (get : string -> string) (blocks : list string) :
  readsBack get blocks -> written get blocks = join blocks.
Proof. intros H. apply (writtenFrom_join get "" blocks). exact H. Qed.


(** The getter of the examples returns the blocks of the sample document
    as they were assigned. *)
Lemma sampleDocument_readsBack (blocks : list string) :
  Forall2 (fun s b => block s = Ok b) (sections sampleDocument) blocks ->
  readsBack (Engine.innerHTML sampleEngine) blocks.
Proof.
  intros G. unfold sections in G.
  cbn [sampleDocument ResultDocument.profile
    ResultDocument.chevening_trio ResultDocument.ranked_courses
    ResultDocument.personal_statement_bullets ResultDocument.alternatives
    ResultDocument.notes optional app] in G.
  repeat match goal with
         | H : Forall2 _ (_ :: _) _ |- _ =>
             let E := fresh "E" in
             inversion H as [|? ? ? ? E ?]; subst; clear H;
             vm_compute in E; apply Ok_inj in E; subst
         | H : Forall2 _ [] _ |- _ => inversion H; subst; clear H
         end.
  intros n Hn. cbn [length] in Hn.
  do 6 (destruct n as [|n]; [vm_compute; reflexivity|]). lia.
Qed.

End RenderFacts.




(** ** Submission *)

Module SubmitFacts.
Import Page Controller.

Lemma allowed_spec (type : string) :
  allowed type = true <-> In type allowedTypes.
Proof.
  unfold allowed. rewrite existsb_exists. split.
  - intros (t & Ht & E). apply String.eqb_eq in E. now subst.
  - intros H. exists type. split; [exact H | apply String.eqb_refl].
Qed.

Lemma showError_refused (message : string) (st : Page.t) :
  refused message st (showError message st).
Proof. repeat split. Qed.

(** The text of the error panel holds the message. *)
Lemma errorPanel_message (message : string) :
  includes (errorPanel message) message = true.
Proof.
  apply includes_true_occurrences. unfold errorPanel.
  apply occurrences_skip, occurrences_here.
Qed.

Lemma showError_showsMessage (message : string) (st : Page.t) :
  showsMessage message (showError message st).
Proof. split; [reflexivity | apply errorPanel_message]. Qed.

Lemma showError_errorView (message : string) (st : Page.t) :
  errorView message (showLoading false (showError message st)).
Proof. repeat split. Qed.

Section Service.
Variable engine : Engine.t.
Variable generateContent : GenerateContentParameters -> settled (option string).
Variable JSON_parse : string -> result ResultDocument.t.
Variable trim : string -> string.
Variable systemInstruction : string.

Lemma submit_no_file (i : FormInput) (st : Page.t) :
  cvFile i = None ->
  submit engine generateContent JSON_parse trim systemInstruction i st
  = (Fulfilled tt, showError "Please upload your CV file." st).
Proof. intros H. unfold Controller.submit. now rewrite H. Qed.

Lemma submit_bad_type (i : FormInput) (file : File.t) (st : Page.t) :
  cvFile i = Some file -> allowed (File.type file) = false ->
  submit engine generateContent JSON_parse trim systemInstruction i st
  = (Fulfilled tt,
     showError "Invalid file type. Please upload a PDF or DOCX file." st).
Proof. intros H Ha. unfold Controller.submit. now rewrite H, Ha. Qed.

Lemma submit_valid (i : FormInput) (file : File.t) (st : Page.t) :
  cvFile i = Some file -> allowed (File.type file) = true ->
  submit engine generateContent JSON_parse trim systemInstruction i st
  = tryCatchFinally
      (request engine generateContent JSON_parse trim systemInstruction i file)
      (fun error => showError (catchMessage engine error)) (showLoading false)
      (showLoading true st).
Proof. intros H Ha. unfold Controller.submit. now rewrite H, Ha. Qed.

(** A failure of the [try] block ends in the error view. *)
Lemma submit_failure (i : FormInput) (file : File.t) (st st1 : Page.t)
    (e : exn) :
  cvFile i = Some file -> allowed (File.type file) = true ->
  request engine generateContent JSON_parse trim systemInstruction i file
    (showLoading true st) = (Rejected e, st1) ->
  submit engine generateContent JSON_parse trim systemInstruction i st
  = (Fulfilled tt, showLoading false (showError (catchMessage engine e) st1))
  /\ errorView (catchMessage engine e)
       (snd (submit engine generateContent JSON_parse trim systemInstruction i st)).
Proof.
  intros H Ha Hr. rewrite (submit_valid i file st H Ha).
  unfold tryCatchFinally. rewrite Hr. split; [reflexivity|].
  apply showError_errorView.
Qed.

(** The failure points after the file is encoded: the service rejects, its
    response has no text, or the text does not parse. *)
Lemma request_service_rejects (i : FormInput) (file : File.t) (st : Page.t)
    (part : Encoder.InlineData) (e : exn) :
  Encoder.fileToGenerativePart file = Fulfilled part ->
  generateContent
    (mkRequest "gemini-2.5-flash" part (userPromptText i) systemInstruction
       "application/json") = Rejected e ->
  fst (request engine generateContent JSON_parse trim systemInstruction i file st)
  = Rejected e.
Proof.
  intros Hp Hg. unfold Controller.request, ebind, await, exec, sync.
  rewrite Hp. cbv beta iota zeta. now rewrite Hg.
Qed.

Lemma request_no_text (i : FormInput) (file : File.t) (st : Page.t)
    (part : Encoder.InlineData) :
  Encoder.fileToGenerativePart file = Fulfilled part ->
  generateContent
    (mkRequest "gemini-2.5-flash" part (userPromptText i) systemInstruction
       "application/json") = Fulfilled None ->
  fst (request engine generateContent JSON_parse trim systemInstruction i file st)
  = Rejected (TypeError "trim").
Proof.
  intros Hp Hg. unfold Controller.request, ebind, await, exec, sync.
  rewrite Hp. cbv beta iota zeta. now rewrite Hg.
Qed.

Lemma request_parse_fails (i : FormInput) (file : File.t) (st : Page.t)
    (part : Encoder.InlineData) (text : string) (e : exn) :
  Encoder.fileToGenerativePart file = Fulfilled part ->
  generateContent
    (mkRequest "gemini-2.5-flash" part (userPromptText i) systemInstruction
       "application/json") = Fulfilled (Some text) ->
  JSON_parse (trim text) = Throw e ->
  fst (request engine generateContent JSON_parse trim systemInstruction i file st)
  = Rejected e.
Proof.
  intros Hp Hg Hj. unfold Controller.request, ebind, await, exec, sync.
  rewrite Hp. cbv beta iota zeta. rewrite Hg. cbn [required].
  cbv beta iota zeta. now rewrite Hj.
Qed.

(** A file that cannot be read leaves the [try] block waiting. *)
Lemma request_unreadable (i : FormInput) (file : File.t) (st : Page.t) :
  File.readable file = false ->
  request engine generateContent JSON_parse trim systemInstruction i file st
  = (Pending, st).
Proof.
  intros H. unfold Controller.request, ebind, await.
  unfold Encoder.fileToGenerativePart, Encoder.base64EncodedDataPromise,
    Encoder.readAsDataURL. rewrite H. reflexivity.
Qed.

End Service.

End SubmitFacts.

(** C2. A submission without a file is refused with the "please upload"
    message, and one whose file has a MIME type outside the allow-list with
    the "invalid file type" message; in both cases the error panel is shown
    with the message in its text, no request reaches the model service and
    Loading is not entered. *)
Theorem submit_validation
    (engine : Engine.t)
    (generateContent : Page.GenerateContentParameters -> settled (option string))
    (JSON_parse : string -> result ResultDocument.t)
    (trim : string -> string) (systemInstruction : string)
    (i : Controller.FormInput) (st : Page.t) :
  (Controller.cvFile i = None ->
   refused "Please upload your CV file." st
     (snd (Controller.submit engine generateContent JSON_parse trim
             systemInstruction i st))
   /\ showsMessage "Please upload your CV file."
        (snd (Controller.submit engine generateContent JSON_parse trim
                systemInstruction i st)))
  /\ (forall file,
         Controller.cvFile i = Some file ->
         ~ In (File.type file) Controller.allowedTypes ->
         refused "Invalid file type. Please upload a PDF or DOCX file." st
           (snd (Controller.submit engine generateContent JSON_parse trim
                   systemInstruction i st))
         /\ showsMessage "Invalid file type. Please upload a PDF or DOCX file."
              (snd (Controller.submit engine generateContent JSON_parse trim
                      systemInstruction i st))).
Proof.
  split.
  - intros H. rewrite SubmitFacts.submit_no_file by exact H.
    split; [apply SubmitFacts.showError_refused
           | apply SubmitFacts.showError_showsMessage].
  - intros file H Hn.
    assert (Ha : Controller.allowed (File.type file) = false).
    { destruct (Controller.allowed (File.type file)) eqn:E; [|reflexivity].
      apply SubmitFacts.allowed_spec in E. contradiction. }
    rewrite (SubmitFacts.submit_bad_type engine generateContent JSON_parse trim
               systemInstruction i file st H Ha).
    split; [apply SubmitFacts.showError_refused
           | apply SubmitFacts.showError_showsMessage].
Qed.

Lemma submit_validation_witness :
  (refused "Please upload your CV file." pageWithResults
     (snd (Controller.submit sampleEngine serviceDown parseFails noTrim ""
             (formWith None) pageWithResults))
   /\ showsMessage "Please upload your CV file."
        (snd (Controller.submit sampleEngine serviceDown parseFails noTrim ""
                (formWith None) pageWithResults)))
  /\ (refused "Invalid file type. Please upload a PDF or DOCX file."
        pageWithResults
        (snd (Controller.submit sampleEngine serviceDown parseFails noTrim ""
                (formWith (Some wordFile)) pageWithResults))
      /\ showsMessage "Invalid file type. Please upload a PDF or DOCX file."
           (snd (Controller.submit sampleEngine serviceDown parseFails noTrim ""
                   (formWith (Some wordFile)) pageWithResults))).
Proof.
  split.
  - apply (proj1 (submit_validation sampleEngine serviceDown parseFails noTrim ""
                    (formWith None) pageWithResults)). reflexivity.
  - apply (proj2 (submit_validation sampleEngine serviceDown parseFails noTrim ""
                    (formWith (Some wordFile)) pageWithResults) wordFile);
      [reflexivity|].
    intros [H|[H|[]]]; discriminate.
Defined.

(** C3, at the failing input. An allow-listed file that the runtime cannot
    read: the listener enters Loading and stays there, whatever the service
    would answer; no error panel is shown and the submit control remains
    disabled. *)
Theorem submit_unreadable_file
    (engine : Engine.t)
    (generateContent : Page.GenerateContentParameters -> settled (option string))
    (JSON_parse : string -> result ResultDocument.t)
    (trim : string -> string) (systemInstruction : string) (st : Page.t) :
  Controller.submit engine generateContent JSON_parse trim systemInstruction
    (formWith (Some unreadablePdf)) st
  = (Pending, Page.showLoading true st)
  /\ heldInLoading (Page.showLoading true st)
  /\ forall message, ~ errorView message (Page.showLoading true st).
Proof.
  split; [|split].
  - rewrite (SubmitFacts.submit_valid _ _ _ _ _ _ unreadablePdf) by reflexivity.
    unfold Page.tryCatchFinally.
    rewrite SubmitFacts.request_unreadable by reflexivity. reflexivity.
  - repeat split.
  - intros message (H & _). discriminate.
Qed.

(** C4, at the failing inputs. Only the generator of the profile analysis
    answers absent properties with the empty fragment; the generators of the
    bullets, the trio and the ranked courses throw on them, and the
    generator of the alternatives returns a card that spells them out. *)
Theorem generators_on_absent_fields :
  renderProfileAnalysis emptyProfile = ""
  /\ renderBullets emptyBullets = Throw (TypeError "map")
  /\ renderTrio [emptyTrioEntry] = Throw (TypeError "toLowerCase")
  /\ renderRankedCourses [emptyCourse] = Throw (TypeError "toLowerCase")
  /\ renderRankedCourses [courseWithoutRationale] = Throw (TypeError "map")
  /\ includes (renderAlternatives [emptyAlternative]) "<h3>undefined</h3>" = true.
Proof. repeat split; vm_compute; reflexivity. Qed.

(** C5, at the failing input. The promise of the File Encoder for a file
    that cannot be read is neither fulfilled nor rejected. *)
Theorem encoder_unreadable_file :
  Encoder.readAsDataURL unreadablePdf = None
  /\ Encoder.onloadend None = Throw (TypeError "split")
  /\ Encoder.fileToGenerativePart unreadablePdf = Pending
  /\ forall e, Encoder.fileToGenerativePart unreadablePdf <> Rejected e.
Proof. repeat split. intros e. discriminate. Qed.

(** ** Results and error panel *)

Module PanelFacts.
Import Page Controller.

Lemma samePanel_refl (st : Page.t) : samePanel st st.
Proof. split; reflexivity. Qed.

Lemma samePanel_trans (a b c : Page.t) :
  samePanel a b -> samePanel b c -> samePanel a c.
Proof. intros [H1 H2] [H3 H4]. split; congruence. Qed.

Lemma samePanel_ebind {A B} (m : Eff A) (k : A -> Eff B) :
  (forall st, samePanel st (snd (m st))) ->
  (forall a st, samePanel st (snd (k a st))) ->
  forall st, samePanel st (snd (ebind m k st)).
Proof.
  intros Hm Hk st. unfold ebind. specialize (Hm st).
  destruct (m st) as [[a|e|] st']; cbn [snd] in *; try exact Hm.
  eapply samePanel_trans; [exact Hm | apply Hk].
Qed.

Lemma samePanel_appendResults (engine : Engine.t) (html : result string)
    (st : Page.t) :
  samePanel st (snd (appendResults engine html st)).
Proof. destruct html; split; reflexivity. Qed.

Lemma samePanel_whenPresent {A} (o : option A) (k : A -> Eff unit) :
  (forall a st, samePanel st (snd (k a st))) ->
  forall st, samePanel st (snd (whenPresent o k st)).
Proof. intros H st. destruct o; [apply H | apply samePanel_refl]. Qed.

Lemma samePanel_renderResults (engine : Engine.t) (data : ResultDocument.t)
    (st : Page.t) :
  samePanel st (snd (renderResults engine data st)).
Proof.
  unfold renderResults. revert st.
  repeat (apply samePanel_ebind;
          [ first [ apply samePanel_whenPresent; intros;
                    apply samePanel_appendResults
                  | intros; split; reflexivity ]
          | intros _ ]).
  apply samePanel_whenPresent. intros. apply samePanel_appendResults.
Qed.

Section Service.
Variable engine : Engine.t.
Variable generateContent : GenerateContentParameters -> settled (option string).
Variable JSON_parse : string -> result ResultDocument.t.
Variable trim : string -> string.
Variable systemInstruction : string.

Lemma samePanel_request (i : FormInput) (file : File.t) (st : Page.t) :
  samePanel st
    (snd (request engine generateContent JSON_parse trim systemInstruction i file st)).
Proof.
  unfold request. revert st.
  apply samePanel_ebind; [intros; apply samePanel_refl | intros filePart].
  cbv zeta.
  apply samePanel_ebind; [intros; split; reflexivity | intros _].
  apply samePanel_ebind; [intros; apply samePanel_refl | intros response_text].
  apply samePanel_ebind; [intros; apply samePanel_refl | intros text].
  apply samePanel_ebind; [intros; apply samePanel_refl | intros data].
  intros st. apply samePanel_renderResults.
Qed.

(** Whatever the page was and whatever the collaborators do, a submission
    leaves results and error panel exclusive. *)
Lemma exclusive_submit (i : FormInput) (st : Page.t) :
  exclusive
    (snd (submit engine generateContent JSON_parse trim systemInstruction i st)).
Proof.
  unfold submit. destruct (cvFile i) as [file|]; [|left; reflexivity].
  destruct (allowed (File.type file)); cbn [negb]; [|left; reflexivity].
  unfold ebind at 1. cbn [exec]. unfold tryCatchFinally.
  pose proof (samePanel_request i file (showLoading true st)) as [Hh _].
  destruct (request _ _ _ _ _ i file (showLoading true st)) as [[u|e|] st1];
    cbn [snd] in *.
  - right. left. exact Hh.
  - left. reflexivity.
  - right. left. exact Hh.
Qed.

Lemma exclusive_handle (ev : Event) (st : Page.t) :
  exclusive st ->
  exclusive (handle engine generateContent JSON_parse trim systemInstruction ev st).
Proof.
  intros H. destruct ev as [i|files| | | | |k]; cbn [handle].
  - apply exclusive_submit.
  - destruct files; exact H.
  - exact H.
  - exact H.
  - exact H.
  - unfold messageTick. destruct (messageInterval st); exact H.
  - unfold strayTick. destruct (nth_error (strayIntervals st) k); exact H.
Qed.

Lemma exclusive_run (evs : list Event) (st : Page.t) :
  exclusive st ->
  exclusive (run engine generateContent JSON_parse trim systemInstruction evs st).
Proof.
  revert st. induction evs as [|ev evs IH]; intros st H; [exact H|].
  cbn [run fold_left]. apply IH. apply exclusive_handle. exact H.
Qed.

End Service.

End PanelFacts.

(** C10. Showing an error empties the results area and fills and shows the
    error panel, whatever the page held before, results of an earlier
    submission included; [showLoading] keeps results and a filled error panel
    apart; after a submission, from any page, the two are not shown
    together; and no listener of the page brings them together. *)
Theorem error_discards_results
    (engine : Engine.t)
    (generateContent : Page.GenerateContentParameters -> settled (option string))
    (JSON_parse : string -> result ResultDocument.t)
    (trim : string -> string) (systemInstruction : string) :
  (forall message st,
      Page.resultsSection (Page.showError message st) = ""
      /\ Page.errorSection (Page.showError message st) = Page.errorPanel message
      /\ Page.errorSection_hidden (Page.showError message st) = false)
  /\ (forall show st, exclusive st -> exclusive (Page.showLoading show st))
  /\ (forall i st,
         exclusive
           (Controller.handle engine generateContent JSON_parse trim
              systemInstruction (Controller.Submit i) st))
  /\ (forall evs st,
         exclusive st ->
         exclusive
           (Controller.run engine generateContent JSON_parse trim systemInstruction
              evs st)).
Proof.
  split; [|split; [|split]].
  - intros message st. repeat split.
  - intros show st H. destruct show; [left; reflexivity | exact H].
  - intros i st. apply PanelFacts.exclusive_submit.
  - intros evs st. apply PanelFacts.exclusive_run.
Qed.

Lemma error_discards_results_witness :
  exclusive freshPage
  /\ exclusive (Controller.run sampleEngine serviceAnswers parseSample noTrim "" sampleRun
                  freshPage).
Proof.
  assert (H : exclusive freshPage) by (left; reflexivity).
  split; [exact H|].
  apply (proj2 (proj2 (proj2 (error_discards_results sampleEngine serviceAnswers
                                parseSample noTrim "")))
           sampleRun freshPage H).
Defined.

(** ** Deadline countdown *)

Module CountdownFacts.
Import Countdown.
Local Open Scope Z_scope.

Lemma tick_before (now : Z) (st : t) :
  countdownInterval st = true -> now < deadline ->
  tick now st = mk (remaining (deadline - now)) true.
Proof.
  intros Hi Hn. unfold tick, updateCountdown. rewrite Hi.
  destruct (deadline - now <=? 0) eqn:E; [lia | reflexivity].
Qed.

Lemma tick_after (now : Z) (st : t) :
  countdownInterval st = true -> deadline <= now ->
  tick now st = mk passed false.
Proof.
  intros Hi Hn. unfold tick, updateCountdown. rewrite Hi.
  destruct (deadline - now <=? 0) eqn:E; [reflexivity | lia].
Qed.

Lemma setDeadline_before (now : Z) (st : t) :
  now < deadline ->
  setDeadline now st = mk (remaining (deadline - now)) true.
Proof.
  intros Hn. unfold setDeadline, updateCountdown.
  destruct (deadline - now <=? 0) eqn:E; [lia | reflexivity].
Qed.

Lemma setDeadline_after (now : Z) (st : t) :
  deadline <= now -> setDeadline now st = mk passed false.
Proof.
  intros Hn. unfold setDeadline, updateCountdown.
  destruct (deadline - now <=? 0) eqn:E; [reflexivity | lia].
Qed.

Lemma tick_stopped (now : Z) (st : t) :
  countdownInterval st = false -> tick now st = st.
Proof. intros H. unfold tick. now rewrite H. Qed.

Lemma ticks_cons (now : Z) (nows : list Z) (st : t) :
  ticks (now :: nows) st = ticks nows (tick now st).
Proof. reflexivity. Qed.

Lemma ticks_stopped (nows : list Z) (st : t) :
  countdownInterval st = false -> ticks nows st = st.
Proof.
  revert st. induction nows as [|now nows IH]; intros st H; [reflexivity|].
  rewrite ticks_cons, tick_stopped by exact H. apply IH, H.
Qed.

Lemma last_nonempty (l : list Z) (z d d' : Z) :
  last (z :: l) d = last (z :: l) d'.
Proof.
  revert z. induction l as [|y l IH]; intros z; [reflexivity|].
  change (last (y :: l) d = last (y :: l) d'). apply IH.
Qed.

Lemma ticks_before (nows : list Z) (now0 : Z) (st : t) :
  st = mk (remaining (deadline - now0)) true ->
  Forall (fun now => now < deadline) nows ->
  ticks nows st = mk (remaining (deadline - last nows now0)) true.
Proof.
  revert now0 st. induction nows as [|now nows IH]; intros now0 st -> H;
    [reflexivity|].
  inversion H as [|? ? Hn Hr]; subst. rewrite ticks_cons.
  rewrite tick_before by (reflexivity || assumption).
  rewrite (IH now _ eq_refl Hr).
  destruct nows as [|z nows]; [reflexivity|].
  now rewrite (last_nonempty nows z now now0).
Qed.

Lemma ticks_after (nows : list Z) (st : t) :
  countdownInterval st = true \/ st = mk passed false ->
  Exists (fun now => deadline <= now) nows ->
  ticks nows st = mk passed false.
Proof.
  revert st. induction nows as [|now nows IH]; intros st Hst H;
    [inversion H|].
  destruct Hst as [Hi| ->]; [|apply ticks_stopped; reflexivity].
  rewrite ticks_cons. destruct (Z.le_gt_cases deadline now) as [Hn|Hn].
  - rewrite tick_after by assumption. apply ticks_stopped. reflexivity.
  - rewrite tick_before by assumption. apply IH; [left; reflexivity|].
    inversion H; subst; [lia | assumption].
Qed.

Lemma reaches_stopped (st st' : t) :
  reaches st st' -> countdownInterval st = false -> st' = st.
Proof.
  induction 1 as [|st st1 st2 Hs _ IH]; intros H; [reflexivity|].
  destruct Hs as [now st]. rewrite tick_stopped in * by exact H. auto.
Qed.

Lemma parts_spec (diff : Z) :
  0 < diff ->
  0 <= Terms.days diff
  /\ 0 <= Terms.hours diff < 24
  /\ 0 <= Terms.minutes diff < 60
  /\ 0 <= Terms.seconds diff < 60
  /\ ((Terms.days diff * 24 + Terms.hours diff) * 60 + Terms.minutes diff) * 60
     + Terms.seconds diff
     = diff / 1000.
Proof.
  intros H. unfold Terms.days, Terms.hours, Terms.minutes, Terms.seconds.
  rewrite !Z.rem_mod_nonneg by lia.
  change (1000 * 60 * 60 * 24) with 86400000.
  change (1000 * 60 * 60) with 3600000.
  change (1000 * 60) with 60000.
  Z.to_euclidean_division_equations. lia.
Qed.

(** Before the deadline the display is made of the parts of the time
    left. *)
Lemma remaining_parts (diff : Z) :
  0 < diff ->
  exists d h m s,
    remaining diff = Terms.partsDisplay d h m s /\ Terms.partsOf diff d h m s.
Proof.
  intros H.
  exists (Terms.days diff), (Terms.hours diff), (Terms.minutes diff),
    (Terms.seconds diff).
  split; [reflexivity | exact (parts_spec diff H)].
Qed.

Lemma last_before (nows : list Z) (now0 : Z) :
  Forall (fun now => now < deadline) (now0 :: nows) ->
  last nows now0 < deadline.
Proof.
  revert now0. induction nows as [|now nows IH]; intros now0 H.
  - now inversion H.
  - inversion H as [|? ? _ Hr]; subst.
    destruct nows as [|z nows]; [now inversion Hr|].
    change (last (z :: nows) now0 < deadline).
    rewrite (last_nonempty nows z now0 now). apply IH. exact Hr.
Qed.

End CountdownFacts.

(** C9. Started at clock reading [now0] and fired at the readings [nows]:
    while every reading is before the deadline the timer keeps running and
    the display follows the latest reading: it shows the days, hours below
    24, minutes below 60 and seconds below 60 that add up to the whole
    seconds left at it; as soon as one reading has reached the deadline the
    display is the terminal message and the timer is stopped; and from a
    state whose timer is stopped no firing changes anything again. *)
Theorem countdown_freezes (now0 : Z) (st0 : Countdown.t) (nows : list Z) :
  (Forall (fun now => (now < Countdown.deadline)%Z) (now0 :: nows) ->
   exists d h m s,
     Countdown.ticks nows (Countdown.setDeadline now0 st0)
     = Countdown.mk (Terms.partsDisplay d h m s) true
     /\ Terms.partsOf (Countdown.deadline - last nows now0)%Z d h m s)
  /\ (Exists (fun now => (Countdown.deadline <= now)%Z) (now0 :: nows) ->
      Countdown.ticks nows (Countdown.setDeadline now0 st0)
      = Countdown.mk Countdown.passed false)
  /\ (forall st st',
         Countdown.countdownInterval st = false -> reaches st st' -> st' = st).
Proof.
  split; [|split].
  - intros H.
    pose proof (CountdownFacts.last_before nows now0 H) as L.
    inversion H as [|? ? H0 Hr]; subst.
    rewrite (CountdownFacts.ticks_before nows now0 _
               (CountdownFacts.setDeadline_before now0 st0 H0) Hr).
    destruct (CountdownFacts.remaining_parts
                (Countdown.deadline - last nows now0)%Z)
      as (d & h & m & s & E & P); [lia|].
    exists d, h, m, s. rewrite E. split; [reflexivity | exact P].
  - intros H. inversion H as [? ? H0|? ? Hr]; subst.
    + rewrite (CountdownFacts.setDeadline_after now0 st0 H0).
      apply CountdownFacts.ticks_stopped. reflexivity.
    + apply CountdownFacts.ticks_after; [|exact Hr].
      unfold Countdown.setDeadline, Countdown.updateCountdown.
      destruct (_ <=? _)%Z; [right | left]; reflexivity.
  - intros st st' H R. exact (CountdownFacts.reaches_stopped st st' R H).
Qed.

(** Two firings before the deadline show two displays, a second apart; a
    firing at the deadline shows the terminal message, and a later firing
    with an earlier clock changes nothing. *)
Lemma countdown_freezes_witness :
  Countdown.ticks [1759838398000]%Z
    (Countdown.setDeadline 1759838397000%Z (Countdown.mk "" false))
  = Countdown.mk "0d 0h 0m 2s" true
  /\ Countdown.ticks [1759838398000; 1759838399000]%Z
       (Countdown.setDeadline 1759838397000%Z (Countdown.mk "" false))
     = Countdown.mk "0d 0h 0m 1s" true
  /\ Countdown.ticks [1759838399000; 1759838400000; 1759838401000; 1759838300000]%Z
       (Countdown.setDeadline 1759838397000%Z (Countdown.mk "" false))
     = Countdown.mk "The deadline has passed." false.
Proof.
  split; [|split].
  - destruct (proj1 (countdown_freezes 1759838397000
                       (Countdown.mk "" false) [1759838398000]%Z))
      as (d & h & m & s & E & P); [repeat constructor|].
    rewrite E. unfold Terms.partsOf in P. cbn [last] in P.
    change (Countdown.deadline - 1759838398000)%Z with 2000%Z in P.
    change (2000 / 1000)%Z with 2%Z in P.
    assert (d = 0 /\ h = 0 /\ m = 0 /\ s = 2)%Z as (-> & -> & -> & ->) by lia.
    reflexivity.
  - destruct (proj1 (countdown_freezes 1759838397000
                       (Countdown.mk "" false)
                       [1759838398000; 1759838399000]%Z))
      as (d & h & m & s & E & P); [repeat constructor|].
    rewrite E. unfold Terms.partsOf in P. cbn [last] in P.
    change (Countdown.deadline - 1759838399000)%Z with 1000%Z in P.
    change (1000 / 1000)%Z with 1%Z in P.
    assert (d = 0 /\ h = 0 /\ m = 0 /\ s = 1)%Z as (-> & -> & -> & ->) by lia.
    reflexivity.
  - apply (proj1 (proj2 (countdown_freezes 1759838397000
                           (Countdown.mk "" false)
                           [1759838399000; 1759838400000; 1759838401000;
                            1759838300000]%Z))).
    right. right. left. unfold Countdown.deadline. lia.
Defined.

(** ** Instances of the advisory rules *)

Lemma mba_advisory_rule_witness :
  (exists card,
      courseCard mbaCourse = Ok card /\ includes card mbaAdvisory = true)
  /\ (exists card,
      courseCard plainCourse = Ok card /\ includes card mbaAdvisory = false)
  /\ (exists card,
      trioCard mbaTrioEntry = Ok card /\ includes card mbaAdvisory = true)
  /\ (exists card,
      trioCard plainTrioEntry = Ok card /\ includes card mbaAdvisory = false).
Proof.
  split; [|split; [|split]]; eexists; (split; [reflexivity|]).
  - apply (proj1 (proj2 (proj1 mba_advisory_rule mbaCourse "Global MBA" _
                           eq_refl eq_refl))).
    reflexivity.
  - apply (proj2 (proj2 (proj1 mba_advisory_rule plainCourse
                           "MSc Public Policy" _ eq_refl eq_refl)));
      reflexivity.
  - apply (proj1 (proj2 (proj2 mba_advisory_rule mbaTrioEntry "Executive mBa" _
                           eq_refl eq_refl))).
    reflexivity.
  - apply (proj2 (proj2 (proj2 mba_advisory_rule plainTrioEntry
                           "MSc Public Policy" _ eq_refl eq_refl)));
      reflexivity.
Defined.

Lemma trio_advisory_rule_witness :
  (exists html,
      renderTrio sameTrio = Ok html /\ occurrences trioAdvisory html = 1)
  /\ (exists html,
      renderTrio mixedTrio = Ok html /\ occurrences trioAdvisory html = 0).
Proof.
  split; eexists; (split; [reflexivity|]).
  - apply (proj1 (proj2 (trio_advisory_rule sameTrio _ eq_refl
                           ltac:(repeat constructor)))).
  - apply (proj1 (proj2 (trio_advisory_rule mixedTrio _ eq_refl
                           ltac:(repeat constructor)))).
Defined.

(** ** Worked examples *)

Example base64_examples :
  Base64.encode ["M"%byte; "a"%byte; "n"%byte] = "TWFu"
  /\ Base64.encode ["M"%byte; "a"%byte] = "TWE="
  /\ Base64.encode ["M"%byte] = "TQ=="
  /\ Base64.decode "TWE=" = Some ["M"%byte; "a"%byte]
  /\ Base64.decode "TWE" = None.
Proof. repeat split. Qed.

Example encoder_examples :
  Encoder.fileToGenerativePart pdfFile
  = Fulfilled (Encoder.mkInlineData (Some "JVBERg==") "application/pdf")
  /\ Encoder.fileToGenerativePart commaTypedFile
     = Fulfilled (Encoder.mkInlineData (Some "b;base64") "text/plain;tags=a,b")
  /\ Encoder.fileToGenerativePart unreadablePdf = Pending.
Proof. repeat split. Qed.

Example isMBA_examples :
  isMBA "Global MBA" = true
  /\ isMBA "Executive mBa (part-time)" = true
  /\ isMBA "MSc Combat Medicine" = true
  /\ isMBA "MSc Public Policy" = false.
Proof. repeat split. Qed.

Example feeDisplay_examples :
  feeDisplay (Some "£30,000") = "💷 £30,000"
  /\ feeDisplay (Some "") = "💷 N/A"
  /\ feeDisplay None = "💷 N/A"
  /\ includes (feeDisplay (Some "VERIFY on university site")) "verify-chip" = true.
Proof. repeat split. Qed.

Example countdown_examples :
  Countdown.setDeadline 1759000000000%Z (Countdown.mk "" false)
  = Countdown.mk "9d 16h 53m 20s" true
  /\ Countdown.setDeadline 1759838400000%Z (Countdown.mk "" false)
     = Countdown.mk "The deadline has passed." false.
Proof. split; vm_compute; reflexivity. Qed.

(** A submission that succeeds shows results and no error; a following
    submission without a file shows the error and no results; a service
    that is down ends in the error view with its message. *)
Example submit_examples :
  let shown :=
    Controller.run sampleEngine serviceAnswers parseSample noTrim ""
      [Controller.Submit (formWith (Some pdfFile))] freshPage in
  let refused :=
    Controller.run sampleEngine serviceAnswers parseSample noTrim ""
      [Controller.Submit (formWith None)] shown in
  let down :=
    Controller.run sampleEngine serviceDown parseSample noTrim ""
      [Controller.Submit (formWith (Some pdfFile))] shown in
  Page.resultsSection shown <> ""
  /\ Page.errorSection_hidden shown = true
  /\ length (Page.requests shown) = 1
  /\ Page.resultsSection refused = ""
  /\ Page.errorSection_hidden refused = false
  /\ length (Page.requests refused) = 1
  /\ errorView "503 Service Unavailable" down.
Proof.
  cbv zeta. split; [vm_compute; discriminate|].
  repeat split; vm_compute; reflexivity.
Qed.

(** * Further properties *)

Import Terms.

(** ** File Encoder: outcomes *)

Module EncoderMore.
Import Encoder.

Lemma split_comma_nonempty (s : string) : split_comma s <> [].
Proof.
  induction s as [|c s IH]; cbn [split_comma]; [discriminate|].
  destruct (Ascii.eqb c ","); [discriminate|].
  destruct (split_comma s); discriminate.
Qed.

Lemma split_comma_second (s : string) :
  mem "," s = true -> exists p, nth_error (split_comma s) 1 = Some p.
Proof.
  induction s as [|c s IH]; cbn [mem split_comma]; [discriminate|].
  rewrite (Ascii.eqb_sym c ","). destruct (Ascii.eqb "," c).
  - intros _. pose proof (split_comma_nonempty s).
    destruct (split_comma s) as [|p ps]; [congruence|]. now exists p.
  - intros H. destruct (IH H) as [p Hp].
    destruct (split_comma s) as [|x xs]; [discriminate|]. now exists p.
Qed.

Lemma dataURL_has_comma (ty enc : string) :
  mem "," ("data:" ++ ty ++ ";base64," ++ enc) = true.
Proof.
  change ("data:" ++ ty ++ ";base64," ++ enc)
    with ("data:" ++ (ty ++ (";base64," ++ enc))).
  rewrite !EncoderFacts.mem_app.
  change (mem "," (";base64," ++ enc)) with true.
  now rewrite !orb_true_r.
Qed.

End EncoderMore.

(** X1. The promise of the File Encoder is never rejected: it is fulfilled
    exactly for the files the runtime can read, then with the [type] of the
    file as MIME type and with some text as data, and it stays pending for
    the others. *)
Theorem encoder_outcome (file : File.t) :
  match Encoder.fileToGenerativePart file with
  | Fulfilled part =>
      File.readable file = true
      /\ Encoder.mimeType part = File.type file
      /\ Encoder.data part <> None
  | Rejected _ => False
  | Pending => File.readable file = false
  end.
Proof.
  unfold Encoder.fileToGenerativePart, Encoder.base64EncodedDataPromise,
    Encoder.onloadend, Encoder.readAsDataURL.
  destruct (File.readable file); [|reflexivity].
  cbn [required bind].
  destruct (EncoderMore.split_comma_second _
              (EncoderMore.dataURL_has_comma
                 (if File.type file =? "" then "application/octet-stream"
                  else File.type file)
                 (Base64.encode (File.bytes file)))) as [p Hp].
  rewrite Hp. cbn [Encoder.mimeType Encoder.data]. repeat split. discriminate.
Qed.

(** ** Result Renderer: where it fails and what it changes *)

Module RenderMore.
Import Page Controller.

Lemma mapM_outcome {A B} (f : A -> result B) (ok : A -> bool)
    (P : exn -> Prop) (xs : list A) :
  (forall x, match f x with
             | Ok _ => ok x = true
             | Throw e => ok x = false /\ P e
             end) ->
  match mapM f xs with
  | Ok _ => forallb ok xs = true
  | Throw e => forallb ok xs = false /\ P e
  end.
Proof.
  intros Hf. induction xs as [|x xs IH]; [reflexivity|].
  cbn [mapM forallb]. specialize (Hf x).
  destruct (f x) as [y|e]; cbn [bind].
  - rewrite Hf. destruct (mapM f xs); cbn [bind andb]; exact IH.
  - destruct Hf as [-> He]. now split.
Qed.

Lemma trioCard_outcome (e : TrioEntry.t) :
  match trioCard e with
  | Ok _ => wf_trioEntry e = true
  | Throw x => wf_trioEntry e = false /\ x = TypeError "toLowerCase"
  end.
Proof.
  unfold trioCard, wf_trioEntry.
  destruct (TrioEntry.programme e); cbn; auto.
Qed.

Lemma courseCard_outcome (c : CourseEntry.t) :
  match courseCard c with
  | Ok _ => wf_course c = true
  | Throw x =>
      wf_course c = false
      /\ (x = TypeError "toLowerCase" \/ x = TypeError "map")
  end.
Proof.
  unfold courseCard, wf_course.
  destruct (CourseEntry.programme c); cbn [required bind present andb];
    [|auto].
  destruct (CourseEntry.chevening_rationale c); cbn [required bind present];
    auto.
Qed.

Lemma renderBullets_outcome (b : Bullets.t) :
  match renderBullets b with
  | Ok _ => wf_bullets b = true
  | Throw x => wf_bullets b = false /\ x = TypeError "map"
  end.
Proof.
  unfold renderBullets, wf_bullets.
  destruct (Bullets.leadership b); cbn [required bind present andb]; [|auto].
  destruct (Bullets.networking b); cbn [required bind present andb]; [|auto].
  destruct (Bullets.career_plan b); cbn [required bind present andb]; auto.
Qed.

Lemma renderTrio_outcome (trio : list TrioEntry.t) :
  match renderTrio trio with
  | Ok _ => forallb wf_trioEntry trio = true
  | Throw x =>
      forallb wf_trioEntry trio = false /\ x = TypeError "toLowerCase"
  end.
Proof.
  unfold renderTrio.
  pose proof (mapM_outcome trioCard wf_trioEntry
                (fun x => x = TypeError "toLowerCase") trio trioCard_outcome)
    as H.
  destruct (mapM trioCard trio); cbn [bind]; exact H.
Qed.

Lemma renderRankedCourses_outcome (courses : list CourseEntry.t) :
  match renderRankedCourses courses with
  | Ok _ => forallb wf_course courses = true
  | Throw x =>
      forallb wf_course courses = false
      /\ (x = TypeError "toLowerCase" \/ x = TypeError "map")
  end.
Proof.
  unfold renderRankedCourses.
  pose proof (mapM_outcome courseCard wf_course
                (fun x => x = TypeError "toLowerCase" \/ x = TypeError "map")
                courses courseCard_outcome) as H.
  destruct (mapM courseCard courses); cbn [bind]; exact H.
Qed.

Lemma block_outcome (s : section) :
  match block s with
  | Ok _ => okSection s = true
  | Throw x =>
      okSection s = false
      /\ (x = TypeError "toLowerCase" \/ x = TypeError "map")
  end.
Proof.
  destruct s as [p|trio|courses|bullets|alts|notes]; cbn [block okSection];
    try reflexivity.
  - pose proof (renderTrio_outcome trio) as H.
    destruct (renderTrio trio); [exact H|]. destruct H; auto.
  - apply renderRankedCourses_outcome.
  - pose proof (renderBullets_outcome bullets) as H.
    destruct (renderBullets bullets); [exact H|]. destruct H; auto.
Qed.

Lemma okSection_sections (data : ResultDocument.t) :
  forallb okSection (sections data) = renderable data.
Proof.
  unfold sections, renderable.
  destruct (ResultDocument.profile data), (ResultDocument.chevening_trio data),
    (ResultDocument.ranked_courses data),
    (ResultDocument.personal_statement_bullets data),
    (ResultDocument.alternatives data), (ResultDocument.notes data);
    cbn [optional app forallb okSection forOption andb];
    rewrite ?andb_true_r, ?andb_assoc; reflexivity.
Qed.

Lemma mapM_failure {A B} (f : A -> result B) (fails : A -> option string)
    (xs : list A) :
  (forall x, match fails x with
             | Some prop => f x = Throw (TypeError prop)
             | None => exists y, f x = Ok y
             end) ->
  match firstFailure fails xs with
  | Some prop => mapM f xs = Throw (TypeError prop)
  | None => exists ys, mapM f xs = Ok ys
  end.
Proof.
  intros Hf. induction xs as [|x xs IH]; [now exists []|].
  cbn [mapM firstFailure]. specialize (Hf x).
  destruct (fails x) as [prop|].
  - now rewrite Hf.
  - destruct Hf as [y ->]. cbn [bind].
    destruct (firstFailure fails xs) as [prop|].
    + now rewrite IH.
    + destruct IH as [ys ->]. now exists (y :: ys).
Qed.

Lemma trioCard_failure (e : TrioEntry.t) :
  match trioEntryFailure e with
  | Some prop => trioCard e = Throw (TypeError prop)
  | None => exists card, trioCard e = Ok card
  end.
Proof.
  unfold trioEntryFailure, trioCard.
  destruct (TrioEntry.programme e); cbn; [eexists|]; reflexivity.
Qed.

Lemma courseCard_failure (c : CourseEntry.t) :
  match courseFailure c with
  | Some prop => courseCard c = Throw (TypeError prop)
  | None => exists card, courseCard c = Ok card
  end.
Proof.
  unfold courseFailure, courseCard.
  destruct (CourseEntry.programme c); cbn [present required bind];
    [|reflexivity].
  destruct (CourseEntry.chevening_rationale c); cbn [present required bind];
    [eexists|]; reflexivity.
Qed.

Lemma block_failure (s : section) :
  match sectionFailure s with
  | Some prop => block s = Throw (TypeError prop)
  | None => exists b, block s = Ok b
  end.
Proof.
  destruct s as [p|trio|courses|bullets|alts|notes];
    cbn [block sectionFailure]; try (eexists; reflexivity).
  - unfold renderTrio.
    pose proof (mapM_failure trioCard trioEntryFailure trio trioCard_failure)
      as H.
    destruct (firstFailure trioEntryFailure trio) as [prop|].
    + now rewrite H.
    + destruct H as [cards ->]. eexists. reflexivity.
  - unfold renderRankedCourses.
    pose proof (mapM_failure courseCard courseFailure courses
                  courseCard_failure) as H.
    destruct (firstFailure courseFailure courses) as [prop|].
    + now rewrite H.
    + destruct H as [cards ->]. eexists. reflexivity.
  - unfold bulletsFailure.
    pose proof (renderBullets_outcome bullets) as H.
    destruct (renderBullets bullets) as [b|e].
    + rewrite H. now exists b.
    + destruct H as [-> ->]. reflexivity.
Qed.

Lemma sectionFailure_okSection (s : section) :
  sectionFailure s = None <-> okSection s = true.
Proof.
  pose proof (block_failure s) as F. pose proof (block_outcome s) as O.
  destruct (sectionFailure s) as [prop|].
  - rewrite F in O. destruct O as [O _]. rewrite O.
    split; discriminate.
  - destruct F as [b F]. rewrite F in O. rewrite O. tauto.
Qed.

Lemma firstFailure_forallb {A} (f : A -> option string) (ok : A -> bool)
    (xs : list A) :
  (forall x, f x = None <-> ok x = true) ->
  firstFailure f xs = None <-> forallb ok xs = true.
Proof.
  intros H. induction xs as [|x xs IH]; [tauto|].
  cbn [firstFailure forallb]. rewrite andb_true_iff, <- IH, <- H.
  destruct (f x); split; try tauto; try discriminate.
Qed.

Section Browser.
Variable engine : Engine.t.

(** [appendBlocks] changes the results area only. *)
Lemma appendBlocks_only_results (ss : list section) (st : Page.t) :
  snd (appendBlocks engine ss st)
  = set_resultsSection (resultsSection (snd (appendBlocks engine ss st))) st.
Proof.
  revert st. induction ss as [|s r IH]; intros st.
  - destruct st; reflexivity.
  - cbn [appendBlocks]. unfold ebind, appendResults at 1, ebind, sync, exec.
    destruct (block s) as [b|e].
    + rewrite IH at 1. reflexivity.
    + destruct st; reflexivity.
Qed.

Lemma appendBlocks_outcome (ss : list section) (st : Page.t) :
  match fst (appendBlocks engine ss st) with
  | Fulfilled _ => forallb okSection ss = true
  | Rejected x =>
      forallb okSection ss = false
      /\ (x = TypeError "toLowerCase" \/ x = TypeError "map")
  | Pending => False
  end.
Proof.
  revert st. induction ss as [|s r IH]; intros st; [reflexivity|].
  cbn [appendBlocks forallb]. unfold ebind, appendResults at 1, ebind, sync, exec.
  pose proof (block_outcome s) as H. destruct (block s) as [b|e].
  - rewrite H. cbn [andb]. apply IH.
  - destruct H as [-> H]. cbn [fst andb]. auto.
Qed.

Lemma appendBlocks_failure (ss : list section) (st : Page.t) :
  fst (appendBlocks engine ss st)
  = outcomeOf (firstFailure sectionFailure ss).
Proof.
  revert st. induction ss as [|s r IH]; intros st; [reflexivity|].
  cbn [appendBlocks firstFailure].
  unfold ebind, appendResults at 1, ebind, sync, exec.
  pose proof (block_failure s) as H.
  destruct (sectionFailure s) as [prop|].
  - rewrite H. reflexivity.
  - destruct H as [b ->]. apply IH.
Qed.

Lemma renderResults_outcome_fst (data : ResultDocument.t) (st : Page.t) :
  match fst (renderResults engine data st) with
  | Fulfilled _ => renderable data = true
  | Rejected x =>
      renderable data = false
      /\ (x = TypeError "toLowerCase" \/ x = TypeError "map")
  | Pending => False
  end.
Proof.
  rewrite RenderFacts.renderResults_appendBlocks, <- okSection_sections.
  apply appendBlocks_outcome.
Qed.

Lemma renderResults_failure (data : ResultDocument.t) (st : Page.t) :
  fst (renderResults engine data st) = outcomeOf (failure data).
Proof.
  rewrite RenderFacts.renderResults_appendBlocks. apply appendBlocks_failure.
Qed.

Lemma renderResults_only_results (data : ResultDocument.t) (st : Page.t) :
  snd (renderResults engine data st)
  = set_resultsSection (resultsSection (snd (renderResults engine data st))) st.
Proof.
  rewrite RenderFacts.renderResults_appendBlocks.
  rewrite appendBlocks_only_results at 1. reflexivity.
Qed.

Lemma renderResults_forgets (data : ResultDocument.t) (v : string)
    (st : Page.t) :
  renderResults engine data (set_resultsSection v st)
  = renderResults engine data st.
Proof. rewrite !RenderFacts.renderResults_appendBlocks. reflexivity. Qed.

End Browser.

Lemma failure_renderable (data : ResultDocument.t) :
  failure data = None <-> renderable data = true.
Proof.
  unfold failure. rewrite <- okSection_sections.
  apply firstFailure_forallb. exact sectionFailure_okSection.
Qed.

End RenderMore.

(** X2. The generators fail exactly on the values that lack a property
    they read without a check, and then with a [TypeError]: the bullets on
    an absent list, the trio on an entry without programme, the ranked
    courses on a course without programme or without rationale. *)
Theorem generator_outcomes :
  (forall bullets,
      match renderBullets bullets with
      | Ok _ => wf_bullets bullets = true
      | Throw x => wf_bullets bullets = false /\ x = TypeError "map"
      end)
  /\ (forall trio,
         match renderTrio trio with
         | Ok _ => forallb wf_trioEntry trio = true
         | Throw x =>
             forallb wf_trioEntry trio = false
             /\ x = TypeError "toLowerCase"
         end)
  /\ (forall courses,
         match renderRankedCourses courses with
         | Ok _ => forallb wf_course courses = true
         | Throw x =>
             forallb wf_course courses = false
             /\ (x = TypeError "toLowerCase" \/ x = TypeError "map")
         end).
Proof.
  split; [|split].
  - apply RenderMore.renderBullets_outcome.
  - apply RenderMore.renderTrio_outcome.
  - apply RenderMore.renderRankedCourses_outcome.
Qed.

(** X3. [renderResults] returns exactly for the renderable documents; for
    the others it throws the [TypeError] of the first read that fails, in
    the order of the sections (trio, ranked courses, bullets), of the
    entries of the section, and of the reads of the entry ([toLowerCase] of
    the programme before [map] of the rationale). In either case it changes
    nothing of the page but the results area. *)
Theorem renderResults_outcome (engine : Engine.t) (data : ResultDocument.t)
    (st : Page.t) :
  fst (Controller.renderResults engine data st) = outcomeOf (failure data)
  /\ (failure data = None <-> renderable data = true)
  /\ snd (Controller.renderResults engine data st)
     = Page.set_resultsSection
         (Page.resultsSection (snd (Controller.renderResults engine data st)))
         st.
Proof.
  split; [|split].
  - apply RenderMore.renderResults_failure.
  - apply RenderMore.failure_renderable.
  - apply RenderMore.renderResults_only_results.
Qed.

(** X4. What [renderResults] leaves in the results area does not depend on
    what was there: rendering a document after another one leaves the page
    that rendering it alone does. *)
Theorem renderResults_replaces (engine : Engine.t)
    (data1 data2 : ResultDocument.t) (st : Page.t) :
  snd (Controller.renderResults engine data2
         (snd (Controller.renderResults engine data1 st)))
  = snd (Controller.renderResults engine data2 st).
Proof.
  rewrite (RenderMore.renderResults_only_results engine data1 st).
  rewrite RenderMore.renderResults_forgets. reflexivity.
Qed.

(** ** Submission: the paths through the listener *)

Module SubmitMore.
Import Page Controller.

Section Service.
Variable engine : Engine.t.
Variable generateContent : GenerateContentParameters -> settled (option string).
Variable JSON_parse : string -> result ResultDocument.t.
Variable trim : string -> string.
Variable systemInstruction : string.

(** The listener on a readable file of an allowed type, by the answer of
    the collaborators. *)
Lemma submit_cases (i : FormInput) (file : File.t) (st : Page.t) :
  cvFile i = Some file -> allowed (File.type file) = true ->
  File.readable file = true ->
  submit engine generateContent JSON_parse trim systemInstruction i st
  = match generateContent (requestOf systemInstruction i file) with
    | Pending => (Pending, sent systemInstruction i file st)
    | Rejected e =>
        (Fulfilled tt,
         showLoading false (showError (catchMessage engine e) (sent systemInstruction i file st)))
    | Fulfilled None =>
        (Fulfilled tt,
         showLoading false
           (showError (catchMessage engine (TypeError "trim")) (sent systemInstruction i file st)))
    | Fulfilled (Some text) =>
        match JSON_parse (trim text) with
        | Throw e =>
            (Fulfilled tt,
             showLoading false (showError (catchMessage engine e) (sent systemInstruction i file st)))
        | Ok data =>
            match renderResults engine data (sent systemInstruction i file st) with
            | (Fulfilled _, st') => (Fulfilled tt, showLoading false st')
            | (Rejected e, st') =>
                (Fulfilled tt,
                 showLoading false (showError (catchMessage engine e) st'))
            | (Pending, st') => (Pending, st')
            end
        end
    end.
Proof.
  intros H Ha Hr.
  rewrite (SubmitFacts.submit_valid _ _ _ _ _ i file st H Ha).
  unfold tryCatchFinally, request, ebind at 1, await at 1.
  rewrite (EncoderFacts.fileToGenerativePart_clean file Hr
             (EncoderFacts.allowed_types_clean _ Ha)).
  cbv zeta. fold (requestOf systemInstruction i file).
  unfold ebind at 1, exec at 1. fold (sent systemInstruction i file st).
  unfold ebind at 1, await at 1.
  destruct (generateContent (requestOf systemInstruction i file))
    as [[text|]|e|]; try reflexivity.
  unfold ebind at 1, sync at 1. cbn [required].
  unfold ebind at 1, sync at 1.
  destruct (JSON_parse (trim text)) as [data|e]; [|reflexivity].
  destruct (renderResults engine data (sent systemInstruction i file st)) as [[u|e|] st'];
    reflexivity.
Qed.

Lemma requests_showLoading (b : bool) (st : Page.t) :
  requests (showLoading b st) = requests st.
Proof. destruct b; reflexivity. Qed.

Lemma requests_renderResults (data : ResultDocument.t) (st : Page.t) :
  requests (snd (renderResults engine data st)) = requests st.
Proof. now rewrite RenderMore.renderResults_only_results. Qed.

Lemma blocks_total (ss : list section) :
  forallb okSection ss = true ->
  exists blocks, Forall2 (fun s b => block s = Ok b) ss blocks.
Proof.
  induction ss as [|s r IH]; intros H; [exists []; constructor|].
  cbn [forallb] in H. apply andb_true_iff in H. destruct H as [Hs Hr].
  pose proof (RenderMore.block_outcome s) as Hb.
  destruct (block s) as [b|e] eqn:E; [|destruct Hb; congruence].
  destruct (IH Hr) as [blocks F]. exists (b :: blocks).
  constructor; assumption.
Qed.

Lemma renderResults_renderable (data : ResultDocument.t) (st : Page.t) :
  renderable data = true ->
  exists blocks,
    Forall2 (fun s b => block s = Ok b) (sections data) blocks
    /\ renderResults engine data st
       = (Fulfilled tt,
          set_resultsSection (written (Engine.innerHTML engine) blocks) st).
Proof.
  intros H. rewrite <- RenderMore.okSection_sections in H.
  destruct (blocks_total (sections data) H) as [blocks F].
  exists blocks. split; [exact F|].
  rewrite RenderFacts.renderResults_appendBlocks.
  rewrite (RenderFacts.appendBlocks_blocks engine _ _ _ F). reflexivity.
Qed.

(** A submission leaves running the timers that ran before it. *)
Lemma timers_sent_cleared (i : FormInput) (file : File.t) (st : Page.t) :
  timers (showLoading false (sent systemInstruction i file st)) = timers st.
Proof. unfold timers. cbn. now rewrite app_nil_r. Qed.

Lemma timers_set_resultsSection (v : string) (st : Page.t) :
  timers (showLoading false (set_resultsSection v st))
  = timers (showLoading false st).
Proof. reflexivity. Qed.

Lemma timers_showError (m : string) (st : Page.t) :
  timers (showLoading false (showError m st)) = timers (showLoading false st).
Proof. reflexivity. Qed.

Lemma showError_errorShown (message : string) (st : Page.t) :
  errorShown message (showLoading false (showError message st)).
Proof.
  split; [apply SubmitFacts.showError_errorView|].
  split; [reflexivity|]. apply SubmitFacts.errorPanel_message.
Qed.

End Service.

End SubmitMore.

(** X5. A submission of a readable file of an allowed type sends exactly
    one request to the model service, whatever the service answers: model
    [gemini-2.5-flash], the base64 text and the type of the file, the prompt
    made of the form, the fixed instruction, JSON as response type. *)
Theorem submit_sends_request
    (engine : Engine.t)
    (generateContent : Page.GenerateContentParameters -> settled (option string))
    (JSON_parse : string -> result ResultDocument.t)
    (trim : string -> string) (systemInstruction : string)
    (i : Controller.FormInput) (file : File.t) (st : Page.t) :
  Controller.cvFile i = Some file ->
  Controller.allowed (File.type file) = true ->
  File.readable file = true ->
  Page.requests
    (snd (Controller.submit engine generateContent JSON_parse trim
            systemInstruction i st))
  = requestOf systemInstruction i file :: Page.requests st.
Proof.
  intros H Ha Hr.
  rewrite (SubmitMore.submit_cases _ _ _ _ _ i file st H Ha Hr).
  destruct (generateContent (requestOf systemInstruction i file))
    as [[text|]|e|]; try reflexivity.
  destruct (JSON_parse (trim text)) as [data|e]; [|reflexivity].
  pose proof (SubmitMore.requests_renderResults engine data
                (sent systemInstruction i file st)) as R.
  destruct (Controller.renderResults engine data (sent systemInstruction i file st))
    as [[u|e|] st']; cbn [snd] in *;
    rewrite ?SubmitMore.requests_showLoading; exact R.
Qed.

Lemma submit_sends_request_witness :
  Page.requests
    (snd (Controller.submit sampleEngine serviceDown parseFails noTrim "rules"
            (formWith (Some pdfFile)) freshPage))
  = [requestOf "rules" (formWith (Some pdfFile)) pdfFile].
Proof.
  apply (submit_sends_request sampleEngine serviceDown parseFails noTrim "rules"
           (formWith (Some pdfFile)) pdfFile freshPage); reflexivity.
Defined.

(** X6. When the service answers with text that parses to a renderable
    document, the submission ends in the results view: the listener
    returns, the results area was assigned the blocks of the sections of
    the document, appended one after the other through the getter of
    [innerHTML] (their plain concatenation when the getter returns at every
    append what was assigned), the error panel is hidden, the submit
    control is enabled again, the loading section is hidden, the input
    section is shown, and the timer the submission set is cleared: the
    timers that run afterwards are those that ran before. *)
Theorem submit_success
    (engine : Engine.t)
    (generateContent : Page.GenerateContentParameters -> settled (option string))
    (JSON_parse : string -> result ResultDocument.t)
    (trim : string -> string) (systemInstruction : string)
    (i : Controller.FormInput) (file : File.t) (st : Page.t)
    (text : string) (data : ResultDocument.t) :
  Controller.cvFile i = Some file ->
  Controller.allowed (File.type file) = true ->
  File.readable file = true ->
  generateContent (requestOf systemInstruction i file) = Fulfilled (Some text) ->
  JSON_parse (trim text) = Ok data ->
  renderable data = true ->
  exists blocks,
    Forall2 (fun s b => block s = Ok b) (sections data) blocks
    /\ fst (Controller.submit engine generateContent JSON_parse trim
              systemInstruction i st) = Fulfilled tt
    /\ resultsView (written (Engine.innerHTML engine) blocks)
         (snd (Controller.submit engine generateContent JSON_parse trim
                 systemInstruction i st))
    /\ (readsBack (Engine.innerHTML engine) blocks ->
        written (Engine.innerHTML engine) blocks = join blocks)
    /\ timers
         (snd (Controller.submit engine generateContent JSON_parse trim
                 systemInstruction i st))
       = timers st.
Proof.
  intros H Ha Hr Hg Hj Hd.
  rewrite (SubmitMore.submit_cases _ _ _ _ _ i file st H Ha Hr), Hg, Hj.
  destruct (SubmitMore.renderResults_renderable engine data
              (sent systemInstruction i file st) Hd) as (blocks & F & R).
  exists blocks. split; [exact F|]. rewrite R.
  split; [reflexivity|]. split; [repeat split|].
  split; [apply RenderFacts.written_join|].
  cbn [snd]. rewrite SubmitMore.timers_set_resultsSection.
  apply SubmitMore.timers_sent_cleared.
Qed.

Lemma submit_success_witness :
  exists blocks,
    Forall2 (fun s b => block s = Ok b) (sections sampleDocument) blocks
    /\ fst (Controller.submit sampleEngine serviceAnswers parseSample noTrim ""
              (formWith (Some pdfFile)) pageWithResults) = Fulfilled tt
    /\ resultsView (join blocks)
         (snd (Controller.submit sampleEngine serviceAnswers parseSample noTrim ""
                 (formWith (Some pdfFile)) pageWithResults))
    /\ timers
         (snd (Controller.submit sampleEngine serviceAnswers parseSample noTrim ""
                 (formWith (Some pdfFile)) pageWithResults))
       = [].
Proof.
  destruct (submit_success sampleEngine serviceAnswers parseSample noTrim ""
              (formWith (Some pdfFile)) pdfFile pageWithResults "{}"
              sampleDocument eq_refl eq_refl eq_refl eq_refl eq_refl eq_refl)
    as (blocks & F & R & V & J & T).
  exists blocks. split; [exact F|]. split; [exact R|].
  rewrite <- (J (RenderFacts.sampleDocument_readsBack blocks F)).
  split; [exact V | exact T].
Defined.



(** X8. When the service answers with text that parses to a document that
    is not renderable, the submission ends in the error view, the panel
    shown with the message of the engine for the [TypeError] of the first
    read that fails in its text, and nothing of the blocks rendered before
    the failure is left in the results area. *)
Theorem submit_render_failure
    (engine : Engine.t)
    (generateContent : Page.GenerateContentParameters -> settled (option string))
    (JSON_parse : string -> result ResultDocument.t)
    (trim : string -> string) (systemInstruction : string)
    (i : Controller.FormInput) (file : File.t) (st : Page.t)
    (text : string) (data : ResultDocument.t) (prop : string) :
  Controller.cvFile i = Some file ->
  Controller.allowed (File.type file) = true ->
  File.readable file = true ->
  generateContent (requestOf systemInstruction i file) = Fulfilled (Some text) ->
  JSON_parse (trim text) = Ok data ->
  failure data = Some prop ->
  errorShown (Engine.typeErrorMessage engine prop)
    (snd (Controller.submit engine generateContent JSON_parse trim
            systemInstruction i st))
  /\ Page.resultsSection
       (snd (Controller.submit engine generateContent JSON_parse trim
               systemInstruction i st)) = "".
Proof.
  intros H Ha Hr Hg Hj Hd.
  rewrite (SubmitMore.submit_cases _ _ _ _ _ i file st H Ha Hr), Hg, Hj.
  pose proof (RenderMore.renderResults_failure engine data
                (sent systemInstruction i file st)) as O.
  rewrite Hd in O. cbn [outcomeOf] in O.
  destruct (Controller.renderResults engine data (sent systemInstruction i file st))
    as [[u|e|] st']; cbn [fst] in O; try discriminate.
  injection O as ->. cbn [snd].
  split; [apply SubmitMore.showError_errorShown | reflexivity].
Qed.

Lemma submit_render_failure_witness :
  errorShown "Cannot read properties of undefined (reading 'map')"
    (snd (Controller.submit sampleEngine serviceAnswers parseBroken noTrim ""
            (formWith (Some pdfFile)) pageWithResults))
  /\ Page.resultsSection
       (snd (Controller.submit sampleEngine serviceAnswers parseBroken noTrim ""
               (formWith (Some pdfFile)) pageWithResults)) = "".
Proof.
  apply (submit_render_failure sampleEngine serviceAnswers parseBroken noTrim ""
           (formWith (Some pdfFile)) pdfFile pageWithResults "{}"
           brokenDocument "map"); reflexivity.
Defined.

(** X9. For a readable file of an allowed type, every submission that the
    service answers, with whatever outcome, leaves Loading: the listener
    returns, the submit control is enabled, the loading section is hidden,
    the input section is shown and the timer the submission set is cleared.
    The timers that run afterwards are those that ran before the
    submission: none, when it started from a page without a running
    timer. *)
Theorem submit_leaves_loading
    (engine : Engine.t)
    (generateContent : Page.GenerateContentParameters -> settled (option string))
    (JSON_parse : string -> result ResultDocument.t)
    (trim : string -> string) (systemInstruction : string)
    (i : Controller.FormInput) (file : File.t) (st : Page.t) :
  Controller.cvFile i = Some file ->
  Controller.allowed (File.type file) = true ->
  File.readable file = true ->
  generateContent (requestOf systemInstruction i file) <> Pending ->
  fst (Controller.submit engine generateContent JSON_parse trim systemInstruction
         i st) = Fulfilled tt
  /\ leftLoading
       (snd (Controller.submit engine generateContent JSON_parse trim
               systemInstruction i st))
  /\ timers
       (snd (Controller.submit engine generateContent JSON_parse trim
               systemInstruction i st))
     = timers st.
Proof.
  intros H Ha Hr Hg.
  rewrite (SubmitMore.submit_cases _ _ _ _ _ i file st H Ha Hr).
  pose proof (SubmitMore.timers_sent_cleared systemInstruction i file st) as T.
  destruct (generateContent (requestOf systemInstruction i file))
    as [[text|]|e|]; [| | |congruence];
    try (split; [reflexivity|]; split; [repeat split | exact T]).
  destruct (JSON_parse (trim text)) as [data|e];
    try (split; [reflexivity|]; split; [repeat split | exact T]).
  pose proof (RenderMore.renderResults_outcome_fst engine data
                (sent systemInstruction i file st)) as O.
  pose proof (RenderMore.renderResults_only_results engine data
                (sent systemInstruction i file st)) as R.
  destruct (Controller.renderResults engine data
              (sent systemInstruction i file st)) as [[u|e|] st'];
    cbn [fst snd] in *; try contradiction; rewrite R;
    (split; [reflexivity|]; split; [repeat split | exact T]).
Qed.

Lemma submit_leaves_loading_witness :
  fst (Controller.submit sampleEngine serviceAnswers parseBroken noTrim ""
         (formWith (Some pdfFile)) freshPage) = Fulfilled tt
  /\ leftLoading
       (snd (Controller.submit sampleEngine serviceAnswers parseBroken noTrim ""
               (formWith (Some pdfFile)) freshPage))
  /\ timers
       (snd (Controller.submit sampleEngine serviceAnswers parseBroken noTrim ""
               (formWith (Some pdfFile)) freshPage))
     = [].
Proof.
  apply (submit_leaves_loading sampleEngine serviceAnswers parseBroken noTrim ""
           (formWith (Some pdfFile)) pdfFile freshPage);
    try reflexivity.
  discriminate.
Defined.

(** X10. A service that never answers holds the page in Loading: the
    request is out, the listener never returns, the submit control stays
    disabled and no error is shown; the listener sets no time limit. *)
Theorem submit_service_silent
    (engine : Engine.t)
    (generateContent : Page.GenerateContentParameters -> settled (option string))
    (JSON_parse : string -> result ResultDocument.t)
    (trim : string -> string) (systemInstruction : string)
    (i : Controller.FormInput) (file : File.t) (st : Page.t) :
  Controller.cvFile i = Some file ->
  Controller.allowed (File.type file) = true ->
  File.readable file = true ->
  generateContent (requestOf systemInstruction i file) = Pending ->
  Controller.submit engine generateContent JSON_parse trim systemInstruction i st
  = (Pending, sent systemInstruction i file st)
  /\ heldInLoading (sent systemInstruction i file st)
  /\ Page.requests (sent systemInstruction i file st)
     = requestOf systemInstruction i file :: Page.requests st.
Proof.
  intros H Ha Hr Hg.
  rewrite (SubmitMore.submit_cases _ _ _ _ _ i file st H Ha Hr), Hg.
  repeat split.
Qed.

Lemma submit_service_silent_witness :
  Controller.submit sampleEngine serviceSilent parseFails noTrim ""
    (formWith (Some pdfFile)) freshPage
  = (Pending, sent "" (formWith (Some pdfFile)) pdfFile freshPage)
  /\ heldInLoading (sent "" (formWith (Some pdfFile)) pdfFile freshPage)
  /\ Page.requests (sent "" (formWith (Some pdfFile)) pdfFile freshPage)
     = requestOf "" (formWith (Some pdfFile)) pdfFile
       :: Page.requests freshPage.
Proof.
  apply (submit_service_silent sampleEngine serviceSilent parseFails noTrim ""
           (formWith (Some pdfFile)) pdfFile freshPage); reflexivity.
Defined.

(** ** Loading messages and the other listeners *)

Module PageMore.
Import Page Controller.

Lemma rotate_S (n : nat) (st : Page.t) :
  rotate (S n) st = messageTick (rotate n st).
Proof. reflexivity. Qed.

Lemma rotate_running (n : nat) (st : Page.t) :
  messageInterval (rotate n (showLoading true st)) = Some (n mod 5)
  /\ nth_error loadingMessages (n mod 5)
     = Some (loadingMessage (rotate n (showLoading true st))).
Proof.
  induction n as [|n [IHi IHm]]; [split; reflexivity|].
  rewrite rotate_S. unfold messageTick. rewrite IHi.
  change (length loadingMessages) with 5.
  assert (E : (n mod 5 + 1) mod 5 = S n mod 5).
  { rewrite Nat.Div0.add_mod_idemp_l. f_equal. lia. }
  cbn [messageInterval loadingMessage]. rewrite E. split; [reflexivity|].
  assert (L : S n mod 5 < 5) by (apply Nat.mod_upper_bound; discriminate).
  destruct (S n mod 5) as [|[|[|[|[|k]]]]]; try reflexivity; lia.
Qed.

Lemma rotate_stopped (n : nat) (st : Page.t) :
  messageInterval st = None -> rotate n st = st.
Proof.
  intros H. induction n as [|n IH]; [reflexivity|].
  rewrite rotate_S, IH. unfold messageTick. now rewrite H.
Qed.

Lemma rotate_strayIntervals (n : nat) (st : Page.t) :
  strayIntervals (rotate n st) = strayIntervals st.
Proof.
  induction n as [|n IH]; [reflexivity|].
  rewrite rotate_S. unfold messageTick.
  destruct (messageInterval (rotate n st)); exact IH.
Qed.

(** Without a running timer no firing changes the page. *)
Lemma fireAll_stopped (ks : list (option nat)) (st : Page.t) :
  timers st = [] -> fireAll ks st = st.
Proof.
  intros H. unfold timers in H. apply app_eq_nil in H. destruct H as [Hs Hr].
  induction ks as [|k ks IH]; [reflexivity|].
  cbn [fireAll fold_left]. fold (fireAll ks (fire k st)).
  assert (E : fire k st = st).
  { destruct k as [k|]; cbn [fire].
    - unfold strayTick. rewrite Hs. now destruct k.
    - unfold messageTick, running in *.
      destruct (messageInterval st); [discriminate | reflexivity]. }
  rewrite E. exact IH.
Qed.

Lemma sameForm_refl (st : Page.t) : sameForm st st.
Proof. repeat split. Qed.

Lemma sameForm_trans (a b c : Page.t) :
  sameForm a b -> sameForm b c -> sameForm a c.
Proof.
  unfold sameForm. intros (A1 & A2 & A3 & A4 & A5 & A6 & A7)
    (B1 & B2 & B3 & B4 & B5 & B6 & B7).
  repeat split; congruence.
Qed.

(** The listeners other than the submit listener. *)
Lemma handle_frame
    (engine : Engine.t)
    (generateContent : Page.GenerateContentParameters -> settled (option string))
    (JSON_parse : string -> result ResultDocument.t)
    (trim : string -> string) (systemInstruction : string)
    (ev : Controller.Event) (st : Page.t) :
  negb (isSubmit ev) = true ->
  sameForm st
    (Controller.handle engine generateContent JSON_parse trim systemInstruction
       ev st).
Proof.
  destruct ev as [i|[|file files]| | | | |k];
    cbn [Controller.handle isSubmit negb];
    try discriminate; intros _; try (repeat split).
  all: unfold Page.messageTick, Page.strayTick;
    try destruct (Page.messageInterval st);
    try destruct (nth_error (Page.strayIntervals st) k);
    reflexivity.
Qed.

End PageMore.

(** X11. From a page on which no rotation timer runs: after
    [showLoading(true)] the loading message after [n] firings of the timer
    is entry [n mod 5] of the five messages, so the messages come round in
    their order, and no other timer runs; after [showLoading(false)] no
    timer is left, and no firing changes anything. *)
Theorem loading_messages_rotate (n : nat) (ks : list (option nat))
    (st : Page.t) :
  timers st = [] ->
  nth_error Page.loadingMessages (n mod 5)
  = Some (Page.loadingMessage (rotate n (Page.showLoading true st)))
  /\ timers (rotate n (Page.showLoading true st)) = [n mod 5]
  /\ timers (Page.showLoading false (rotate n (Page.showLoading true st))) = []
  /\ fireAll ks (Page.showLoading false (rotate n (Page.showLoading true st)))
     = Page.showLoading false (rotate n (Page.showLoading true st)).
Proof.
  intros H.
  destruct (PageMore.rotate_running n st) as [Hi Hm].
  assert (S : Page.strayIntervals (rotate n (Page.showLoading true st)) = [])
    by (rewrite PageMore.rotate_strayIntervals; exact H).
  assert (T : timers (Page.showLoading false
                        (rotate n (Page.showLoading true st))) = [])
    by (unfold timers, Page.showLoading at 1;
        cbn [Page.strayIntervals Page.running Page.messageInterval];
        rewrite S; reflexivity).
  split; [exact Hm|]. split; [|split; [exact T|]].
  - unfold timers, Page.running. rewrite S, Hi. reflexivity.
  - apply PageMore.fireAll_stopped. exact T.
Qed.

Lemma loading_messages_rotate_witness :
  nth_error Page.loadingMessages 2
  = Some (Page.loadingMessage (rotate 7 (Page.showLoading true freshPage)))
  /\ timers (rotate 7 (Page.showLoading true freshPage)) = [2]
  /\ timers (Page.showLoading false
               (rotate 7 (Page.showLoading true freshPage))) = []
  /\ fireAll [None; Some 0; None]
       (Page.showLoading false (rotate 7 (Page.showLoading true freshPage)))
     = Page.showLoading false (rotate 7 (Page.showLoading true freshPage)).
Proof.
  apply (loading_messages_rotate 7 [None; Some 0; None] freshPage).
  reflexivity.
Defined.

(** [showLoading(true)] on a page whose timer runs leaves that timer
    running for good: after [showLoading(false)] it still changes the
    message. *)
Example stray_timer_survives :
  timers (Page.showLoading false
            (Page.showLoading true (Page.showLoading true freshPage))) = [0]
  /\ Page.loadingMessage
       (fire (Some 0)
          (Page.showLoading false
             (Page.showLoading true (Page.showLoading true freshPage))))
     = "Searching the official course database...".
Proof. split; reflexivity. Qed.

(** X12. Whatever happens on the page other than a submission (a file
    chosen, the modal opened or closed, the rotation timer firing), in any
    number and order, the results area, the error panel, the requests sent,
    the submit control and the visibility of the input and loading sections
    stay as they are. *)
Theorem no_submit_frame
    (engine : Engine.t)
    (generateContent : Page.GenerateContentParameters -> settled (option string))
    (JSON_parse : string -> result ResultDocument.t)
    (trim : string -> string) (systemInstruction : string)
    (evs : list Controller.Event) (st : Page.t) :
  forallb (fun ev => negb (isSubmit ev)) evs = true ->
  sameForm st
    (Controller.run engine generateContent JSON_parse trim systemInstruction evs st).
Proof.
  revert st. induction evs as [|ev evs IH]; intros st H.
  - apply PageMore.sameForm_refl.
  - cbn [forallb] in H. apply andb_true_iff in H. destruct H as [H1 H2].
    cbn [Controller.run fold_left].
    apply (PageMore.sameForm_trans st
             (Controller.handle engine generateContent JSON_parse trim
                systemInstruction ev st)).
    + apply PageMore.handle_frame. exact H1.
    + apply IH. exact H2.
Qed.

Lemma no_submit_frame_witness :
  sameForm pageWithResults
    (Controller.run sampleEngine serviceDown parseFails noTrim ""
       [Controller.FileChange [wordFile]; Controller.PitfallsClick;
        Controller.MessageTimer; Controller.CloseModalClick]
       pageWithResults).
Proof.
  apply (no_submit_frame sampleEngine serviceDown parseFails noTrim ""
           [Controller.FileChange [wordFile]; Controller.PitfallsClick;
            Controller.MessageTimer; Controller.CloseModalClick]).
  reflexivity.
Defined.

(** ** The prompt *)

Lemma occurrences_here2 (a b rest : string) :
  1 <= occurrences (a ++ b) (a ++ b ++ rest).
Proof. rewrite <- append_assoc. apply occurrences_here. Qed.

Ltac find_phrase :=
  repeat match goal with
         | |- 1 <= occurrences (?a ++ ?b) (?a ++ ?b ++ _) =>
             apply occurrences_here2
         | |- 1 <= occurrences ?p (?x ++ ?y) => apply (occurrences_skip p x y)
         end.

(** X13. The prompt of a submission holds the four texts of the form as
    they were typed: the target fields, the locations and the impact
    statement between double quotes, the year after the words of the
    timeline. *)
Theorem prompt_carries_form (i : Controller.FormInput) :
  includes (Controller.userPromptText i)
    ("Target fields: " ++ q (Controller.fields i)) = true
  /\ includes (Controller.userPromptText i)
       ("Preferred UK locations: " ++ q (Controller.locations i)) = true
  /\ includes (Controller.userPromptText i)
       ("Timeline: must start Sep/Oct " ++ Controller.year i) = true
  /\ includes (Controller.userPromptText i)
       ("Country-impact one-liner: " ++ q (Controller.impact i)) = true.
Proof.
  unfold Controller.userPromptText.
  repeat split; apply includes_true_occurrences; find_phrase.
Qed.

(** ** The countdown display *)

(** X14. Before the deadline the countdown shows the whole seconds that
    are left, split into days, hours below 24, minutes below 60 and seconds
    below 60: the four numbers of the display add up to the time left in
    seconds, rounded down. *)
Theorem countdown_display_parts (diff : Z) :
  (0 < diff)%Z ->
  Countdown.remaining diff
  = string_of_Z (days diff) ++ "d " ++ string_of_Z (hours diff) ++ "h "
    ++ string_of_Z (minutes diff) ++ "m " ++ string_of_Z (seconds diff) ++ "s"
  /\ (0 <= days diff)%Z
  /\ (0 <= hours diff < 24)%Z
  /\ (0 <= minutes diff < 60)%Z
  /\ (0 <= seconds diff < 60)%Z
  /\ (((days diff * 24 + hours diff) * 60 + minutes diff) * 60 + seconds diff
      = diff / 1000)%Z.
Proof.
  intros H. split; [reflexivity|]. apply CountdownFacts.parts_spec, H.
Qed.

Lemma countdown_display_parts_witness :
  Countdown.remaining 838400000
  = string_of_Z (days 838400000) ++ "d " ++ string_of_Z (hours 838400000)
    ++ "h " ++ string_of_Z (minutes 838400000) ++ "m "
    ++ string_of_Z (seconds 838400000) ++ "s"
  /\ (0 <= days 838400000)%Z
  /\ (0 <= hours 838400000 < 24)%Z
  /\ (0 <= minutes 838400000 < 60)%Z
  /\ (0 <= seconds 838400000 < 60)%Z
  /\ (((days 838400000 * 24 + hours 838400000) * 60 + minutes 838400000) * 60
      + seconds 838400000 = 838400000 / 1000)%Z.
Proof. apply (countdown_display_parts 838400000). reflexivity. Defined.

(** ** Decorations of the card of a ranked course *)

Module CardMore.

Lemma li_items_free (m : string) (xs : list string) :
  m <> "" -> mem "<" m = false -> mem ">" m = false ->
  occurrences m "li" = 0 -> occurrences m "/li" = 0 ->
  free m xs = true -> occurrences m (li_items xs) = 0.
Proof.
  intros Hm Hl Hg H1 H2 H. unfold li_items.
  rewrite (occurrences_join_barrier "<") by
    (try assumption;
     apply Forall_map, Forall_forall; intros x _; eexists; reflexivity).
  apply list_sum_zero. rewrite map_map. apply Forall_map.
  apply free_occurrences in H. revert H. apply Forall_impl. intros x Hx.
  change ("<li>" ++ x ++ "</li>")
    with ("" ++ String "<" ("li" ++ String ">" (x ++ String "<" ("/li" ++ String ">" "")))).
  rewrite !occurrences_barrier by assumption.
  rewrite H1, H2, Hx, (occurrences_nil_r m Hm). reflexivity.
Qed.

(** A marker cannot lie across the end of a text when none of its proper
    endings agrees with the two characters that follow the text. *)
Lemma startsWith_agrees (lit y m : string) :
  startsWith (lit ++ y) m = true -> agrees lit m = true.
Proof.
  unfold agrees. revert m. induction lit as [|c lit IH]; intros m H.
  - destruct m; reflexivity.
  - destruct m as [|mc m]; [reflexivity|].
    cbn [append startsWith] in *. rewrite (Ascii.eqb_sym c mc).
    destruct (Ascii.eqb mc c); [apply IH, H | discriminate].
Qed.

Lemma startsWith_boundary (lit x y m : string) :
  endingsClear lit m = true ->
  startsWith (x ++ lit ++ y) m = startsWith x m.
Proof.
  revert m. induction x as [|c x IH]; intros m H.
  - destruct m as [|mc m]; [reflexivity|].
    cbn [endingsClear] in H. apply andb_true_iff in H. destruct H as [H _].
    apply negb_true_iff in H.
    change ("" ++ lit ++ y) with (lit ++ y).
    destruct (startsWith (lit ++ y) (String mc m)) eqn:E; [|reflexivity].
    apply startsWith_agrees in E. congruence.
  - destruct m as [|mc m]; [reflexivity|].
    cbn [endingsClear] in H. apply andb_true_iff in H. destruct H as [_ H].
    cbn [append startsWith]. destruct (Ascii.eqb mc c); [apply IH, H|].
    reflexivity.
Qed.

Lemma occurrences_boundary (c1 c2 : ascii) (m x y : string) :
  match m with
  | EmptyString => false
  | String _ r => endingsClear (String c1 (String c2 "")) r
  end = true ->
  occurrences m (x ++ String c1 (String c2 y))
  = occurrences m x + occurrences m (String c1 (String c2 y)).
Proof.
  destruct m as [|mc m]; [discriminate|]. intros H.
  induction x as [|c x IH]; [reflexivity|].
  change (occurrences (String mc m) (String c x ++ String c1 (String c2 y)))
    with ((if startsWith (String c x ++ String c1 (String c2 y)) (String mc m)
           then 1 else 0)
          + occurrences (String mc m) (x ++ String c1 (String c2 y))).
  change (occurrences (String mc m) (String c x))
    with ((if startsWith (String c x) (String mc m) then 1 else 0)
          + occurrences (String mc m) x).
  rewrite IH.
  assert (E : startsWith (String c x ++ String c1 (String c2 y)) (String mc m)
              = startsWith (String c x) (String mc m)).
  { cbn [append startsWith]. destruct (Ascii.eqb mc c); [|reflexivity].
    exact (startsWith_boundary (String c1 (String c2 "")) x y m H). }
  rewrite E. lia.
Qed.

Ltac break_free :=
  repeat match goal with
         | H : free _ (_ :: _) = true |- _ =>
             apply free_cons in H; destruct H
         | H : free _ (_ ++ _)%list = true |- _ =>
             apply free_app in H; destruct H
         | H : free _ [] = true |- _ => clear H
         | H : free _ (match ?o with Some _ => _ | None => _ end) = true |- _ =>
             destruct o
         | H : free _ (if ?b then _ else _) = true |- _ =>
             destruct b eqn:?
         end.

Ltac name_texts c :=
  remember (interpZ (CourseEntry.rank c)) as rank;
  remember (interpZ (CourseEntry.duration_months c)) as duration;
  remember (interp (CourseEntry.university c)) as university;
  remember (interp (CourseEntry.city c)) as city;
  remember (interp (CourseEntry.start_cycle c)) as start_cycle;
  remember (interp (CourseEntry.url c)) as url.

(** The occurrences of a marker in a card whose texts are free of it:
    case analysis on the optional decorations, then counting piece by
    piece. *)
Ltac rewrite_bool b :=
  match goal with
  | E : b = true |- _ => rewrite E
  | E : b = false |- _ => rewrite E
  end.

Ltac count_parts :=
  repeat (first
    [ rewrite occurrences_barrier by (reflexivity || discriminate)
    | rewrite occurrences_boundary by reflexivity
    | progress simpl
    | progress unfold q, dq ]).

Ltac count_card m ch :=
  let H := fresh "H" in
  let Hf := fresh "Hf" in
  intros c card H Hf;
  unfold courseCard in H;
  destruct (CourseEntry.programme c) as [p|] eqn:Ep; [|discriminate];
  destruct (CourseEntry.chevening_rationale c) as [rs|] eqn:Er;
    [|discriminate];
  cbn [required bind interp] in H; apply Ok_inj in H; subst card;
  unfold course_texts, course_other_texts in Hf;
  rewrite Ep, Er in Hf; cbn [interp] in Hf;
  pose proof (occurrences_interpZ m ch (CourseEntry.rank c)
                eq_refl eq_refl) as Hrank;
  pose proof (occurrences_interpZ m ch (CourseEntry.duration_months c)
                eq_refl eq_refl) as Hduration;
  unfold eligible, ineligible, feeToVerify;
  remember (li_items rs) as items;
  name_texts c;
  match goal with
  | |- context [eligibilityBadge ?ec] =>
      remember (eligibilityBadge ec) as badge eqn:Ebadge;
      remember (eligibilityReason ec) as reason eqn:Ereason
  end;
  match goal with
  | |- context [feeDisplay ?f] => remember (feeDisplay f) as fee eqn:Efee
  end;
  match goal with
  | |- context [scoreDisclosure ?f] =>
      remember (scoreDisclosure f) as score eqn:Escore
  end;
  match goal with
  | |- context [if isMBA ?s then _ else _] =>
      remember (if isMBA s then mbaAdvisory else "") as mba eqn:Emba
  end;
  unfold m in *; count_parts;
  repeat match goal with
         | E : ?x = eligibilityBadge _ |- _ => subst x
         | E : ?x = eligibilityReason _ |- _ => subst x
         | E : ?x = feeDisplay _ |- _ => subst x
         | E : ?x = scoreDisclosure _ |- _ => subst x
         | E : ?x = (if isMBA _ then _ else _) |- _ => subst x
         end;
  break_free;
  match goal with
  | Hr : free ?mm rs = true |- _ =>
      apply (li_items_free mm rs ltac:(discriminate) eq_refl eq_refl
               eq_refl eq_refl) in Hr;
      match goal with
      | E : ?x = li_items rs |- _ => rewrite <- E in Hr
      end
  end;
  unfold eligibilityBadge, eligibilityReason, feeDisplay, scoreDisclosure,
    truthy_string;
  repeat match goal with
         | |- context [(?s =? "")%string] =>
             let E := fresh "E" in
             destruct (s =? "") eqn:E;
             [apply String.eqb_eq in E; subst s|]; cbn [negb andb]
         | |- context [includes (toLowerCase ?s) "verify"] =>
             is_var s; destruct (includes (toLowerCase s) "verify")
         | |- context [if isMBA ?s then _ else _] => destruct (isMBA s)
         | |- context [if ?b then _ else _] => rewrite_bool b
         end;
  cbn [interp negb andb count]; count_parts; lia.

Lemma courseCard_badgeClass (c : CourseEntry.t) (card : string) :
  courseCard c = Ok card ->
  free badgeClass (course_texts c) = true ->
  occurrences badgeClass card = count (eligible c) + count (ineligible c).
Proof. revert c card. count_card badgeClass "g"%char. Qed.

Lemma courseCard_ineligibleBadgeClass (c : CourseEntry.t) (card : string) :
  courseCard c = Ok card ->
  free ineligibleBadgeClass (course_texts c) = true ->
  occurrences ineligibleBadgeClass card = count (ineligible c).
Proof. revert c card. count_card ineligibleBadgeClass "g"%char. Qed.

(** The badge and the reason of the course are in its card. *)
Lemma courseCard_badges (c : CourseEntry.t) (card : string) :
  courseCard c = Ok card ->
  includes card (eligibilityBadge (CourseEntry.eligibility_check c)) = true
  /\ includes card (eligibilityReason (CourseEntry.eligibility_check c))
     = true.
Proof.
  unfold courseCard. intros H.
  destruct (CourseEntry.programme c) as [p|]; [|discriminate].
  destruct (CourseEntry.chevening_rationale c) as [rs|]; [|discriminate].
  cbn [required bind] in H. apply Ok_inj in H. subst card.
  split; repeat first [ apply RenderFacts.includes_here
                      | apply RenderFacts.includes_skip ].
Qed.

Lemma courseCard_reasonMarker (c : CourseEntry.t) (card : string) :
  courseCard c = Ok card ->
  free reasonMarker (course_texts c) = true ->
  occurrences reasonMarker card = count (ineligible c).
Proof. revert c card. count_card reasonMarker "l"%char. Qed.

Lemma courseCard_verifyMarker (c : CourseEntry.t) (card : string) :
  courseCard c = Ok card ->
  free verifyMarker (course_texts c) = true ->
  occurrences verifyMarker card = count (feeToVerify c).
Proof. revert c card. count_card verifyMarker "v"%char. Qed.

Lemma courseCard_scoreMarker (c : CourseEntry.t) (card : string) :
  courseCard c = Ok card ->
  free scoreMarker (course_texts c) = true ->
  occurrences scoreMarker card = count (scored c).
Proof. revert c card. unfold scored. count_card scoreMarker "s"%char. Qed.

End CardMore.

(** ** Cards and decorations in the block of ranked courses *)

Module RankedMore.
Import CardMore.

Lemma includes_lower_spec (s p : string) :
  toLowerCase p = p ->
  includes (toLowerCase s) p = true <-> containsIgnoringCase s p.
Proof.
  intros Hp. unfold containsIgnoringCase. rewrite includes_spec, Hp. split.
  - intros (a & b & H).
    apply toLowerCase_app_inv in H. destruct H as (s1 & s2 & -> & H1 & H2).
    apply toLowerCase_app_inv in H2. destruct H2 as (m & s3 & -> & H2 & H3).
    exists s1, m, s3. auto.
  - intros (a & m & b & -> & H).
    exists (toLowerCase a), (toLowerCase b).
    rewrite !toLowerCase_app, H. reflexivity.
Qed.

Lemma feeToVerify_spec (c : CourseEntry.t) :
  feeToVerify c = true <->
  exists fee, CourseEntry.fee_gbp c = Some fee
              /\ containsIgnoringCase fee "verify".
Proof.
  unfold feeToVerify. destruct (CourseEntry.fee_gbp c) as [fee|].
  - rewrite (includes_lower_spec fee "verify" eq_refl). split.
    + intros H. exists fee. auto.
    + intros (fee' & E & H). injection E as <-. exact H.
  - split; [discriminate|]. intros (fee & E & _). discriminate.
Qed.

Lemma courseCard_head (c : CourseEntry.t) (card : string) :
  courseCard c = Ok card -> exists r, card = String newline r.
Proof.
  unfold courseCard.
  destruct (CourseEntry.programme c); [|discriminate].
  destruct (CourseEntry.chevening_rationale c); [|discriminate].
  cbn [required bind]. intros H. apply Ok_inj in H. subst card.
  eexists. reflexivity.
Qed.

Lemma list_sum_count {A} (p : A -> bool) (xs : list A) :
  list_sum (map (fun x => count (p x)) xs) = howMany p xs.
Proof.
  unfold howMany. induction xs as [|x xs IH]; [reflexivity|].
  cbn [map filter].
  change (list_sum (count (p x) :: map (fun x => count (p x)) xs))
    with (count (p x) + list_sum (map (fun x => count (p x)) xs)).
  rewrite IH. destruct (p x); reflexivity.
Qed.

(** The occurrences of a marker in the cards of a block add up. *)
Lemma cards_sum (m : string) (g : CourseEntry.t -> nat)
    (ok : CourseEntry.t -> bool) (courses : list CourseEntry.t)
    (cards : list string) :
  m <> "" -> mem newline m = false ->
  (forall c card, courseCard c = Ok card -> ok c = true ->
                  occurrences m card = g c) ->
  mapM courseCard courses = Ok cards ->
  forallb ok courses = true ->
  occurrences m (join cards) = list_sum (map g courses).
Proof.
  intros Hm Hn Hg Hc Hok. apply mapM_Forall2 in Hc.
  rewrite (occurrences_join_barrier newline m cards Hm Hn).
  - induction Hc as [|c card cs cards' H1 H2 IH]; [reflexivity|].
    cbn [forallb] in Hok. apply andb_true_iff in Hok. destruct Hok as [Hk Hks].
    cbn [map].
    change (list_sum (occurrences m card :: map (occurrences m) cards'))
      with (occurrences m card + list_sum (map (occurrences m) cards')).
    change (list_sum (g c :: map g cs)) with (g c + list_sum (map g cs)).
    rewrite (Hg c card H1 Hk), (IH Hks). reflexivity.
  - clear Hok. induction Hc as [|c card cs cards' H1 H2 IH]; constructor.
    + exact (courseCard_head c card H1).
    + exact IH.
Qed.

(** The frame of the block holds no marker of a card. *)
Lemma rankedBlock_body (m : string) (courses : list CourseEntry.t)
    (html : string) :
  In m cardMarkers ->
  renderRankedCourses courses = Ok html ->
  exists cards, mapM courseCard courses = Ok cards
                /\ occurrences m html = occurrences m (join cards).
Proof.
  intros Hm H. unfold renderRankedCourses in H.
  destruct (mapM courseCard courses) as [cards|]; [|discriminate].
  exists cards. split; [reflexivity|].
  cbn [bind] in H. apply Ok_inj in H. subst html.
  remember (join cards) as body.
  cbn [In cardMarkers] in Hm.
  repeat (destruct Hm as [<-|Hm]; [unfold badgeClass, ineligibleBadgeClass, reasonMarker, verifyMarker,
             scoreMarker, courseCardMarker; count_pieces; lia|]).
  destruct Hm.
Qed.

Lemma list_sum_add {A} (f g : A -> nat) (xs : list A) :
  list_sum (map (fun x => f x + g x) xs)
  = list_sum (map f xs) + list_sum (map g xs).
Proof.
  induction xs as [|x xs IH]; [reflexivity|]. cbn [map].
  change (list_sum (f x + g x :: map (fun x => f x + g x) xs))
    with (f x + g x + list_sum (map (fun x => f x + g x) xs)).
  change (list_sum (f x :: map f xs)) with (f x + list_sum (map f xs)).
  change (list_sum (g x :: map g xs)) with (g x + list_sum (map g xs)).
  lia.
Qed.

Lemma includes_trans (s m p : string) :
  includes s m = true -> includes m p = true -> includes s p = true.
Proof.
  rewrite !includes_spec. intros (a & b & ->) (u & v & ->).
  exists (a ++ u), (v ++ b). now rewrite !append_assoc.
Qed.

Lemma includes_join (f : string) (fs : list string) :
  In f fs -> includes (join fs) f = true.
Proof.
  induction fs as [|g gs IH]; intros H; [destruct H|].
  rewrite join_cons. destruct H as [->|H].
  - apply RenderFacts.includes_here.
  - apply RenderFacts.includes_skip, IH, H.
Qed.

(** The card of every course is in the block. *)
Lemma rankedBlock_card (courses : list CourseEntry.t) (html : string)
    (c : CourseEntry.t) :
  renderRankedCourses courses = Ok html -> In c courses ->
  exists card, courseCard c = Ok card /\ includes html card = true.
Proof.
  intros H Hc. unfold renderRankedCourses in H.
  destruct (mapM courseCard courses) as [cards|] eqn:E; [|discriminate].
  cbn [bind] in H. apply Ok_inj in H. subst html.
  apply mapM_Forall2 in E.
  assert (K : exists card, courseCard c = Ok card /\ In card cards).
  { induction E as [|x card xs cards' Hx _ IH]; [destruct Hc|].
    destruct Hc as [->|Hc].
    - exists card. split; [exact Hx | now left].
    - destruct (IH Hc) as (k & Hk & Hin). exists k. split; [exact Hk|].
      now right. }
  destruct K as (card & Hk & Hin). exists card. split; [exact Hk|].
  apply (includes_trans _ (join cards)); [|apply includes_join, Hin].
  repeat first [ apply RenderFacts.includes_here
               | apply RenderFacts.includes_skip ].
Qed.

Lemma allFree_one {A} (m : string) (markers : list string)
    (texts : A -> list string) (xs : list A) :
  In m markers -> allFree markers texts xs = true ->
  forallb (fun x => free m (texts x)) xs = true.
Proof.
  intros Hm H. unfold allFree in H. rewrite forallb_forall in *.
  intros x Hx. specialize (H x Hx). unfold freeOfAll in H.
  rewrite forallb_forall in H. exact (H m Hm).
Qed.

(** The occurrences of a marker in the block are those in its cards. *)
Lemma rankedBlock_count (m : string) (g : CourseEntry.t -> nat)
    (markers : list string) (courses : list CourseEntry.t) (html : string) :
  In m cardMarkers -> In m markers ->
  (forall c card, courseCard c = Ok card ->
                  free m (course_texts c) = true ->
                  occurrences m card = g c) ->
  renderRankedCourses courses = Ok html ->
  allFree markers course_texts courses = true ->
  occurrences m html = list_sum (map g courses).
Proof.
  intros Hc Hm Hg H Hf.
  destruct (rankedBlock_body m courses html Hc H) as (cards & E & ->).
  apply (cards_sum m g (fun c => free m (course_texts c)) courses cards).
  - intros ->. cbn [In cardMarkers] in Hc.
    repeat (destruct Hc as [Hc|Hc]; [discriminate|]). destruct Hc.
  - cbn [In cardMarkers] in Hc.
    repeat (destruct Hc as [<-|Hc]; [reflexivity|]). destruct Hc.
  - exact Hg.
  - exact E.
  - exact (allFree_one m markers course_texts courses Hm Hf).
Qed.

End RankedMore.

(** X15. The eligibility decorations of [renderRankedCourses]. Every
    course whose eligibility check passed has the badge "Chevening-eligible"
    in the block, every course whose check failed the badge "Ineligible"
    and the paragraph of its reason. When no text of the courses spells out
    the class names of the decorations, the block holds one badge for each
    course with a check, the badge of an ineligible course and a paragraph
    of the reason for each course whose check failed, and none for a course
    without a check. *)
Theorem ranked_courses_eligibility (courses : list CourseEntry.t)
    (html : string) :
  renderRankedCourses courses = Ok html ->
  (forall c,
      In c courses -> eligible c = true ->
      includes html eligibleBadge = true)
  /\ (forall c ec,
         In c courses -> CourseEntry.eligibility_check c = Some ec ->
         ineligible c = true ->
         includes html ineligibleBadge = true
         /\ includes html (reasonParagraph (EligibilityCheck.reason ec))
            = true)
  /\ (allFree [badgeClass; ineligibleBadgeClass; reasonMarker]
        course_texts courses = true ->
      occurrences badgeClass html
      = howMany eligible courses + howMany ineligible courses
      /\ occurrences ineligibleBadgeClass html = howMany ineligible courses
      /\ occurrences reasonMarker html = howMany ineligible courses).
Proof.
  intros H. split; [|split].
  - intros c Hc He.
    destruct (RankedMore.rankedBlock_card courses html c H Hc)
      as (card & Hk & Hi).
    apply (RankedMore.includes_trans html card); [exact Hi|].
    destruct (CardMore.courseCard_badges c card Hk) as [Hb _].
    unfold eligible in He.
    destruct (CourseEntry.eligibility_check c) as [ec|]; [|discriminate].
    unfold eligibilityBadge in Hb. rewrite He in Hb. exact Hb.
  - intros c ec Hc Hec Hn.
    destruct (RankedMore.rankedBlock_card courses html c H Hc)
      as (card & Hk & Hi).
    destruct (CardMore.courseCard_badges c card Hk) as [Hb Hr].
    unfold ineligible in Hn. rewrite Hec in *.
    unfold eligibilityBadge in Hb. unfold eligibilityReason in Hr.
    rewrite Hn in Hr. apply negb_true_iff in Hn. rewrite Hn in Hb.
    split; apply (RankedMore.includes_trans html card); assumption.
  - intros Hf.
    rewrite <- !RankedMore.list_sum_count, <- RankedMore.list_sum_add.
    split; [|split].
    + apply (RankedMore.rankedBlock_count badgeClass
               (fun c => count (eligible c) + count (ineligible c))
               [badgeClass; ineligibleBadgeClass; reasonMarker] courses html);
        try assumption; try (cbn; tauto).
      exact CardMore.courseCard_badgeClass.
    + apply (RankedMore.rankedBlock_count ineligibleBadgeClass
               (fun c => count (ineligible c))
               [badgeClass; ineligibleBadgeClass; reasonMarker] courses html);
        try assumption; try (cbn; tauto).
      exact CardMore.courseCard_ineligibleBadgeClass.
    + apply (RankedMore.rankedBlock_count reasonMarker
               (fun c => count (ineligible c))
               [badgeClass; ineligibleBadgeClass; reasonMarker] courses html);
        try assumption; try (cbn; tauto).
      exact CardMore.courseCard_reasonMarker.
Qed.

(** X16. The fee of [renderRankedCourses]: the fee is drawn as a chip to
    verify exactly for the courses whose fee contains "verify" in any
    letter case. *)
Theorem ranked_courses_fee_chip (courses : list CourseEntry.t)
    (html : string) :
  renderRankedCourses courses = Ok html ->
  allFree [verifyMarker] course_texts courses = true ->
  occurrences verifyMarker html = howMany feeToVerify courses
  /\ forall c, feeToVerify c = true <->
               exists fee, CourseEntry.fee_gbp c = Some fee
                           /\ containsIgnoringCase fee "verify".
Proof.
  intros H Hf. split; [|exact RankedMore.feeToVerify_spec].
  rewrite <- RankedMore.list_sum_count.
  apply (RankedMore.rankedBlock_count verifyMarker
           (fun c => count (feeToVerify c)) [verifyMarker] courses html);
    try assumption; try (cbn; tauto).
  exact CardMore.courseCard_verifyMarker.
Qed.

(** X17. The disclosure of [renderRankedCourses]: the score breakdown is
    drawn exactly for the courses that have a score breakdown other than the
    empty string. *)
Theorem ranked_courses_score (courses : list CourseEntry.t) (html : string) :
  renderRankedCourses courses = Ok html ->
  allFree [scoreMarker] course_texts courses = true ->
  occurrences scoreMarker html = howMany scored courses.
Proof.
  intros H Hf. rewrite <- RankedMore.list_sum_count.
  apply (RankedMore.rankedBlock_count scoreMarker
           (fun c => count (scored c)) [scoreMarker] courses html);
    try assumption; try (cbn; tauto).
  exact CardMore.courseCard_scoreMarker.
Qed.

Lemma ranked_courses_eligibility_witness :
  exists html,
    renderRankedCourses [mbaCourse; overlongCourse] = Ok html
    /\ includes html eligibleBadge = true
    /\ includes html ineligibleBadge = true
    /\ includes html
         (reasonParagraph (Some "Ineligible: duration is over 12 months"))
       = true
    /\ occurrences badgeClass html = 2
    /\ occurrences ineligibleBadgeClass html = 1
    /\ occurrences reasonMarker html = 1.
Proof.
  eexists. split; [reflexivity|].
  split.
  - apply (proj1 (ranked_courses_eligibility [mbaCourse; overlongCourse] _
                    eq_refl) mbaCourse); [left; reflexivity | reflexivity].
  - destruct (proj1 (proj2 (ranked_courses_eligibility
                              [mbaCourse; overlongCourse] _ eq_refl))
                overlongCourse
                (EligibilityCheck.mk (Some false)
                   (Some "Ineligible: duration is over 12 months"))
                (or_intror (or_introl eq_refl)) eq_refl eq_refl) as [Hi Hr].
    split; [exact Hi|]. split; [exact Hr|].
    apply (proj2 (proj2 (ranked_courses_eligibility
                           [mbaCourse; overlongCourse] _ eq_refl))).
    reflexivity.
Defined.

Lemma ranked_courses_fee_chip_witness :
  exists html,
    renderRankedCourses [mbaCourse; plainCourse] = Ok html
    /\ occurrences verifyMarker html = 1.
Proof.
  eexists. split; [reflexivity|].
  apply (proj1 (ranked_courses_fee_chip [mbaCourse; plainCourse] _
                  eq_refl eq_refl)).
Defined.

Lemma ranked_courses_score_witness :
  exists html,
    renderRankedCourses [mbaCourse; plainCourse] = Ok html
    /\ occurrences scoreMarker html = 1.
Proof.
  eexists. split; [reflexivity|].
  apply (ranked_courses_score [mbaCourse; plainCourse]); reflexivity.
Defined.

(** ** The older variant of the renderer *)

Module OlderMore.
Import Page Controller.

Lemma older_courseCard_outcome (c : CourseEntry.t) :
  match Older.courseCard c with
  | Ok _ => wf_courseOlder c = true
  | Throw x => wf_courseOlder c = false /\ x = TypeError "map"
  end.
Proof.
  unfold Older.courseCard, wf_courseOlder.
  destruct (CourseEntry.chevening_rationale c); cbn [required bind present];
    auto.
Qed.

Lemma older_renderRankedCourses_outcome (courses : list CourseEntry.t) :
  match Older.renderRankedCourses courses with
  | Ok _ => forallb wf_courseOlder courses = true
  | Throw x => forallb wf_courseOlder courses = false /\ x = TypeError "map"
  end.
Proof.
  unfold Older.renderRankedCourses.
  pose proof (RenderMore.mapM_outcome Older.courseCard wf_courseOlder
                (fun x => x = TypeError "map") courses older_courseCard_outcome)
    as H.
  destruct (mapM Older.courseCard courses); cbn [bind]; exact H.
Qed.

Lemma older_renderResults_outcome_fst (engine : Engine.t)
    (data : ResultDocument.t) (st : Page.t) :
  match fst (Older.renderResults engine data st) with
  | Fulfilled _ => renderableOlder data = true
  | Rejected x => renderableOlder data = false /\ x = TypeError "map"
  | Pending => False
  end.
Proof.
  unfold Older.renderResults, renderableOlder, whenPresent, appendResults,
    ebind, sync, exec, ret.
  destruct (ResultDocument.chevening_trio data) as [trio|];
    (destruct (ResultDocument.ranked_courses data) as [courses|];
     [pose proof (older_renderRankedCourses_outcome courses) as Hc;
      destruct (Older.renderRankedCourses courses) as [hc|ec];
      [cbn [forOption]; rewrite Hc
      |destruct Hc as [Hc ->]; cbn [forOption fst]; rewrite Hc; auto]|]);
    cbn [forOption andb];
    (destruct (ResultDocument.personal_statement_bullets data) as [bullets|];
     [pose proof (RenderMore.renderBullets_outcome bullets) as Hb;
      destruct (renderBullets bullets) as [hb|eb];
      [cbn [forOption]; rewrite Hb
      |destruct Hb as [Hb ->]; cbn [forOption fst]; rewrite Hb; auto]|]);
    destruct (ResultDocument.alternatives data), (ResultDocument.notes data);
    reflexivity.
Qed.

End OlderMore.

(** X18. The older variant of [renderResults] reads the programme of no
    entry: it returns exactly for the documents
    whose ranked courses all have a rationale and whose bullets have their
    three lists, and otherwise throws the [TypeError] of [map]; a trio never
    makes it fail. A document that [renderResults] of [index.tsx] renders is
    rendered by the older variant as well. *)
Theorem older_renderResults_outcome (engine : Engine.t)
    (data : ResultDocument.t) (st : Page.t) :
  match fst (Older.renderResults engine data st) with
  | Fulfilled _ => renderableOlder data = true
  | Rejected x => renderableOlder data = false /\ x = TypeError "map"
  | Pending => False
  end
  /\ (renderable data = true -> renderableOlder data = true).
Proof.
  split; [apply OlderMore.older_renderResults_outcome_fst|].
  unfold renderable, renderableOlder. rewrite !andb_true_iff.
  intros [[_ Hc] Hb]. split; [|exact Hb].
  destruct (ResultDocument.ranked_courses data) as [courses|];
    [|reflexivity].
  cbn [forOption] in *. rewrite forallb_forall in *. intros c Hin.
  specialize (Hc c Hin). unfold wf_course in Hc. unfold wf_courseOlder.
  apply andb_true_iff in Hc. tauto.
Qed.

Module OlderCards.
Import CardMore.

Ltac count_older m ch :=
  let H := fresh "H" in
  let Hf := fresh "Hf" in
  intros c card H Hf;
  unfold Older.courseCard in H;
  destruct (CourseEntry.chevening_rationale c) as [rs|] eqn:Er;
    [|discriminate];
  cbn [required bind] in H; apply Ok_inj in H; subst card;
  unfold course_textsOlder in Hf; rewrite Er in Hf; cbn [texts app] in Hf;
  pose proof (occurrences_interpZ m ch (CourseEntry.rank c)
                eq_refl eq_refl) as Hrank;
  pose proof (occurrences_interpZ m ch (CourseEntry.duration_months c)
                eq_refl eq_refl) as Hduration;
  break_free;
  match goal with
  | Hr : free ?mm rs = true |- _ =>
      apply (li_items_free mm rs ltac:(discriminate) eq_refl eq_refl
               eq_refl eq_refl) in Hr
  end;
  remember (li_items rs) as items;
  remember (interp (CourseEntry.programme c)) as programme;
  remember (interp (CourseEntry.fee_gbp c)) as fee;
  name_texts c;
  unfold m in *; count_pieces; lia.

Lemma courseCard_plain (m : string) (c : CourseEntry.t) (card : string) :
  In m decorationMarkers ->
  Older.courseCard c = Ok card ->
  free m (course_textsOlder c) = true ->
  occurrences m card = 0.
Proof.
  intros Hm. cbn [In decorationMarkers] in Hm. revert c card.
  destruct Hm as [<-|[<-|[<-|[<-|[<-|[<-|[]]]]]]].
  - count_older mbaMarker "m"%char.
  - count_older eligibleMarker "C"%char.
  - count_older ineligibleMarker "I"%char.
  - count_older reasonMarker "l"%char.
  - count_older verifyMarker "v"%char.
  - count_older scoreMarker "s"%char.
Qed.

Lemma older_courseCard_head (c : CourseEntry.t) (card : string) :
  Older.courseCard c = Ok card -> exists r, card = String newline r.
Proof.
  unfold Older.courseCard.
  destruct (CourseEntry.chevening_rationale c); [|discriminate].
  cbn [required bind]. intros H. apply Ok_inj in H. subst card.
  eexists. reflexivity.
Qed.

Lemma decorationMarkers_barrier (m : string) :
  In m decorationMarkers -> m <> "" /\ mem newline m = false.
Proof.
  intros Hm. cbn [In decorationMarkers] in Hm.
  destruct Hm as [<-|[<-|[<-|[<-|[<-|[<-|[]]]]]]];
    (split; [discriminate | reflexivity]).
Qed.

Lemma renderRankedCourses_plain (m : string) (courses : list CourseEntry.t)
    (html : string) :
  In m decorationMarkers ->
  Older.renderRankedCourses courses = Ok html ->
  allFree decorationMarkers course_textsOlder courses = true ->
  occurrences m html = 0.
Proof.
  intros Hm H Hf. unfold Older.renderRankedCourses in H.
  destruct (mapM Older.courseCard courses) as [cards|] eqn:E; [|discriminate].
  cbn [bind] in H. apply Ok_inj in H. subst html.
  assert (Hb : occurrences m (join cards) = 0).
  { destruct (decorationMarkers_barrier m Hm) as [Hne Hnl].
    apply (RankedMore.allFree_one m) in Hf; [|exact Hm].
    apply mapM_Forall2 in E.
    rewrite (occurrences_join_barrier newline m cards Hne Hnl).
    - apply list_sum_zero, Forall_map.
      induction E as [|c card cs cards' H1 _ IH]; constructor;
        cbn [forallb] in Hf; apply andb_true_iff in Hf; destruct Hf as [F1 F2].
      + exact (courseCard_plain m c card Hm H1 F1).
      + exact (IH F2).
    - clear Hf. induction E as [|c card cs cards' H1 _ IH]; constructor.
      + exact (older_courseCard_head c card H1).
      + exact IH. }
  remember (join cards) as body.
  cbn [In decorationMarkers] in Hm.
  destruct Hm as [<-|[<-|[<-|[<-|[<-|[<-|[]]]]]]];
    unfold mbaMarker, eligibleMarker, ineligibleMarker, reasonMarker,
      verifyMarker, scoreMarker in *;
    count_pieces; lia.
Qed.

Lemma trioCard_plain (m : string) (e : TrioEntry.t) :
  In m advisoryMarkers ->
  free m (trio_texts e) = true ->
  occurrences m (Older.trioCard e) = 0.
Proof.
  intros Hm Hf. unfold Older.trioCard. unfold trio_texts, trio_other_texts in Hf.
  break_free.
  remember (interp (TrioEntry.programme e)) as p.
  remember (interp (TrioEntry.university e)) as u.
  remember (interp (TrioEntry.why_this_trio e)) as w.
  cbn [In advisoryMarkers] in Hm.
  destruct Hm as [<-|[<-|[]]]; unfold mbaMarker, trioMarker in *;
    count_pieces; lia.
Qed.

Lemma renderTrio_plain (m : string) (trio : list TrioEntry.t) :
  In m advisoryMarkers ->
  allFree advisoryMarkers trio_texts trio = true ->
  occurrences m (Older.renderTrio trio) = 0.
Proof.
  intros Hm Hf. unfold Older.renderTrio.
  assert (Hb : occurrences m (join (map Older.trioCard trio)) = 0).
  { apply (RankedMore.allFree_one m) in Hf; [|exact Hm].
    rewrite (occurrences_join_barrier newline m).
    - apply list_sum_zero. rewrite map_map. apply Forall_map.
      apply Forall_forall. intros e He. rewrite forallb_forall in Hf.
      exact (trioCard_plain m e Hm (Hf e He)).
    - cbn [In advisoryMarkers] in Hm.
      destruct Hm as [<-|[<-|[]]]; discriminate.
    - cbn [In advisoryMarkers] in Hm.
      destruct Hm as [<-|[<-|[]]]; reflexivity.
    - apply Forall_map, Forall_forall. intros e _. eexists. reflexivity. }
  remember (join (map Older.trioCard trio)) as body.
  cbn [In advisoryMarkers] in Hm.
  destruct Hm as [<-|[<-|[]]]; unfold mbaMarker, trioMarker in *;
    count_pieces; lia.
Qed.

End OlderCards.

Lemma older_renderResults_outcome_witness :
  renderableOlder sampleDocument = true.
Proof.
  apply (proj2 (older_renderResults_outcome sampleEngine sampleDocument
                  freshPage)).
  reflexivity.
Defined.

(** X19. The older variant draws no advisory and no decoration: its trio
    block holds neither the fee-cap advisory nor the diversification
    advisory, whatever the programmes and universities of the trio, and its
    block of ranked courses holds no fee-cap advisory, eligibility badge,
    reason, chip to verify or score disclosure, whatever the courses say,
    as long as the texts of the entries do not spell the markers out. *)
Theorem older_draws_no_decoration :
  (forall trio m,
      In m advisoryMarkers ->
      allFree advisoryMarkers trio_texts trio = true ->
      occurrences m (Older.renderTrio trio) = 0)
  /\ (forall courses html m,
         In m decorationMarkers ->
         Older.renderRankedCourses courses = Ok html ->
         allFree decorationMarkers course_textsOlder courses = true ->
         occurrences m html = 0).
Proof.
  split.
  - intros trio m. apply OlderCards.renderTrio_plain.
  - intros courses html m. apply OlderCards.renderRankedCourses_plain.
Qed.

Lemma older_draws_no_decoration_witness :
  occurrences trioMarker (Older.renderTrio sameTrio) = 0
  /\ occurrences mbaMarker (Older.renderTrio sameTrio) = 0
  /\ exists html,
       Older.renderRankedCourses [mbaCourse; plainCourse] = Ok html
       /\ occurrences mbaMarker html = 0
       /\ occurrences verifyMarker html = 0.
Proof.
  split; [|split].
  - apply (proj1 older_draws_no_decoration sameTrio trioMarker);
      [right; left; reflexivity | reflexivity].
  - apply (proj1 older_draws_no_decoration sameTrio mbaMarker);
      [left; reflexivity | reflexivity].
  - eexists. split; [reflexivity|]. split.
    + apply (proj2 older_draws_no_decoration [mbaCourse; plainCourse] _
               mbaMarker); [left; reflexivity | reflexivity | reflexivity].
    + apply (proj2 older_draws_no_decoration [mbaCourse; plainCourse] _
               verifyMarker);
        [right; right; right; right; left; reflexivity
        | reflexivity | reflexivity].
Defined.

(** ** Start of the page *)

Module AppMore.

Section Service.
Variable engine : Engine.t.
Variable generateContent :
  Page.GenerateContentParameters -> settled (option string).
Variable JSON_parse : string -> result ResultDocument.t.
Variable trim : string -> string.
Variable systemInstruction : string.

(** Without the listeners of the form an event changes nothing that a
    submission would. *)
Lemma dispatch_idle (ev : App.Event) (app : App.t) :
  App.listening app = false ->
  sameForm (App.page app)
    (App.page (App.dispatch engine generateContent JSON_parse trim
                 systemInstruction ev app))
  /\ App.inputSection
       (App.dispatch engine generateContent JSON_parse trim systemInstruction ev app)
     = App.inputSection app
  /\ App.styles
       (App.dispatch engine generateContent JSON_parse trim systemInstruction ev app)
     = App.styles app
  /\ App.listening
       (App.dispatch engine generateContent JSON_parse trim systemInstruction ev app)
     = false.
Proof.
  intros H. destruct ev as [dev|now]; cbn [App.dispatch].
  - destruct dev as [i|files| | | | |k]; rewrite ?H;
      cbn [App.page App.inputSection App.styles App.listening];
      repeat split; try assumption;
      try (apply PageMore.sameForm_refl);
      try (apply PageMore.handle_frame; reflexivity).
  - cbn [App.page App.inputSection App.styles App.listening].
    repeat split. exact H.
Qed.

Lemma run_idle (evs : list App.Event) (app : App.t) :
  App.listening app = false ->
  sameForm (App.page app)
    (App.page (App.run engine generateContent JSON_parse trim systemInstruction
                 evs app))
  /\ App.inputSection
       (App.run engine generateContent JSON_parse trim systemInstruction evs app)
     = App.inputSection app
  /\ App.styles
       (App.run engine generateContent JSON_parse trim systemInstruction evs app)
     = App.styles app.
Proof.
  revert app. induction evs as [|ev evs IH]; intros app H.
  - repeat split.
  - cbn [App.run fold_left].
    destruct (dispatch_idle ev app H) as (D1 & D2 & D3 & D4).
    destruct (IH _ D4) as (R1 & R2 & R3).
    split; [|split].
    + exact (PageMore.sameForm_trans _ _ _ D1 R1).
    + unfold App.run in R2. rewrite R2. exact D2.
    + unfold App.run in R3. rewrite R3. exact D3.
Qed.

Lemma dispatch_countdown (ev : App.Event) (app : App.t) :
  App.countdown
    (App.dispatch engine generateContent JSON_parse trim systemInstruction ev app)
  = match ev with
    | App.CountdownTimer now => Countdown.tick now (App.countdown app)
    | App.Dom _ => App.countdown app
    end.
Proof.
  destruct ev as [dev|now]; cbn [App.dispatch]; [|reflexivity].
  destruct dev; try reflexivity; destruct (App.listening app); reflexivity.
Qed.

Lemma run_countdown (evs : list App.Event) (app : App.t) :
  App.countdown
    (App.run engine generateContent JSON_parse trim systemInstruction evs app)
  = Countdown.ticks (readings evs) (App.countdown app).
Proof.
  revert app. induction evs as [|ev evs IH]; intros app; [reflexivity|].
  cbn [App.run fold_left]. unfold App.run in IH. rewrite IH.
  rewrite dispatch_countdown. destruct ev; reflexivity.
Qed.

End Service.

End AppMore.

(** X20. Without a client of the model service the page shows the
    configuration error in place of the input section and adds its style
    sheet, and then nothing that happens on the page sends a request or
    touches the results area, the error panel or the submit control:
    submissions, file choices and the pitfalls button have no listener. *)
Theorem without_client_nothing_sent
    (engine : Engine.t)
    (generateContent : Page.GenerateContentParameters -> settled (option string))
    (JSON_parse : string -> result ResultDocument.t)
    (trim : string -> string) (systemInstruction : string)
    (now : Z) (page0 : Page.t) (countdown0 : Countdown.t)
    (evs : list App.Event) :
  sameForm page0
    (App.page (App.run engine generateContent JSON_parse trim systemInstruction evs
                 (App.start false now page0 countdown0)))
  /\ App.inputSection
       (App.run engine generateContent JSON_parse trim systemInstruction evs
          (App.start false now page0 countdown0))
     = Some App.configError
  /\ App.styles
       (App.run engine generateContent JSON_parse trim systemInstruction evs
          (App.start false now page0 countdown0))
     = [App.configErrorStyle].
Proof.
  exact (AppMore.run_idle engine generateContent JSON_parse trim systemInstruction
           evs (App.start false now page0 countdown0) eq_refl).
Qed.

(** X21. The countdown runs regardless of the client: with or without it,
    and whatever else happens on the page, the countdown after a run of
    events is the one that [setDeadline] started, fired at the clock
    readings of its timer. *)
Theorem countdown_runs_regardless
    (engine : Engine.t)
    (generateContent : Page.GenerateContentParameters -> settled (option string))
    (JSON_parse : string -> result ResultDocument.t)
    (trim : string -> string) (systemInstruction : string)
    (ai : bool) (now : Z) (page0 : Page.t) (countdown0 : Countdown.t)
    (evs : list App.Event) :
  App.countdown
    (App.run engine generateContent JSON_parse trim systemInstruction evs
       (App.start ai now page0 countdown0))
  = Countdown.ticks (readings evs) (Countdown.setDeadline now countdown0).
Proof.
  rewrite AppMore.run_countdown. destruct ai; reflexivity.
Qed.
